(** * ZIP responding service of tashrouter: a shallow embedding

    Source: [src/tashrouter/service/zip/responding.py], class
    [ZipRespondingService].  Python [bytes] are lists of [byte], Python
    integers are [Z], exceptions are an explicit [outcome], and the calls
    [router.route] and [rx_port.send] are recorded in an output log. *)

From Stdlib Require Import String.
From Stdlib Require Import ZArith List Bool Lia.
From Stdlib Require Import Strings.Byte.
Import ListNotations.
Open Scope Z_scope.

(** ** Bytes, indexing and slicing *)

Definition bytes := list byte.

Definition Z_of_byte (b : byte) : Z := Z.of_N (Byte.to_N b).

Definition byte_of_Z (z : Z) : byte :=
  match Byte.of_N (Z.to_N z) with
  | Some b => b
  | None => x00
  end.

(** Python's [len]. *)
Definition len {A : Type} (l : list A) : Z := Z.of_nat (length l).

(** Python's [l[a:b]] for [0 <= a]: never raises, truncates at the end. *)
Definition slice {A : Type} (a b : nat) (l : list A) : list A :=
  firstn (b - a) (skipn a l).

Fixpoint bytes_eqb (x y : bytes) : bool :=
  match x, y with
  | [], [] => true
  | a :: x', b :: y' => Byte.eqb a b && bytes_eqb x' y'
  | _, _ => false
  end.

(** Truthiness of a [bytes] object: empty is false. *)
Definition truthy (b : bytes) : bool :=
  match b with
  | [] => false
  | _ :: _ => true
  end.

(** ** Exceptions and the output log *)

Inductive exn : Type :=
| StructError   (* struct.error *)
| TypeError
| IndexError.

Inductive outcome (A : Type) : Type :=
| Returned (a : A)
| Raised (e : exn).
Arguments Returned {A} a.
Arguments Raised {A} e.

Definition obind {A B : Type} (o : outcome A) (f : A -> outcome B) : outcome B :=
  match o with
  | Returned a => f a
  | Raised e => Raised e
  end.

Notation "x <-? o ;; k" := (obind o (fun x => k))
  (at level 61, o at next level, right associativity).

Fixpoint mapM {A B : Type} (f : A -> outcome B) (l : list A) : outcome (list B) :=
  match l with
  | [] => Returned []
  | a :: l' => b <-? f a ;; bs <-? mapM f l' ;; Returned (b :: bs)
  end.

(** [data[i]]: an [int] in [0 .. 255], or [IndexError]. *)
Definition getitem (d : bytes) (i : nat) : outcome Z :=
  match nth_error d i with
  | Some b => Returned (Z_of_byte b)
  | None => Raised IndexError
  end.

(** ** The struct module, for the formats the service uses *)

(** A value that reaches [struct.pack]: an [int], or the tuple that
    [struct.unpack] returns. *)
Inductive pyobj : Type :=
| PyInt (z : Z)
| PyTuple (zs : list Z).

Definition pyobj_eqb (a b : pyobj) : bool :=
  match a, b with
  | PyInt x, PyInt y => x =? y
  | PyTuple xs, PyTuple ys =>
      (length xs =? length ys)%nat && forallb (fun p => fst p =? snd p) (combine xs ys)
  | _, _ => false
  end.

(** [struct.pack] requires an integer argument for B and H. *)
Definition as_int (o : pyobj) : outcome Z :=
  match o with
  | PyInt z => Returned z
  | PyTuple _ => Raised StructError
  end.

(** Format B: one unsigned byte. *)
Definition pack_B (z : Z) : outcome bytes :=
  if (0 <=? z) && (z <=? 255) then Returned [byte_of_Z z] else Raised StructError.

(** Format >H: two bytes, most significant first. *)
Definition pack_H (z : Z) : outcome bytes :=
  if (0 <=? z) && (z <=? 65535)
  then Returned [byte_of_Z (z / 256); byte_of_Z (z mod 256)]
  else Raised StructError.

(** [struct.pack('>HB', network, n)], [network] being whatever the caller
    iterates over. *)
Definition struct_pack_HB (network : pyobj) (n : Z) : outcome bytes :=
  v <-? as_int network ;; h <-? pack_H v ;; b <-? pack_B n ;; Returned (h ++ b).

Definition struct_pack_BB (a b : Z) : outcome bytes :=
  x <-? pack_B a ;; y <-? pack_B b ;; Returned (x ++ y).

(** [struct.unpack('>H', b)]: the result is a tuple of one element. *)
Definition struct_unpack_H (b : bytes) : outcome pyobj :=
  match b with
  | [hi; lo] => Returned (PyTuple [Z_of_byte hi * 256 + Z_of_byte lo])
  | _ => Raised StructError
  end.

(** [struct.unpack('>BBHBBH', b)], the ATP header of the three ATP requests. *)
Definition struct_unpack_BBHBBH (b : bytes) : outcome (Z * Z * Z * Z * Z * Z) :=
  match b with
  | [b0; b1; b2; b3; b4; b5; b6; b7] =>
      Returned (Z_of_byte b0, Z_of_byte b1, Z_of_byte b2 * 256 + Z_of_byte b3,
                Z_of_byte b4, Z_of_byte b5, Z_of_byte b6 * 256 + Z_of_byte b7)
  | _ => Raised StructError
  end.

(** ** Collaborators: datagram, port, zone information table, router

    The classes behind these live outside the service module.  A datagram
    is the record of the keyword arguments the service constructs it with;
    the table and the port are the functions the service calls on them, and
    those calls themselves return. *)

Record Datagram : Type := {
  hop_count : Z;
  destination_network : Z;
  source_network : Z;
  destination_node : Z;
  source_node : Z;
  destination_socket : Z;
  source_socket : Z;
  ddp_type : Z;
  data : bytes
}.

Record Port : Type := {
  network : Z;
  network_min : Z;
  network_max : Z;
  node : Z;
  multicast_address : bytes -> bytes
}.

(** The three enumerations of the table; each call gives the finite sequence
    a fresh iterator would produce.  [zones_in_network] receives the object
    the caller passes. *)
Record ZoneInformationTable : Type := {
  zones : list bytes;
  zones_in_network : pyobj -> list bytes;
  zones_in_network_range : Z -> Z -> list bytes
}.

Record Router : Type := {
  zone_information_table : ZoneInformationTable
}.

(** What the service does to the outside. *)
Inductive action : Type :=
| Route (d : Datagram)                          (* router.route(d) *)
| Send (via : Port) (dst_net dst_node : Z) (d : Datagram).  (* rx_port.send(...) *)

(** A computation: the actions performed so far, and how it ended. *)
Definition M (A : Type) : Type := (list action * outcome A)%type.

Definition ret {A : Type} (a : A) : M A := ([], Returned a).
Definition raise {A : Type} (e : exn) : M A := ([], Raised e).
Definition lift {A : Type} (o : outcome A) : M A := ([], o).
Definition emit (a : action) : M unit := ([a], Returned tt).

Definition bind {A B : Type} (m : M A) (f : A -> M B) : M B :=
  match m with
  | (done, Returned a) => let (more, o) := f a in (done ++ more, o)
  | (done, Raised e) => (done, Raised e)
  end.

Notation "x <- m ;; k" := (bind m (fun x => k))
  (at level 61, m at next level, right associativity).
Notation "m ;;; k" := (bind m (fun _ => k))
  (at level 61, right associativity).

Definition emitted {A : Type} (m : M A) : list action := fst m.
Definition result {A : Type} (m : M A) : outcome A := snd m.

(** [for x in l: body x]. *)
Fixpoint for_each {A : Type} (l : list A) (body : A -> M unit) : M unit :=
  match l with
  | [] => ret tt
  | a :: l' => body a ;;; for_each l' body
  end.

(** Protocol constants of the [ZipService] base class, which the service
    module imports. *)
Record ZipConsts : Type := {
  ZIP_SAS : Z;
  ZIP_DDP_TYPE : Z;
  ZIP_FUNC_QUERY : Z;
  ZIP_FUNC_REPLY : Z;
  ZIP_FUNC_GETNETINFO_REQUEST : Z;
  ZIP_FUNC_GETNETINFO_REPLY : Z;
  ZIP_FUNC_EXT_REPLY : Z;
  ZIP_ATP_FUNC_GETMYZONE : Z;
  ZIP_ATP_FUNC_GETZONELIST : Z;
  ZIP_ATP_FUNC_GETLOCALZONES : Z;
  ZIP_GETNETINFO_ZONE_INVALID : Z;
  ZIP_GETNETINFO_USE_BROADCAST : Z;
  ZIP_GETNETINFO_ONLY_ONE_ZONE : Z;
  ATP_DDP_TYPE : Z;
  ATP_FUNC_TREQ : Z;
  ATP_FUNC_TRESP : Z;
  ATP_EOM : Z
}.

(** ** The service *)

(** The dictionary [zone_list_by_network] of [_query]: keys in insertion
    order, each with the deque of its list items. *)
Fixpoint dict_append (k : pyobj) (v : bytes) (d : list (pyobj * list bytes))
  : list (pyobj * list bytes) :=
  match d with
  | [] => [(k, [v])]
  | (k', vs) :: d' =>
      if pyobj_eqb k' k then (k', vs ++ [v]) :: d' else (k', vs) :: dict_append k v d'
  end.

Definition struct_pack_BBHHB (a b c d e : Z) : outcome bytes :=
  x1 <-? pack_B a ;; x2 <-? pack_B b ;; x3 <-? pack_H c ;; x4 <-? pack_H d ;;
  x5 <-? pack_B e ;; Returned (x1 ++ x2 ++ x3 ++ x4 ++ x5).

Definition struct_pack_BBHBBH (a b c d e f : Z) : outcome bytes :=
  x1 <-? pack_B a ;; x2 <-? pack_B b ;; x3 <-? pack_H c ;; x4 <-? pack_B d ;;
  x5 <-? pack_B e ;; x6 <-? pack_H f ;; Returned (x1 ++ x2 ++ x3 ++ x4 ++ x5 ++ x6).

Definition struct_pack_BBHBBHB (a b c d e f g : Z) : outcome bytes :=
  x <-? struct_pack_BBHBBH a b c d e f ;; y <-? pack_B g ;; Returned (x ++ y).

(** The local variables of the loop of [_get_net_info]. *)
Record net_info_scan : Type := {
  flags : Z;
  default_zone_name : option bytes;
  number_of_zones : Z;
  mcast_address : bytes
}.

(** An entry of the service's queue. *)
Inductive queue_item : Type :=
| Item (datagram : Datagram) (rx_port : Port)
| stop_flag.

Section Service.

Variable K : ZipConsts.
(** [Datagram.MAX_DATA_LENGTH], a constant of the datagram class. *)
Variable MAX_DATA_LENGTH : Z.
(** [ucase] of the zone information table module. *)
Variable ucase : bytes -> bytes.

(** The reply datagram every routed answer is built as: addressed back to
    the sender, source network and node zero. *)
Definition reply_datagram (datagram : Datagram) (ty : Z) (payload : bytes) : Datagram :=
  {| hop_count := 0;
     destination_network := source_network datagram;
     source_network := 0;
     destination_node := source_node datagram;
     source_node := 0;
     destination_socket := source_socket datagram;
     source_socket := destination_socket datagram;
     ddp_type := ty;
     data := payload |}.

(** The inner loop of [_networks_zone_list] for one network. *)
Fixpoint network_zone_items (network : pyobj) (zone_names : list bytes)
  : outcome (list (pyobj * bytes)) :=
  match zone_names with
  | [] => Returned []
  | zone_name :: rest =>
      hdr <-? struct_pack_HB network (len zone_name) ;;
      items <-? network_zone_items network rest ;;
      Returned ((network, hdr ++ zone_name) :: items)
  end.

(** [list(cls._networks_zone_list(zit, networks))]. *)
Fixpoint _networks_zone_list (zit : ZoneInformationTable) (networks : list pyobj)
  : outcome (list (pyobj * bytes)) :=
  match networks with
  | [] => Returned []
  | network :: rest =>
      items <-? network_zone_items network (zones_in_network zit network) ;;
      more <-? _networks_zone_list zit rest ;;
      Returned (items ++ more)
  end.

Definition byte_length (networks_zone_list : list (pyobj * bytes)) : Z :=
  fold_right (fun item acc => len (snd item) + acc) 0 networks_zone_list.

Definition group_by_network (networks_zone_list : list (pyobj * bytes))
  : list (pyobj * list bytes) :=
  fold_left (fun d item => dict_append (fst item) (snd item) d) networks_zone_list [].

(** The loop over [chain(zone_list, (None,))] for one network.  The deque
    [datagram_data] and its length are never reset after a datagram is
    routed, and the two statements after the [if] run for the final [None]
    too, where [len(None)] raises. *)
Fixpoint extended_reply_loop (datagram : Datagram) (zone_list_len : Z)
    (items : list (option bytes)) (datagram_data : list bytes)
    (datagram_data_length : Z) : M unit :=
  match items with
  | [] => ret tt
  | list_item :: rest =>
      (if match list_item with
          | None => true
          | Some it => datagram_data_length + len it >? MAX_DATA_LENGTH - 2
          end
       then hdr <- lift (struct_pack_BB (ZIP_FUNC_EXT_REPLY K) zone_list_len) ;;
            emit (Route (reply_datagram datagram (ZIP_DDP_TYPE K)
                                        (hdr ++ concat datagram_data)))
       else ret tt) ;;;
      match list_item with
      | None => raise TypeError
      | Some it =>
          extended_reply_loop datagram zone_list_len rest
            (datagram_data ++ [it]) (datagram_data_length + len it)
      end
  end.

(** The [else] branch of [_query]. *)
Definition extended_replies (datagram : Datagram)
    (networks_zone_list : list (pyobj * bytes)) : M unit :=
  for_each (group_by_network networks_zone_list)
    (fun entry =>
       let zone_list := snd entry in
       extended_reply_loop datagram (len zone_list)
         (map Some zone_list ++ [None]) [] 0).

(** The list comprehension of [_query]: one [struct.unpack] result for
    each requested network. *)
Definition query_networks (datagram : Datagram) (network_count : Z)
  : outcome (list pyobj) :=
  mapM (fun i => struct_unpack_H (slice (i * 2 + 2) (i * 2 + 4) (data datagram)))
       (seq 0 (Z.to_nat network_count)).

Definition _query (router : Router) (datagram : Datagram) : M unit :=
  if len (data datagram) <? 4 then ret tt else
  network_count <- lift (getitem (data datagram) 1) ;;
  if negb (len (data datagram) =? network_count * 2 + 2) then ret tt else
  networks <- lift (query_networks datagram network_count) ;;
  networks_zone_list <-
    lift (_networks_zone_list (zone_information_table router) networks) ;;
  let networks_zone_list_byte_length := byte_length networks_zone_list in
  if networks_zone_list_byte_length + 2 <=? MAX_DATA_LENGTH then
    hdr <- lift (struct_pack_BB (ZIP_FUNC_REPLY K) (len networks)) ;;
    emit (Route (reply_datagram datagram (ZIP_DDP_TYPE K)
                                (hdr ++ concat (map snd networks_zone_list))))
  else extended_replies datagram networks_zone_list.

(** The [for] loop of [_get_net_info], with its [break]. *)
Fixpoint scan_zones (rx_port : Port) (given_zone_name_ucase : bytes)
    (zone_names : list bytes) (s : net_info_scan) : net_info_scan :=
  match zone_names with
  | [] => s
  | zone_name :: rest =>
      let n := number_of_zones s + 1 in
      let s1 :=
        match default_zone_name s with
        | None => (Some zone_name, multicast_address rx_port zone_name)
        | Some d => (Some d, mcast_address s)
        end in
      let s2 :=
        if bytes_eqb (ucase zone_name) given_zone_name_ucase
        then (Z.land (flags s) (Z.lnot (ZIP_GETNETINFO_ZONE_INVALID K)),
              multicast_address rx_port zone_name)
        else (flags s, snd s1) in
      if n >? 1 then
        let fl := Z.land (fst s2) (Z.lnot (ZIP_GETNETINFO_ONLY_ONE_ZONE K)) in
        let s3 := {| flags := fl; default_zone_name := fst s1;
                     number_of_zones := n; mcast_address := snd s2 |} in
        if Z.land fl (ZIP_GETNETINFO_ZONE_INVALID K) =? 0 then s3
        else scan_zones rx_port given_zone_name_ucase rest s3
      else
        scan_zones rx_port given_zone_name_ucase rest
          {| flags := fst s2; default_zone_name := fst s1;
             number_of_zones := n; mcast_address := snd s2 |}
  end.

(** The datagram [_get_net_info] sends through the receiving port: from
    the port's own network and node, source socket [ZIP_SAS]. *)
Definition net_info_datagram (datagram : Datagram) (rx_port : Port) (reply_data : bytes)
  : Datagram :=
  {| hop_count := 0;
     destination_network := source_network datagram;
     source_network := network rx_port;
     destination_node := source_node datagram;
     source_node := node rx_port;
     destination_socket := source_socket datagram;
     source_socket := ZIP_SAS K;
     ddp_type := ZIP_DDP_TYPE K;
     data := reply_data |}.

(** [reply_data] of [_get_net_info]: the six parts joined, evaluated in
    order; [len(default_zone_name)] raises when no zone was seen. *)
Definition net_info_reply_data (rx_port : Port) (given_zone_name : bytes)
    (flags : Z) (s : net_info_scan) : outcome bytes :=
  let invalid := negb (Z.land flags (ZIP_GETNETINFO_ZONE_INVALID K) =? 0) in
  hdr <-? struct_pack_BBHHB (ZIP_FUNC_GETNETINFO_REPLY K) flags
            (network_min rx_port) (network_max rx_port) (len given_zone_name) ;;
  mlen <-? pack_B (len (mcast_address s)) ;;
  dlen <-? (if invalid
            then match default_zone_name s with
                 | Some d => pack_B (len d)
                 | None => Raised TypeError      (* len(None) *)
                 end
            else Returned []) ;;
  dname <-? (if invalid
             then match default_zone_name s with
                  | Some d => Returned d
                  | None => Raised TypeError
                  end
             else Returned []) ;;
  Returned (hdr ++ given_zone_name ++ mlen ++ mcast_address s ++ dlen ++ dname).

Definition _get_net_info (router : Router) (datagram : Datagram) (rx_port : Port)
  : M unit :=
  if (network rx_port =? 0) || (network_min rx_port =? 0) || (network_max rx_port =? 0)
  then ret tt else
  if len (data datagram) <? 7 then ret tt else
  if negb (bytes_eqb (slice 1 6 (data datagram)) [x00; x00; x00; x00; x00])
  then ret tt else
  given_len <- lift (getitem (data datagram) 6) ;;
  let given_zone_name := slice 7 (7 + Z.to_nat given_len) (data datagram) in
  let given_zone_name_ucase := ucase given_zone_name in
  let s := scan_zones rx_port given_zone_name_ucase
             (zones_in_network_range (zone_information_table router)
                                     (network_min rx_port) (network_max rx_port))
             {| flags := Z.lor (ZIP_GETNETINFO_ZONE_INVALID K)
                               (ZIP_GETNETINFO_ONLY_ONE_ZONE K);
                default_zone_name := None;
                number_of_zones := 0;
                mcast_address := [] |} in
  let flags := if truthy (mcast_address s) then flags s
               else Z.lor (flags s) (ZIP_GETNETINFO_USE_BROADCAST K) in
  reply_data <- lift (net_info_reply_data rx_port given_zone_name flags s) ;;
  emit (Send rx_port (source_network datagram) (source_node datagram)
             (net_info_datagram datagram rx_port reply_data)).

Definition _get_my_zone (router : Router) (datagram : Datagram) : M unit :=
  hdr <- lift (struct_unpack_BBHBBH (data datagram)) ;;
  let '(_, _, tid, _, _, start_index) := hdr in
  if negb (start_index =? 0) then ret tt else
  match zones_in_network (zone_information_table router)
                         (PyInt (source_network datagram)) with
  | [] => ret tt                       (* next(..., None) is None *)
  | zone_name :: _ =>
      if negb (truthy zone_name) then ret tt else
      h <- lift (struct_pack_BBHBBHB (Z.lor (ATP_FUNC_TRESP K) (ATP_EOM K))
                                     0 tid 0 0 1 (len zone_name)) ;;
      emit (Route (reply_datagram datagram (ATP_DDP_TYPE K) (h ++ zone_name)))
  end.

(** The [while ... else] loop of [_get_zone_list]: the result is
    [(last_flag, zone_list, num_zones)]. *)
Fixpoint collect_zones (zone_iter : list bytes) (zone_list : list bytes)
    (num_zones data_length : Z) : outcome (Z * list bytes * Z) :=
  match zone_iter with
  | [] => Returned (1, zone_list, num_zones)
  | zone_name :: rest =>
      if negb (truthy zone_name) then Returned (1, zone_list, num_zones) else
      if data_length + 1 + len zone_name >? MAX_DATA_LENGTH
      then Returned (0, zone_list, num_zones) else
      l <-? pack_B (len zone_name) ;;
      collect_zones rest (zone_list ++ [l; zone_name]) (num_zones + 1)
                    (data_length + 1 + len zone_name)
  end.

Definition _get_zone_list (router : Router) (datagram : Datagram)
    (rx_port : option Port) : M unit :=
  hdr <- lift (struct_unpack_BBHBBH (data datagram)) ;;
  let '(_, _, tid, _, _, start_index) := hdr in
  let zone_iter :=
    match rx_port with
    | Some p => zones_in_network_range (zone_information_table router)
                                       (network_min p) (network_max p)
    | None => zones (zone_information_table router)
    end in
  let zone_iter := skipn (Z.to_nat (start_index - 1)) zone_iter in
  page <- lift (collect_zones zone_iter [] 0 8) ;;
  let '(last_flag, zone_list, num_zones) := page in
  h <- lift (struct_pack_BBHBBH (Z.lor (ATP_FUNC_TRESP K) (ATP_EOM K))
                                0 tid last_flag 0 num_zones) ;;
  emit (Route (reply_datagram datagram (ATP_DDP_TYPE K) (h ++ concat zone_list))).

(** The body of the loop of [_run] for one queued pair. *)
Definition dispatch (router : Router) (datagram : Datagram) (rx_port : Port) : M unit :=
  if ddp_type datagram =? ZIP_DDP_TYPE K then
    if negb (truthy (data datagram)) then ret tt else
    func <- lift (getitem (data datagram) 0) ;;
    if func =? ZIP_FUNC_QUERY K then _query router datagram
    else if func =? ZIP_FUNC_GETNETINFO_REQUEST K then _get_net_info router datagram rx_port
    else ret tt
  else if ddp_type datagram =? ATP_DDP_TYPE K then
    if negb (len (data datagram) =? 8) then ret tt else
    hdr <- lift (struct_unpack_BBHBBH (data datagram)) ;;
    let '(control, bitmap, _, func, zero, _) := hdr in
    if negb (control =? ATP_FUNC_TREQ K) || negb (bitmap =? 1) || negb (zero =? 0)
    then ret tt else
    if func =? ZIP_ATP_FUNC_GETMYZONE K then _get_my_zone router datagram
    else if func =? ZIP_ATP_FUNC_GETZONELIST K then _get_zone_list router datagram None
    else if func =? ZIP_ATP_FUNC_GETLOCALZONES K
         then _get_zone_list router datagram (Some rx_port)
    else ret tt
  else ret tt.

(** [_run]: the queue is the list of entries in arrival order; the worker
    leaves the loop at the stop flag, and an exception of a handler leaves
    it too, since the loop has no handler for it.  An exhausted list is the
    worker waiting in [queue.get()]. *)
Fixpoint _run (router : Router) (queue : list queue_item) : M unit :=
  match queue with
  | [] => ret tt
  | stop_flag :: _ => ret tt
  | Item datagram rx_port :: rest =>
      dispatch router datagram rx_port ;;; _run router rest
  end.

End Service.

(** ** Concrete collaborators used in the examples *)

(** The AppleTalk values of the constants. *)
Definition appletalk : ZipConsts :=
  {| ZIP_SAS := 6;
     ZIP_DDP_TYPE := 6;
     ZIP_FUNC_QUERY := 1;
     ZIP_FUNC_REPLY := 2;
     ZIP_FUNC_GETNETINFO_REQUEST := 5;
     ZIP_FUNC_GETNETINFO_REPLY := 6;
     ZIP_FUNC_EXT_REPLY := 8;
     ZIP_ATP_FUNC_GETMYZONE := 7;
     ZIP_ATP_FUNC_GETZONELIST := 8;
     ZIP_ATP_FUNC_GETLOCALZONES := 9;
     ZIP_GETNETINFO_ZONE_INVALID := 128;
     ZIP_GETNETINFO_USE_BROADCAST := 64;
     ZIP_GETNETINFO_ONLY_ONE_ZONE := 32;
     ATP_DDP_TYPE := 3;
     ATP_FUNC_TREQ := 64;
     ATP_FUNC_TRESP := 128;
     ATP_EOM := 16 |}.

(** The data size of a DDP datagram. *)
Definition DDP_MAX_DATA_LENGTH : Z := 586.

(** A case fold for the examples: ASCII letters to upper case. *)
Definition ascii_ucase (b : bytes) : bytes :=
  map (fun c => let z := Z_of_byte c in
                if (97 <=? z) && (z <=? 122) then byte_of_Z (z - 32) else c) b.

Definition zone (s : string) : bytes := list_byte_of_string s.

Definition bytes_of (l : list Z) : bytes := map byte_of_Z l.

Fixpoint table_lookup (tab : list (Z * list bytes)) (n : Z) : list bytes :=
  match tab with
  | [] => []
  | (k, zs) :: tab' => if k =? n then zs else table_lookup tab' n
  end.

Definition table_range (tab : list (Z * list bytes)) (lo hi : Z) : list bytes :=
  concat (map snd (filter (fun e => (lo <=? fst e) && (fst e <=? hi)) tab)).

(** A table keyed by network numbers: a key that is not an integer finds
    nothing. *)
Definition zit_of (tab : list (Z * list bytes)) : ZoneInformationTable :=
  {| zones := concat (map snd tab);
     zones_in_network := fun k => match k with
                                  | PyInt n => table_lookup tab n
                                  | PyTuple _ => []
                                  end;
     zones_in_network_range := table_range tab |}.

(** The same table, answering for a one-element tuple as for its element. *)
Definition zit_lenient_of (tab : list (Z * list bytes)) : ZoneInformationTable :=
  {| zones := concat (map snd tab);
     zones_in_network := fun k => match k with
                                  | PyInt n => table_lookup tab n
                                  | PyTuple [n] => table_lookup tab n
                                  | PyTuple _ => []
                                  end;
     zones_in_network_range := table_range tab |}.

Definition router_of (zit : ZoneInformationTable) : Router :=
  {| zone_information_table := zit |}.

(** A request datagram from node 7 of network 3, socket 250, to socket 6. *)
Definition request (ty : Z) (payload : bytes) : Datagram :=
  {| hop_count := 0;
     destination_network := 0;
     source_network := 3;
     destination_node := 1;
     source_node := 7;
     destination_socket := 6;
     source_socket := 250;
     ddp_type := ty;
     data := payload |}.

Definition sales_table : list (Z * list bytes) :=
  [(10, [zone "Sales"; zone "Eng"]); (20, [zone "HR"])].

(** The query of the scenario: networks 10 and 20. *)
Definition query_10_20 : Datagram := request 6 (bytes_of [1; 2; 0; 10; 0; 20]).

Definition sales_zit : ZoneInformationTable := zit_of sales_table.

(** The reply the scenario expects for it. *)
Definition reply_10_20 : Datagram :=
  reply_datagram query_10_20 6
    (bytes_of [2; 2] ++
     bytes_of [0; 10; 5] ++ zone "Sales" ++
     bytes_of [0; 10; 3] ++ zone "Eng" ++
     bytes_of [0; 20; 2] ++ zone "HR").

(** A query listing no network: function code and a count of zero. *)
Definition query_none : Datagram := request 6 (bytes_of [1; 0]).

(** Eighty zones of six bytes, Zone00 to Zone79, all in network 10: their
    list items take 720 bytes. *)
Definition numbered_zone (i : nat) : bytes :=
  zone "Zone" ++ bytes_of [48 + Z.of_nat i / 10; 48 + Z.of_nat i mod 10].

Definition big_table : list (Z * list bytes) :=
  [(10, map numbered_zone (seq 0 80)); (20, [zone "HR"])].

(** The list items [_networks_zone_list] is written to produce for integer
    network numbers. *)
Definition list_item_of (n : Z) (zone_name : bytes) : pyobj * bytes :=
  (PyInt n, bytes_of [n / 256; n mod 256; len zone_name] ++ zone_name).

Definition big_zone_list : list (pyobj * bytes) :=
  map (list_item_of 10) (map numbered_zone (seq 0 80)) ++ [list_item_of 20 (zone "HR")].

(** A port on network 3, for which [sales_table] has no zone, and one on
    network 10. *)
Definition port_3 : Port :=
  {| network := 3; network_min := 3; network_max := 3; node := 1;
     multicast_address := fun _ => bytes_of [9; 0; 7; 0; 0; 1] |}.

Definition port_10 : Port :=
  {| network := 10; network_min := 10; network_max := 10; node := 1;
     multicast_address := fun _ => bytes_of [9; 0; 7; 0; 0; 1] |}.

(** Get-net-info requests: for the default zone (empty name), for zone "eng",
    and one whose length byte says 3 while one name byte follows. *)
Definition get_net_info_empty : Datagram := request 6 (bytes_of [5; 0; 0; 0; 0; 0; 0]).
Definition get_net_info_eng : Datagram :=
  request 6 (bytes_of [5; 0; 0; 0; 0; 0; 3] ++ zone "eng").
Definition get_net_info_short : Datagram :=
  request 6 (bytes_of [5; 0; 0; 0; 0; 0; 3] ++ zone "H").

(** ATP requests with transaction id 0x0102: get-my-zone, get-zone-list. *)
Definition atp_request (func start_index : Z) : Datagram :=
  request 3 (bytes_of [64; 1; 1; 2; func; 0; start_index / 256; start_index mod 256]).

(** ** Notions the properties are stated with *)

Definition is_tuple (o : pyobj) : Prop :=
  match o with
  | PyTuple _ => True
  | PyInt _ => False
  end.

(** The count byte of a query, [data[1]]. *)
Definition count_byte (datagram : Datagram) : Z := Z_of_byte (nth 1 (data datagram) x00).

(** A handler that returns without having done anything. *)
Definition dropped (m : M unit) : Prop := m = ([], Returned tt).

(** One zone-name entry of an ATP reply: length byte, then the name. *)
Definition zone_entry (zone_name : bytes) : bytes := byte_of_Z (len zone_name) :: zone_name.

Definition entries_length (page : list bytes) : Z :=
  fold_right (fun z acc => 1 + len z + acc) 0 page.

(** A zone name its one-byte length field can describe, and that is not
    the empty name. *)
Definition valid_zone_name (zone_name : bytes) : Prop := 1 <= len zone_name <= 255.

Definition is_byte (z : Z) : Prop := 0 <= z <= 255.

(** The header of an ATP transaction response. *)
Definition atp_response_header (K : ZipConsts) (tid last_flag count : Z) : bytes :=
  bytes_of [Z.lor (ATP_FUNC_TRESP K) (ATP_EOM K); 0; tid / 256; tid mod 256;
            last_flag; 0; count / 256; count mod 256].

(** Transaction id and start index of an 8-byte ATP request. *)
Definition atp_tid (datagram : Datagram) : Z :=
  Z_of_byte (nth 2 (data datagram) x00) * 256 + Z_of_byte (nth 3 (data datagram) x00).
Definition atp_start_index (datagram : Datagram) : Z :=
  Z_of_byte (nth 6 (data datagram) x00) * 256 + Z_of_byte (nth 7 (data datagram) x00).

(** The requested zone name of a get-net-info request,
    [data[7:7 + data[6]]]. *)
Definition given_zone_name (datagram : Datagram) : bytes :=
  slice 7 (7 + Z.to_nat (Z_of_byte (nth 6 (data datagram) x00))) (data datagram).

(** The get-net-info reply with the given flags byte, multicast address and
    tail, sent from the receiving port. *)
Definition net_info_reply (K : ZipConsts) (rx_port : Port) (datagram : Datagram)
    (flags : Z) (mcast tail : bytes) : Datagram :=
  net_info_datagram K datagram rx_port
    (bytes_of [ZIP_FUNC_GETNETINFO_REPLY K; flags;
               network_min rx_port / 256; network_min rx_port mod 256;
               network_max rx_port / 256; network_max rx_port mod 256;
               len (given_zone_name datagram)]
     ++ given_zone_name datagram
     ++ zone_entry mcast
     ++ tail).

(** What get-net-info needs of the constants: byte values, and a
    zone-invalid flag that is set in no other flag. *)
Record net_info_consts_ok (K : ZipConsts) : Prop := {
  reply_code_byte : is_byte (ZIP_FUNC_GETNETINFO_REPLY K);
  zone_invalid_byte : is_byte (ZIP_GETNETINFO_ZONE_INVALID K);
  only_one_zone_byte : is_byte (ZIP_GETNETINFO_ONLY_ONE_ZONE K);
  use_broadcast_byte : is_byte (ZIP_GETNETINFO_USE_BROADCAST K);
  zone_invalid_nonzero : ZIP_GETNETINFO_ZONE_INVALID K <> 0;
  zone_invalid_not_only_one :
    Z.land (ZIP_GETNETINFO_ZONE_INVALID K) (ZIP_GETNETINFO_ONLY_ONE_ZONE K) = 0;
  zone_invalid_not_broadcast :
    Z.land (ZIP_GETNETINFO_ZONE_INVALID K) (ZIP_GETNETINFO_USE_BROADCAST K) = 0
}.

(** A port with an assigned network range of 16-bit numbers, whose multicast
    addresses fit a one-byte length. *)
Record port_ok (p : Port) : Prop := {
  port_network : network p <> 0;
  port_network_min : 1 <= network_min p <= 65535;
  port_network_max : 1 <= network_max p <= 65535;
  port_multicast : forall zone_name, len (multicast_address p zone_name) <= 255
}.

(** The same ATP request with another start index. *)
Definition with_start_index (datagram : Datagram) (start_index : Z) : Datagram :=
  {| hop_count := hop_count datagram;
     destination_network := destination_network datagram;
     source_network := source_network datagram;
     destination_node := destination_node datagram;
     source_node := source_node datagram;
     destination_socket := destination_socket datagram;
     source_socket := source_socket datagram;
     ddp_type := ddp_type datagram;
     data := firstn 6 (data datagram)
             ++ bytes_of [start_index / 256; start_index mod 256] |}.

(** The sequence a get-zone-list request enumerates. *)
Definition zone_sequence (router : Router) (rx_port : option Port) : list bytes :=
  match rx_port with
  | Some p => zones_in_network_range (zone_information_table router)
                                     (network_min p) (network_max p)
  | None => zones (zone_information_table router)
  end.

(** A port with no network range assigned. *)
Definition port_unassigned : Port :=
  {| network := 0; network_min := 0; network_max := 0; node := 1;
     multicast_address := fun _ => [] |}.

(** A get-my-zone request (start index 0) sent from network 10. *)
Definition get_my_zone_from_10 : Datagram :=
  {| hop_count := 0;
     destination_network := 0;
     source_network := 10;
     destination_node := 1;
     source_node := 7;
     destination_socket := 6;
     source_socket := 250;
     ddp_type := 3;
     data := bytes_of [64; 1; 1; 2; 7; 0; 0; 0] |}.

(** A get-zone-list request with start index 1. *)
Definition get_zone_list_1 : Datagram := atp_request 8 1.

(** Two queues: a get-net-info request on a range without zones, then a
    get-zone-list request; and a query for networks 10 and 20, then the same
    get-zone-list request. *)
Definition queue_net_info_first : list queue_item :=
  [Item get_net_info_empty port_3; Item get_zone_list_1 port_3].

Definition queue_query_first : list queue_item :=
  [Item query_10_20 port_3; Item get_zone_list_1 port_3].

(** ** The queue operations of the service *)

(** [inbound]: [self.queue.put((datagram, rx_port))]. *)
Definition inbound (queue : list queue_item) (datagram : Datagram) (rx_port : Port)
  : list queue_item :=
  queue ++ [Item datagram rx_port].

(** [stop]: [self.queue.put(self.stop_flag)]; the wait for the worker's
    event that follows is no queue operation. *)
Definition stop (queue : list queue_item) : list queue_item := queue ++ [stop_flag].

(** The byte [data[i]] of a datagram, as a number. *)
Definition byte_at (i : nat) (datagram : Datagram) : Z :=
  Z_of_byte (nth i (data datagram) x00).

(** The datagrams the loop of [_run] has no branch for: another DDP type; a
    ZIP datagram without data or with another function code; an ATP datagram
    that is not 8 bytes long, not a single-segment transaction request with a
    zero byte, or for another function. *)
Definition unrecognised (K : ZipConsts) (datagram : Datagram) : Prop :=
  (ddp_type datagram <> ZIP_DDP_TYPE K /\ ddp_type datagram <> ATP_DDP_TYPE K)
  \/ (ddp_type datagram = ZIP_DDP_TYPE K
      /\ (data datagram = []
          \/ (byte_at 0 datagram <> ZIP_FUNC_QUERY K
              /\ byte_at 0 datagram <> ZIP_FUNC_GETNETINFO_REQUEST K)))
  \/ (ddp_type datagram <> ZIP_DDP_TYPE K /\ ddp_type datagram = ATP_DDP_TYPE K
      /\ (len (data datagram) <> 8
          \/ byte_at 0 datagram <> ATP_FUNC_TREQ K
          \/ byte_at 1 datagram <> 1
          \/ byte_at 5 datagram <> 0
          \/ (byte_at 4 datagram <> ZIP_ATP_FUNC_GETMYZONE K
              /\ byte_at 4 datagram <> ZIP_ATP_FUNC_GETZONELIST K
              /\ byte_at 4 datagram <> ZIP_ATP_FUNC_GETLOCALZONES K))).

(** The payload of a datagram handed to the router or to a port. *)
Definition payload (a : action) : bytes :=
  match a with
  | Route d => data d
  | Send _ _ _ d => data d
  end.

(** An action that answers the sender of [request]: a datagram with hop
    count zero for the source network, node and socket of the request, and,
    when sent through a port, sent to that network and node. *)
Definition answers (request : Datagram) (a : action) : Prop :=
  match a with
  | Route d =>
      hop_count d = 0
      /\ destination_network d = source_network request
      /\ destination_node d = source_node request
      /\ destination_socket d = source_socket request
  | Send _ dst_net dst_node d =>
      hop_count d = 0
      /\ destination_network d = source_network request
      /\ destination_node d = source_node request
      /\ destination_socket d = source_socket request
      /\ dst_net = source_network request
      /\ dst_node = source_node request
  end.

(** A table all of whose enumerations give names of 1 to 255 bytes. *)
Record zit_names_ok (zit : ZoneInformationTable) : Prop := {
  zones_ok : forall z, In z (zones zit) -> valid_zone_name z;
  zones_in_network_ok :
    forall k z, In z (zones_in_network zit k) -> valid_zone_name z;
  zones_in_network_range_ok :
    forall lo hi z, In z (zones_in_network_range zit lo hi) -> valid_zone_name z
}.

(** What the other two get-net-info flags need of the constants: nonzero
    flags that share no bit with each other. *)
Record net_info_flags_distinct (K : ZipConsts) : Prop := {
  only_one_zone_nonzero : ZIP_GETNETINFO_ONLY_ONE_ZONE K <> 0;
  use_broadcast_nonzero : ZIP_GETNETINFO_USE_BROADCAST K <> 0;
  only_one_not_broadcast :
    Z.land (ZIP_GETNETINFO_ONLY_ONE_ZONE K) (ZIP_GETNETINFO_USE_BROADCAST K) = 0
}.

(** The list items of the first network of a zone list, as the dictionary
    of [_query] groups them: the first item and the later items with an
    equal key. *)
Definition first_network_items (k : pyobj) (v : bytes) (rest : list (pyobj * bytes))
  : list bytes :=
  v :: map snd (filter (fun item => pyobj_eqb k (fst item)) rest).

(** ** The virtual LocalTalk network

    Source: [src/tashrouter/port/localtalk/virtual.py], class
    [VirtualLocalTalkNetwork].  A receive function is the bound method
    [_recv_packet] of a port, and two bound methods are equal when they
    belong to the same port, so a number naming the port stands for it.  The
    lock serialises the three operations; the model is their behaviour one
    after the other.  A call of a receive function is recorded, with the
    packet it is given. *)
Module VirtualLocalTalkNetwork.

Definition recv_func : Type := nat.

(** The deque [_plugged]. *)
Definition t : Type := list recv_func.

Definition init : t := [].

Definition plug (self : t) (f : recv_func) : t := self ++ [f].

(** [unplug]: [deque.remove] takes out the first occurrence and raises
    [ValueError], here [None], when there is none. *)
Fixpoint unplug (self : t) (f : recv_func) : option t :=
  match self with
  | [] => None
  | g :: self' =>
      if Nat.eqb g f then Some self'
      else match unplug self' f with
           | Some s => Some (g :: s)
           | None => None
           end
  end.

(** [send_packet]: the deque [function_calls] built under the lock, which
    the second loop then calls in order; the plugged functions are left as
    they are. *)
Definition send_packet (self : t) (packet_data : bytes) (f : recv_func)
  : list (recv_func * bytes) :=
  fold_left (fun function_calls func =>
               if Nat.eqb func f then function_calls
               else function_calls ++ [(func, packet_data)])
            self [].

End VirtualLocalTalkNetwork.

(** What a datagram routed in answer to [request] must be, field by field:
    hop count zero, sent back to the network, node and socket the request
    came from, from network zero, node zero and the socket the request was
    sent to, of the given DDP type and with the given data. *)
Definition routed_answer (request r : Datagram) (ty : Z) (reply_data : bytes) : Prop :=
  hop_count r = 0
  /\ destination_network r = source_network request
  /\ source_network r = 0
  /\ destination_node r = source_node request
  /\ source_node r = 0
  /\ destination_socket r = source_socket request
  /\ source_socket r = destination_socket request
  /\ ddp_type r = ty
  /\ data r = reply_data.


(** * Properties *)

(** ** Bytes and the two monads *)

Lemma Z_of_byte_range (b : byte) : 0 <= Z_of_byte b <= 255.
Proof.
  unfold Z_of_byte. pose proof (Byte.to_N_bounded b). lia.
Qed.

Lemma byte_of_Z_of_byte (b : byte) : byte_of_Z (Z_of_byte b) = b.
Proof.
  unfold byte_of_Z, Z_of_byte. rewrite N2Z.id, Byte.of_to_N. reflexivity.
Qed.

Lemma Z_of_byte_of_Z (z : Z) : 0 <= z <= 255 -> Z_of_byte (byte_of_Z z) = z.
Proof.
  intros Hz. unfold byte_of_Z, Z_of_byte.
  destruct (Byte.of_N (Z.to_N z)) as [b|] eqn:E.
  - apply Byte.to_of_N in E. rewrite E. lia.
  - apply Byte.of_N_None_iff in E. lia.
Qed.

Lemma bytes_eqb_eq (x y : bytes) : bytes_eqb x y = true <-> x = y.
Proof.
  revert y. induction x as [|a x IH]; intros [|b y]; simpl; split; intros H;
    try reflexivity; try discriminate.
  - apply andb_true_iff in H. destruct H as [Hab Hxy].
    apply Byte.byte_dec_bl in Hab. apply IH in Hxy. congruence.
  - injection H as -> ->. apply andb_true_iff. split.
    + now apply Byte.byte_dec_lb.
    + now apply IH.
Qed.

Lemma len_nonneg {A : Type} (l : list A) : 0 <= len l.
Proof. unfold len. lia. Qed.

Lemma len_cons {A : Type} (a : A) (l : list A) : len (a :: l) = 1 + len l.
Proof. unfold len. simpl length. lia. Qed.

Lemma len_app {A : Type} (l1 l2 : list A) : len (l1 ++ l2) = len l1 + len l2.
Proof. unfold len. rewrite length_app. lia. Qed.

Lemma bind_lift_Returned {A B : Type} (a : A) (f : A -> M B) :
  bind (lift (Returned a)) f = f a.
Proof. unfold bind, lift. simpl. now destruct (f a). Qed.

Lemma bind_lift_Raised {A B : Type} (e : exn) (f : A -> M B) :
  bind (lift (@Raised A e)) f = ([], Raised e).
Proof. reflexivity. Qed.

Lemma bind_ret {A B : Type} (a : A) (f : A -> M B) : bind (ret a) f = f a.
Proof. apply bind_lift_Returned. Qed.

Lemma result_bind {A B : Type} (m : M A) (f : A -> M B) :
  result (bind m f) =
    match result m with
    | Returned a => result (f a)
    | Raised e => Raised e
    end.
Proof.
  unfold result, bind. destruct m as [w [a|e]]; simpl; [|reflexivity].
  now destruct (f a).
Qed.

Lemma pack_B_byte (z : Z) : is_byte z -> pack_B z = Returned [byte_of_Z z].
Proof.
  unfold is_byte, pack_B. intros Hz.
  replace ((0 <=? z) && (z <=? 255)) with true; [reflexivity|].
  symmetry. apply andb_true_iff. split; apply Z.leb_le; lia.
Qed.

Lemma pack_H_word (z : Z) :
  0 <= z <= 65535 -> pack_H z = Returned [byte_of_Z (z / 256); byte_of_Z (z mod 256)].
Proof.
  unfold pack_H. intros Hz.
  replace ((0 <=? z) && (z <=? 65535)) with true; [reflexivity|].
  symmetry. apply andb_true_iff. split; apply Z.leb_le; lia.
Qed.

(** ** The query handler *)

Section Query.

Variable K : ZipConsts.
Variable MAX_DATA_LENGTH : Z.

Lemma slice_two (d : bytes) (i : nat) :
  (i * 2 + 4 <= length d)%nat ->
  exists hi lo, slice (i * 2 + 2) (i * 2 + 4) d = [hi; lo].
Proof.
  intros Hi. unfold slice.
  replace (i * 2 + 4 - (i * 2 + 2))%nat with 2%nat by lia.
  remember (skipn (i * 2 + 2) d) as t eqn:Et.
  assert (Hlen : (2 <= length t)%nat).
  { subst t. rewrite length_skipn. lia. }
  destruct t as [|hi [|lo t]]; simpl in Hlen; try lia.
  exists hi, lo. reflexivity.
Qed.

Lemma unpack_all_tuples (d : Datagram) (l : list nat) :
  (forall i, In i l -> (i * 2 + 4 <= length (data d))%nat) ->
  exists networks,
    mapM (fun i => struct_unpack_H (slice (i * 2 + 2) (i * 2 + 4) (data d))) l
      = Returned networks
    /\ length networks = length l
    /\ Forall is_tuple networks.
Proof.
  induction l as [|i l IH]; intros Hl.
  - exists []. simpl. auto.
  - destruct IH as (ns & Hm & Hlen & Hall).
    { intros j Hj. apply Hl. now right. }
    destruct (slice_two (data d) i) as (hi & lo & Hs).
    { apply Hl. now left. }
    exists (PyTuple [Z_of_byte hi * 256 + Z_of_byte lo] :: ns).
    simpl. rewrite Hs. simpl. rewrite Hm. simpl.
    repeat split; [congruence | constructor; simpl; auto].
Qed.

(** The comprehension of line 45 always succeeds on a payload of the checked
    length, and every element of its result is a tuple. *)
Lemma query_networks_tuples (d : Datagram) (count : Z) :
  0 <= count -> len (data d) = count * 2 + 2 ->
  exists networks,
    query_networks d count = Returned networks
    /\ len networks = count
    /\ Forall is_tuple networks.
Proof.
  intros Hc Hlen. unfold query_networks.
  destruct (unpack_all_tuples d (seq 0 (Z.to_nat count))) as (ns & Hm & Hl & Hall).
  - intros i Hi. apply in_seq in Hi. unfold len in Hlen. lia.
  - exists ns. repeat split; auto.
    unfold len. rewrite Hl, length_seq. lia.
Qed.

Lemma network_zone_items_tuple (t : list Z) (zs : list bytes) (items : list (pyobj * bytes)) :
  network_zone_items (PyTuple t) zs = Returned items -> items = [] /\ zs = [].
Proof.
  destruct zs as [|z zs]; simpl.
  - intros H. injection H as <-. auto.
  - discriminate.
Qed.

(** With tuples for networks, [_networks_zone_list] returns only when no
    requested network has a zone, and then returns the empty list. *)
Lemma networks_zone_list_of_tuples (zit : ZoneInformationTable) (networks : list pyobj)
    (nzl : list (pyobj * bytes)) :
  Forall is_tuple networks ->
  _networks_zone_list zit networks = Returned nzl ->
  nzl = [] /\ Forall (fun n => zones_in_network zit n = []) networks.
Proof.
  intros Hall. revert nzl. induction Hall as [|n ns Hn Hns IH]; intros nzl; simpl.
  - intros H. injection H as <-. auto.
  - destruct n as [z|t]; [contradiction|].
    destruct (network_zone_items (PyTuple t) (zones_in_network zit (PyTuple t)))
      as [items|e] eqn:Ei; simpl; [|discriminate].
    apply network_zone_items_tuple in Ei. destruct Ei as [-> Hz].
    destruct (_networks_zone_list zit ns) as [more|e] eqn:Em; simpl; [|discriminate].
    intros H. injection H as <-.
    destruct (IH more eq_refl) as [-> Hrest]. auto.
Qed.

Lemma getitem_1_count (d : Datagram) :
  4 <= len (data d) -> getitem (data d) 1 = Returned (count_byte d).
Proof.
  unfold len, getitem, count_byte.
  destruct (data d) as [|b0 [|b1 t]]; simpl; intros H; try lia. reflexivity.
Qed.

(** [_query] after its two guards. *)
Lemma query_past_guards (router : Router) (d : Datagram) (networks : list pyobj) :
  4 <= len (data d) ->
  len (data d) = count_byte d * 2 + 2 ->
  query_networks d (count_byte d) = Returned networks ->
  _query K MAX_DATA_LENGTH router d =
    match _networks_zone_list (zone_information_table router) networks with
    | Raised e => ([], Raised e)
    | Returned nzl =>
        if byte_length nzl + 2 <=? MAX_DATA_LENGTH then
          match struct_pack_BB (ZIP_FUNC_REPLY K) (len networks) with
          | Returned hdr =>
              ([Route (reply_datagram d (ZIP_DDP_TYPE K) (hdr ++ concat (map snd nzl)))],
               Returned tt)
          | Raised e => ([], Raised e)
          end
        else extended_replies K MAX_DATA_LENGTH d nzl
    end.
Proof.
  intros H4 Hlen Hn. unfold _query.
  replace (len (data d) <? 4) with false by (symmetry; apply Z.ltb_ge; lia).
  rewrite (getitem_1_count d H4), bind_lift_Returned.
  replace (len (data d) =? count_byte d * 2 + 2) with true
    by (symmetry; apply Z.eqb_eq; exact Hlen).
  simpl negb. cbv iota. rewrite Hn, bind_lift_Returned.
  destruct (_networks_zone_list (zone_information_table router) networks) as [nzl|e].
  - rewrite bind_lift_Returned.
    destruct (byte_length nzl + 2 <=? MAX_DATA_LENGTH); [|reflexivity].
    destruct (struct_pack_BB (ZIP_FUNC_REPLY K) (len networks)) as [hdr|e].
    + rewrite bind_lift_Returned. reflexivity.
    + reflexivity.
  - reflexivity.
Qed.

(** A query shorter than four bytes, or whose length is not [2 + 2*count],
    is dropped. *)
Lemma query_guard_drops (router : Router) (d : Datagram) :
  len (data d) < 4 \/ len (data d) <> 2 + 2 * count_byte d ->
  dropped (_query K MAX_DATA_LENGTH router d).
Proof.
  intros H. unfold dropped, _query.
  destruct (len (data d) <? 4) eqn:E4; [reflexivity|].
  apply Z.ltb_ge in E4. destruct H as [H|H]; [lia|].
  rewrite (getitem_1_count d E4), bind_lift_Returned.
  replace (len (data d) =? count_byte d * 2 + 2) with false; [reflexivity|].
  symmetry. apply Z.eqb_neq. lia.
Qed.

(** The loop over [chain(zone_list, (None,))] never completes: the
    statements after the [if] are reached with [None]. *)
Lemma extended_reply_loop_raises (d : Datagram) (n : Z) (zone_list : list bytes) :
  forall datagram_data datagram_data_length,
  exists e,
    result (extended_reply_loop K MAX_DATA_LENGTH d n (map Some zone_list ++ [None])
              datagram_data datagram_data_length) = Raised e.
Proof.
  induction zone_list as [|z zl IH]; intros dd dl; simpl.
  - rewrite result_bind.
    match goal with |- context [result ?m] => destruct (result m) end.
    + exists TypeError. reflexivity.
    + eexists. reflexivity.
  - rewrite result_bind.
    match goal with |- context [result ?m] => destruct (result m) end.
    + apply IH.
    + eexists. reflexivity.
Qed.

Lemma dict_append_nonempty (k : pyobj) (v : bytes) (d : list (pyobj * list bytes)) :
  dict_append k v d <> [].
Proof.
  destruct d as [|[k' vs] d]; simpl; [discriminate|].
  destruct (pyobj_eqb k' k); discriminate.
Qed.

Lemma group_by_network_nonempty (nzl : list (pyobj * bytes)) :
  nzl <> [] -> group_by_network nzl <> [].
Proof.
  unfold group_by_network.
  assert (H : forall l d, d <> [] ->
            fold_left (fun d item => dict_append (fst item) (snd item) d) l d <> []).
  { induction l as [|x l IH]; intros d Hd; simpl; [exact Hd|].
    apply IH, dict_append_nonempty. }
  destruct nzl as [|x l]; [congruence|]. intros _.
  change (fold_left (fun d item => dict_append (fst item) (snd item) d) l
            (dict_append (fst x) (snd x) []) <> []).
  apply H, dict_append_nonempty.
Qed.

(** The [else] branch of [_query] ends in an exception whenever it has an
    entry to send. *)
Lemma extended_replies_raise (d : Datagram) (nzl : list (pyobj * bytes)) :
  nzl <> [] ->
  exists e, result (extended_replies K MAX_DATA_LENGTH d nzl) = Raised e.
Proof.
  intros Hn. unfold extended_replies.
  destruct (group_by_network nzl) as [|g gs] eqn:Eg.
  - now apply group_by_network_nonempty in Eg.
  - simpl. rewrite result_bind.
    destruct (extended_reply_loop_raises d (len (snd g)) (snd g) [] 0) as [e He].
    rewrite He. now exists e.
Qed.

(** Every datagram a query is answered with has a payload of two bytes: the
    function code and the count, and no list item. *)
Lemma query_replies_header_only (router : Router) (d : Datagram) (a : action) :
  2 <= MAX_DATA_LENGTH ->
  In a (emitted (_query K MAX_DATA_LENGTH router d)) ->
  exists hdr, a = Route (reply_datagram d (ZIP_DDP_TYPE K) hdr) /\ len hdr = 2.
Proof.
  intros Hmax Ha.
  destruct (Z.lt_ge_cases (len (data d)) 4) as [H4|H4].
  { rewrite (query_guard_drops router d (or_introl H4)) in Ha.
    contradiction. }
  destruct (Z.eq_dec (len (data d)) (2 + 2 * count_byte d)) as [Hl|Hl].
  2:{ rewrite (query_guard_drops router d (or_intror Hl)) in Ha.
      contradiction. }
  destruct (query_networks_tuples d (count_byte d)) as (ns & Hq & Hlen & Hall).
  { pose proof (Z_of_byte_range (nth 1 (data d) x00)). unfold count_byte. lia. }
  { lia. }
  rewrite (query_past_guards router d ns) in Ha by (auto; lia).
  destruct (_networks_zone_list (zone_information_table router) ns) as [nzl|e] eqn:En;
    [|contradiction].
  apply networks_zone_list_of_tuples in En; [|exact Hall]. destruct En as [-> _].
  simpl byte_length in Ha.
  replace (0 + 2 <=? MAX_DATA_LENGTH) with true in Ha by (symmetry; apply Z.leb_le; lia).
  unfold struct_pack_BB, pack_B in Ha.
  destruct ((0 <=? ZIP_FUNC_REPLY K) && (ZIP_FUNC_REPLY K <=? 255)); [|contradiction].
  destruct ((0 <=? len ns) && (len ns <=? 255)); [|contradiction].
  simpl in Ha. destruct Ha as [<-|[]].
  eexists. split; [reflexivity|]. reflexivity.
Qed.

Lemma count_byte_is_byte (d : Datagram) : is_byte (count_byte d).
Proof. apply Z_of_byte_range. Qed.

(** C6, amended: a query is answered only when its payload has at least
    four bytes and its length is [2 + 2*count]; every other payload, also
    the well-formed query with [count = 0], is dropped with no reply. *)
Theorem query_length_check (router : Router) (d : Datagram) :
  ((exists a, In a (emitted (_query K MAX_DATA_LENGTH router d))) ->
     4 <= len (data d) /\ len (data d) = 2 + 2 * count_byte d)
  /\ (len (data d) < 4 \/ len (data d) <> 2 + 2 * count_byte d ->
        dropped (_query K MAX_DATA_LENGTH router d))
  /\ (len (data d) = 2 -> dropped (_query K MAX_DATA_LENGTH router d)).
Proof.
  split; [|split].
  - intros [a Ha].
    destruct (Z.lt_ge_cases (len (data d)) 4) as [H4|H4].
    { rewrite (query_guard_drops router d (or_introl H4)) in Ha.
      contradiction. }
    destruct (Z.eq_dec (len (data d)) (2 + 2 * count_byte d)) as [Hl|Hl]; [auto|].
    rewrite (query_guard_drops router d (or_intror Hl)) in Ha.
    contradiction.
  - apply query_guard_drops.
  - intros H2. apply query_guard_drops. left. lia.
Qed.

End Query.

(** The query for no network: the empty list fits, and no reply is
    routed. *)
Lemma query_none_gets_no_reply :
  len (data query_none) = 2 + 2 * count_byte query_none
  /\ (exists networks nzl,
        query_networks query_none (count_byte query_none) = Returned networks
        /\ _networks_zone_list sales_zit networks = Returned nzl
        /\ byte_length nzl + 2 <= DDP_MAX_DATA_LENGTH)
  /\ ~ (exists reply,
          emitted (_query appletalk DDP_MAX_DATA_LENGTH (router_of sales_zit) query_none)
            = [Route reply]).
Proof.
  split; [reflexivity|]. split.
  - exists [], []. repeat split. vm_compute. discriminate.
  - intros [reply H]. vm_compute in H. discriminate.
Qed.

(** C6 as stated fails for [count = 0]: the query of length 2 is dropped. *)
Lemma query_none_is_dropped :
  len (data query_none) = 2 + 2 * count_byte query_none
  /\ count_byte query_none = 0
  /\ dropped (_query appletalk DDP_MAX_DATA_LENGTH (router_of sales_zit) query_none).
Proof.
  repeat split.
Qed.


(** C3: on the scenario's table the query for networks 10 and 20 is answered
    with the two header bytes alone; on a table that answers for the tuple
    [struct.unpack] returns, packing the network raises; and on no table is
    the expected reply routed. *)
Theorem scenario_query_10_20 :
  _query appletalk DDP_MAX_DATA_LENGTH (router_of sales_zit) query_10_20
    = ([Route (reply_datagram query_10_20 6 (bytes_of [2; 2]))], Returned tt)
  /\ _query appletalk DDP_MAX_DATA_LENGTH (router_of (zit_lenient_of sales_table)) query_10_20
    = ([], Raised StructError)
  /\ forall zit,
       ~ In (Route reply_10_20)
            (emitted (_query appletalk DDP_MAX_DATA_LENGTH (router_of zit) query_10_20)).
Proof.
  split; [reflexivity|]. split; [reflexivity|].
  intros zit Hin.
  apply query_replies_header_only in Hin; [|vm_compute; discriminate].
  destruct Hin as (hdr & Heq & Hlen).
  injection Heq as Hd. rewrite <- Hd in Hlen. vm_compute in Hlen. discriminate.
Qed.

(** C1: a query whose zone list exceeds the payload budget.  With a table
    that answers for the unpacked tuples the encoding raises and nothing is
    sent; with a table keyed by integers the reply carries no entry; and
    whatever the table and the query, a routed datagram has the two header
    bytes only.  The fragmenting branch itself, run on the list items of the
    two networks, routes seventeen datagrams for network 10, the k-th
    holding the first [63 + k] items again, all but the first longer than
    the maximum, and raises before network 20 is reached. *)
Theorem overflowing_query_10_20 :
  _query appletalk DDP_MAX_DATA_LENGTH (router_of (zit_lenient_of big_table)) query_10_20
    = ([], Raised StructError)
  /\ _query appletalk DDP_MAX_DATA_LENGTH (router_of (zit_of big_table)) query_10_20
    = ([Route (reply_datagram query_10_20 6 (bytes_of [2; 2]))], Returned tt)
  /\ (forall zit d a,
        In a (emitted (_query appletalk DDP_MAX_DATA_LENGTH (router_of zit) d)) ->
        exists hdr, a = Route (reply_datagram d 6 hdr) /\ len hdr = 2)
  /\ byte_length big_zone_list + 2 > DDP_MAX_DATA_LENGTH
  /\ extended_replies appletalk DDP_MAX_DATA_LENGTH query_10_20 big_zone_list
    = (map (fun k => Route (reply_datagram query_10_20 6
                              (bytes_of [8; 80] ++
                               concat (map snd (firstn k big_zone_list)))))
           (seq 64 17),
       Raised TypeError).
Proof.
  split; [vm_compute; reflexivity|].
  split; [vm_compute; reflexivity|].
  split.
  { intros zit d a Ha.
    apply (query_replies_header_only appletalk DDP_MAX_DATA_LENGTH (router_of zit) d a);
      [unfold DDP_MAX_DATA_LENGTH; lia|exact Ha]. }
  split; vm_compute; reflexivity.
Qed.

(** ** Flag arithmetic *)

Lemma land_is_byte (a b : Z) : is_byte a -> is_byte (Z.land a b).
Proof.
  unfold is_byte. intros Ha.
  assert (E : Z.land a b = Z.land a b mod 2 ^ 8).
  { rewrite <- Z.land_ones by lia.
    rewrite <- Z.land_assoc, (Z.land_comm b), Z.land_assoc, Z.land_ones by lia.
    rewrite (Z.mod_small a) by (change (2 ^ 8) with 256; lia). reflexivity. }
  pose proof (Z.mod_pos_bound (Z.land a b) (2 ^ 8) ltac:(lia)) as Hb.
  rewrite <- E in Hb. change (2 ^ 8) with 256 in Hb. lia.
Qed.

Lemma lor_is_byte (a b : Z) : is_byte a -> is_byte b -> is_byte (Z.lor a b).
Proof.
  unfold is_byte. intros Ha Hb.
  assert (E : Z.lor a b = Z.lor a b mod 2 ^ 8).
  { rewrite <- Z.land_ones by lia. rewrite Z.land_lor_distr_l.
    rewrite !Z.land_ones by lia.
    rewrite (Z.mod_small a), (Z.mod_small b) by (change (2 ^ 8) with 256; lia).
    reflexivity. }
  pose proof (Z.mod_pos_bound (Z.lor a b) (2 ^ 8) ltac:(lia)) as Hc.
  rewrite <- E in Hc. change (2 ^ 8) with 256 in Hc. lia.
Qed.

(** Clearing a flag clears it. *)
Lemma cleared_flag (f z : Z) : Z.land (Z.land f (Z.lnot z)) z = 0.
Proof.
  rewrite <- Z.land_assoc, (Z.land_comm (Z.lnot z)), Z.land_lnot_diag.
  apply Z.land_0_r.
Qed.

(** Clearing a flag leaves a disjoint flag as it was. *)
Lemma cleared_other_flag (f z o : Z) :
  Z.land z o = 0 -> Z.land (Z.land f (Z.lnot o)) z = Z.land f z.
Proof.
  intros Hd. apply Z.bits_inj'. intros n Hn.
  assert (Hb : Z.testbit z n && Z.testbit o n = false).
  { rewrite <- Z.land_spec, Hd. apply Z.bits_0. }
  rewrite !Z.land_spec, Z.lnot_spec by exact Hn.
  destruct (Z.testbit f n), (Z.testbit z n), (Z.testbit o n); simpl in *; congruence.
Qed.

Lemma set_flag (z o : Z) : Z.land (Z.lor z o) z = z.
Proof.
  apply Z.bits_inj'. intros n Hn.
  rewrite Z.land_spec, Z.lor_spec.
  destruct (Z.testbit z n), (Z.testbit o n); reflexivity.
Qed.

(** Setting a disjoint flag leaves a flag as it was. *)
Lemma set_other_flag (f z o : Z) :
  Z.land z o = 0 -> Z.land (Z.lor f o) z = Z.land f z.
Proof.
  intros Hd. rewrite Z.land_lor_distr_l, (Z.land_comm o z), Hd. apply Z.lor_0_r.
Qed.

(** ** The get-net-info handler *)

Lemma getitem_nth (d : bytes) (i : nat) :
  Z.of_nat i < len d -> getitem d i = Returned (Z_of_byte (nth i d x00)).
Proof.
  unfold len, getitem. intros Hi.
  destruct (nth_error d i) as [b|] eqn:E.
  - now rewrite (nth_error_nth d i x00 E).
  - apply nth_error_None in E. lia.
Qed.

Lemma given_zone_name_len (d : Datagram) : is_byte (len (given_zone_name d)).
Proof.
  unfold is_byte, given_zone_name, slice, len.
  pose proof (Z_of_byte_range (nth 6 (data d) x00)) as Hb.
  rewrite length_firstn. lia.
Qed.

Ltac case_ifs :=
  repeat match goal with
         | |- context [if ?c then _ else _] => destruct c
         end.

Section GetNetInfo.

Variable K : ZipConsts.
Variable ucase : bytes -> bytes.

Let INVALID := ZIP_GETNETINFO_ZONE_INVALID K.
Let ONLY_ONE := ZIP_GETNETINFO_ONLY_ONE_ZONE K.
Let BROADCAST := ZIP_GETNETINFO_USE_BROADCAST K.

Lemma scan_flags_byte (p : Port) (g : bytes) (zs : list bytes) :
  forall s, is_byte (flags s) -> is_byte (flags (scan_zones K ucase p g zs s)).
Proof.
  induction zs as [|z zs IH]; intros s Hs; simpl; [exact Hs|].
  destruct (number_of_zones s + 1 >? 1); destruct (bytes_eqb (ucase z) g); simpl;
    case_ifs; try apply IH; simpl; repeat apply land_is_byte; exact Hs.
Qed.

Lemma only_one_cleared_keeps_valid (f : Z) :
  Z.land f INVALID = 0 -> Z.land (Z.land f (Z.lnot ONLY_ONE)) INVALID = 0.
Proof.
  intros Hf.
  rewrite <- Z.land_assoc, (Z.land_comm (Z.lnot ONLY_ONE)), Z.land_assoc, Hf.
  apply Z.land_0_l.
Qed.

(** Once the zone is found valid it stays valid. *)
Lemma scan_valid_stays (p : Port) (g : bytes) (zs : list bytes) :
  forall s, Z.land (flags s) INVALID = 0 ->
            Z.land (flags (scan_zones K ucase p g zs s)) INVALID = 0.
Proof.
  induction zs as [|z zs IH]; intros s Hs; simpl; [exact Hs|].
  destruct (number_of_zones s + 1 >? 1); destruct (bytes_eqb (ucase z) g); simpl;
    case_ifs; try apply IH; simpl;
    try apply only_one_cleared_keeps_valid; try apply cleared_flag; exact Hs.
Qed.

(** The scan does not stop before a matching zone: a match clears the
    zone-invalid flag. *)
Lemma scan_match_clears (p : Port) (g : bytes) (zs : list bytes) :
  forall s, (exists z, In z zs /\ ucase z = g) ->
            Z.land (flags (scan_zones K ucase p g zs s)) INVALID = 0.
Proof.
  induction zs as [|z zs IH]; intros s [z' [Hin Hm]]; [contradiction|].
  simpl. destruct (bytes_eqb (ucase z) g) eqn:Ez.
  - simpl.
    pose proof (only_one_cleared_keeps_valid _ (cleared_flag (flags s) INVALID)) as Hc.
    fold INVALID ONLY_ONE.
    destruct (number_of_zones s + 1 >? 1).
    + rewrite Hc. simpl. exact Hc.
    + apply scan_valid_stays. simpl. apply cleared_flag.
  - simpl. destruct Hin as [->|Hin].
    { apply bytes_eqb_eq in Hm. congruence. }
    fold INVALID ONLY_ONE.
    destruct (number_of_zones s + 1 >? 1).
    + destruct (Z.land (Z.land (flags s) (Z.lnot ONLY_ONE)) INVALID =? 0) eqn:Eb.
      * simpl. now apply Z.eqb_eq.
      * apply IH. eauto.
    + apply IH. eauto.
Qed.

(** Without a match the zone-invalid flag is as it was. *)
Lemma scan_no_match_keeps (p : Port) (g : bytes) (zs : list bytes) :
  Z.land INVALID ONLY_ONE = 0 ->
  forall s, (forall z, In z zs -> ucase z <> g) ->
            Z.land (flags (scan_zones K ucase p g zs s)) INVALID
              = Z.land (flags s) INVALID.
Proof.
  intros Hd. induction zs as [|z zs IH]; intros s Hno; simpl; [reflexivity|].
  destruct (bytes_eqb (ucase z) g) eqn:Ez.
  { apply bytes_eqb_eq in Ez. exfalso. apply (Hno z); [now left|exact Ez]. }
  simpl. fold INVALID ONLY_ONE.
  assert (Hrest : forall z', In z' zs -> ucase z' <> g) by (intros; apply Hno; now right).
  destruct (number_of_zones s + 1 >? 1).
  - destruct (Z.land (Z.land (flags s) (Z.lnot ONLY_ONE)) INVALID =? 0).
    + simpl. now apply cleared_other_flag.
    + rewrite IH by exact Hrest. simpl. now apply cleared_other_flag.
  - rewrite IH by exact Hrest. reflexivity.
Qed.

(** The default zone is the first zone enumerated. *)
Lemma scan_default (p : Port) (g : bytes) (zs : list bytes) :
  forall s, default_zone_name (scan_zones K ucase p g zs s)
            = match default_zone_name s with
              | Some d => Some d
              | None => hd_error zs
              end.
Proof.
  induction zs as [|z zs IH]; intros s; simpl.
  - now destruct (default_zone_name s).
  - destruct (number_of_zones s + 1 >? 1); case_ifs;
      try rewrite IH; simpl; now destruct (default_zone_name s).
Qed.

Lemma scan_mcast (p : Port) (g : bytes) (zs : list bytes) :
  (forall z, len (multicast_address p z) <= 255) ->
  forall s, len (mcast_address s) <= 255 ->
            len (mcast_address (scan_zones K ucase p g zs s)) <= 255.
Proof.
  intros Hp. induction zs as [|z zs IH]; intros s Hs; simpl; [exact Hs|].
  destruct (number_of_zones s + 1 >? 1); destruct (bytes_eqb (ucase z) g);
    destruct (default_zone_name s); simpl; case_ifs; try apply IH; simpl; auto.
Qed.

(** [_get_net_info] after its three guards: the scan, the broadcast flag,
    the reply. *)
Lemma get_net_info_past_guards (router : Router) (d : Datagram) (p : Port) :
  network p <> 0 -> network_min p <> 0 -> network_max p <> 0 ->
  7 <= len (data d) ->
  slice 1 6 (data d) = [x00; x00; x00; x00; x00] ->
  _get_net_info K ucase router d p =
    let s := scan_zones K ucase p (ucase (given_zone_name d))
               (zones_in_network_range (zone_information_table router)
                                       (network_min p) (network_max p))
               {| flags := Z.lor INVALID ONLY_ONE;
                  default_zone_name := None;
                  number_of_zones := 0;
                  mcast_address := [] |} in
    let fl := if truthy (mcast_address s) then flags s
              else Z.lor (flags s) BROADCAST in
    bind (lift (net_info_reply_data K p (given_zone_name d) fl s))
         (fun reply_data =>
            emit (Send p (source_network d) (source_node d)
                       (net_info_datagram K d p reply_data))).
Proof.
  intros Hn Hmin Hmax H7 Hzero. unfold _get_net_info.
  replace ((network p =? 0) || (network_min p =? 0) || (network_max p =? 0)) with false.
  2:{ symmetry. repeat (apply orb_false_iff; split); now apply Z.eqb_neq. }
  replace (len (data d) <? 7) with false by (symmetry; apply Z.ltb_ge; lia).
  replace (bytes_eqb (slice 1 6 (data d)) [x00; x00; x00; x00; x00]) with true
    by (symmetry; apply bytes_eqb_eq; exact Hzero).
  simpl negb. cbv iota.
  rewrite (getitem_nth (data d) 6) by lia. rewrite bind_lift_Returned.
  reflexivity.
Qed.

(** With byte-sized fields and a default zone, the reply data is built. *)
Lemma net_info_reply_data_returns (p : Port) (given : bytes) (fl : Z)
    (s : net_info_scan) (dz : bytes) :
  is_byte (ZIP_FUNC_GETNETINFO_REPLY K) -> is_byte fl ->
  0 <= network_min p <= 65535 -> 0 <= network_max p <= 65535 ->
  is_byte (len given) -> is_byte (len (mcast_address s)) ->
  default_zone_name s = Some dz -> len dz <= 255 ->
  net_info_reply_data K p given fl s
    = Returned (bytes_of [ZIP_FUNC_GETNETINFO_REPLY K; fl;
                          network_min p / 256; network_min p mod 256;
                          network_max p / 256; network_max p mod 256; len given]
                ++ given ++ zone_entry (mcast_address s)
                ++ (if Z.land fl INVALID =? 0 then [] else zone_entry dz)).
Proof.
  intros Hrc Hfl Hmin Hmax Hg Hm Hd Hdz.
  unfold net_info_reply_data, struct_pack_BBHHB. fold INVALID.
  rewrite (pack_B_byte _ Hrc), (pack_B_byte _ Hfl), (pack_B_byte _ Hg),
    (pack_B_byte _ Hm), !pack_H_word by lia.
  rewrite Hd.
  destruct (Z.land fl INVALID =? 0); simpl.
  - rewrite !app_nil_r. reflexivity.
  - rewrite (pack_B_byte (len dz)) by (split; [apply len_nonneg|lia]).
    reflexivity.
Qed.

(** A get-net-info request that passes the guards, on a port whose range
    has no zone, raises [TypeError] at [len(default_zone_name)]. *)
Lemma get_net_info_no_zone_raises (router : Router) (d : Datagram) (p : Port) :
  net_info_consts_ok K ->
  port_ok p ->
  7 <= len (data d) ->
  slice 1 6 (data d) = [x00; x00; x00; x00; x00] ->
  zones_in_network_range (zone_information_table router) (network_min p) (network_max p)
    = [] ->
  _get_net_info K ucase router d p = ([], Raised TypeError).
Proof.
  intros [Hrc Hzi Hoo Hub Hnz Hd1 Hd2] [Hn Hmin Hmax Hmc] H7 Hzero Hzs.
  rewrite get_net_info_past_guards by (assumption || lia).
  cbv zeta. rewrite Hzs. cbn [scan_zones mcast_address truthy flags].
  set (fl := Z.lor (Z.lor INVALID ONLY_ONE) BROADCAST).
  assert (Hflb : is_byte fl) by (unfold fl; auto using lor_is_byte).
  assert (Hinv : (Z.land fl INVALID =? 0) = false).
  { apply Z.eqb_neq. unfold fl. rewrite set_other_flag by exact Hd2.
    rewrite set_flag. exact Hnz. }
  unfold net_info_reply_data, struct_pack_BBHHB. fold INVALID.
  rewrite (pack_B_byte _ Hrc), (pack_B_byte _ Hflb),
    (pack_B_byte _ (given_zone_name_len d)), !pack_H_word by lia.
  rewrite Hinv. reflexivity.
Qed.

(** C7, amended: a get-net-info request is dropped, with no reply, when the
    port's network, network_min or network_max is zero, when the payload has
    fewer than seven bytes, or when the five bytes after the function code
    are not all zero.  (The length byte is not compared with the payload
    length.) *)
Theorem get_net_info_guards (router : Router) (d : Datagram) (p : Port) :
  network p = 0 \/ network_min p = 0 \/ network_max p = 0
  \/ len (data d) < 7
  \/ slice 1 6 (data d) <> [x00; x00; x00; x00; x00] ->
  dropped (_get_net_info K ucase router d p).
Proof.
  intros H. unfold dropped, _get_net_info.
  destruct ((network p =? 0) || (network_min p =? 0) || (network_max p =? 0)) eqn:Ez;
    [reflexivity|].
  apply orb_false_iff in Ez. destruct Ez as [Ez E3].
  apply orb_false_iff in Ez. destruct Ez as [E1 E2].
  apply Z.eqb_neq in E1, E2, E3.
  destruct (len (data d) <? 7) eqn:E7; [reflexivity|].
  apply Z.ltb_ge in E7.
  destruct (bytes_eqb (slice 1 6 (data d)) [x00; x00; x00; x00; x00]) eqn:Eb.
  - apply bytes_eqb_eq in Eb. intuition congruence || lia.
  - reflexivity.
Qed.

(** X21: a get-net-info request that passes the guards, on a port whose
    range has at least one zone: one reply is sent through the port; its
    given-zone field is the requested name unchanged; if some zone of the
    range has the same case fold as the requested name the zone-invalid bit
    of the flags byte is clear, and if none has, it is set; the reply ends
    with the entry of the first zone enumerated exactly when the bit is
    set. *)
Theorem get_net_info_zone_validity (router : Router) (d : Datagram) (p : Port)
    (first_zone : bytes) (more : list bytes) :
  net_info_consts_ok K ->
  port_ok p ->
  7 <= len (data d) ->
  slice 1 6 (data d) = [x00; x00; x00; x00; x00] ->
  zones_in_network_range (zone_information_table router) (network_min p) (network_max p)
    = first_zone :: more ->
  len first_zone <= 255 ->
  exists fl mcast tail r,
    _get_net_info K ucase router d p
      = ([Send p (source_network d) (source_node d) r], Returned tt)
    /\ data r
       = bytes_of [ZIP_FUNC_GETNETINFO_REPLY K; fl;
                   network_min p / 256; network_min p mod 256;
                   network_max p / 256; network_max p mod 256;
                   len (given_zone_name d)]
         ++ given_zone_name d ++ zone_entry mcast ++ tail
    /\ getitem (data r) 1 = Returned fl
    /\ is_byte fl
    /\ len mcast <= 255
    /\ ((exists z, In z (first_zone :: more) /\ ucase z = ucase (given_zone_name d)) ->
          Z.land fl (ZIP_GETNETINFO_ZONE_INVALID K) = 0)
    /\ ((forall z, In z (first_zone :: more) -> ucase z <> ucase (given_zone_name d)) ->
          Z.land fl (ZIP_GETNETINFO_ZONE_INVALID K) <> 0 /\ tail = zone_entry first_zone)
    /\ (tail <> [] <-> Z.land fl (ZIP_GETNETINFO_ZONE_INVALID K) <> 0).
Proof.
  intros [Hrc Hzi Hoo Hub Hnz Hd1 Hd2] [Hn Hmin Hmax Hmc] H7 Hzero Hzs Hfz.
  rewrite get_net_info_past_guards by (assumption || lia).
  cbv zeta. rewrite Hzs. fold INVALID.
  set (g := ucase (given_zone_name d)).
  set (init := {| flags := Z.lor INVALID ONLY_ONE;
                  default_zone_name := None;
                  number_of_zones := 0;
                  mcast_address := [] |}).
  set (s := scan_zones K ucase p g (first_zone :: more) init).
  assert (Hfb : is_byte (flags s)).
  { apply scan_flags_byte. simpl. now apply lor_is_byte. }
  assert (Hdef : default_zone_name s = Some first_zone).
  { unfold s. rewrite scan_default. reflexivity. }
  assert (Hml : is_byte (len (mcast_address s))).
  { split; [apply len_nonneg|]. apply scan_mcast; [exact Hmc|]. unfold len. simpl. lia. }
  set (fl := if truthy (mcast_address s) then flags s else Z.lor (flags s) BROADCAST).
  assert (Hflb : is_byte fl).
  { unfold fl. destruct (truthy (mcast_address s)); [exact Hfb|]. now apply lor_is_byte. }
  assert (Hfl : Z.land fl INVALID = Z.land (flags s) INVALID).
  { unfold fl. destruct (truthy (mcast_address s)); [reflexivity|].
    now apply set_other_flag. }
  exists fl, (mcast_address s), (if Z.land fl INVALID =? 0 then [] else zone_entry first_zone),
    (net_info_reply K p d fl (mcast_address s)
       (if Z.land fl INVALID =? 0 then [] else zone_entry first_zone)).
  split; [|split; [|split; [|split; [|split; [|split; [|split]]]]]].
  - rewrite (net_info_reply_data_returns p (given_zone_name d) fl s first_zone)
      by (auto using given_zone_name_len; lia).
    rewrite bind_lift_Returned. reflexivity.
  - reflexivity.
  - unfold getitem. simpl. f_equal. now apply Z_of_byte_of_Z.
  - exact Hflb.
  - apply Hml.
  - intros Hm. rewrite Hfl. now apply scan_match_clears.
  - intros Hno. rewrite Hfl. unfold s.
    rewrite scan_no_match_keeps by assumption. simpl flags. rewrite set_flag.
    split; [exact Hnz|].
    destruct (INVALID =? 0) eqn:E; [|reflexivity].
    apply Z.eqb_eq in E. contradiction.
  - destruct (Z.land fl INVALID =? 0) eqn:E.
    + apply Z.eqb_eq in E. split; [congruence|intros H; contradiction].
    + apply Z.eqb_neq in E. split; [intros _; exact E|intros _; discriminate].
Qed.

End GetNetInfo.

(** ** The ATP handlers: get-my-zone and get-zone-list *)

Section AtpClaims.

Variable K : ZipConsts.
Variable MAX_DATA_LENGTH : Z.

Lemma unpack_atp_header (d : Datagram) :
  len (data d) = 8 ->
  struct_unpack_BBHBBH (data d)
    = Returned (Z_of_byte (nth 0 (data d) x00), Z_of_byte (nth 1 (data d) x00),
                atp_tid d,
                Z_of_byte (nth 4 (data d) x00), Z_of_byte (nth 5 (data d) x00),
                atp_start_index d).
Proof.
  unfold len, atp_tid, atp_start_index.
  destruct (data d) as [|b0 [|b1 [|b2 [|b3 [|b4 [|b5 [|b6 [|b7 [|b8 t]]]]]]]]];
    simpl length; intros H; try lia.
  reflexivity.
Qed.

Lemma atp_tid_range (d : Datagram) : 0 <= atp_tid d <= 65535.
Proof.
  unfold atp_tid.
  pose proof (Z_of_byte_range (nth 2 (data d) x00)).
  pose proof (Z_of_byte_range (nth 3 (data d) x00)). lia.
Qed.

Lemma pack_atp_response (tid last_flag count : Z) :
  is_byte (ATP_FUNC_TRESP K) -> is_byte (ATP_EOM K) ->
  0 <= tid <= 65535 -> is_byte last_flag -> 0 <= count <= 65535 ->
  struct_pack_BBHBBH (Z.lor (ATP_FUNC_TRESP K) (ATP_EOM K)) 0 tid last_flag 0 count
    = Returned (atp_response_header K tid last_flag count).
Proof.
  intros Hr He Ht Hl Hc. unfold struct_pack_BBHBBH.
  rewrite (pack_B_byte _ (lor_is_byte _ _ Hr He)), (pack_B_byte _ Hl), !pack_H_word by lia.
  reflexivity.
Qed.

Lemma reply_datagram_routed_answer (d : Datagram) (ty : Z) (b : bytes) :
  routed_answer d (reply_datagram d ty b) ty b.
Proof. repeat split. Qed.

(** The response header for the transaction of [d], byte by byte. *)
Lemma atp_response_header_bytes (d : Datagram) (last_flag count : Z) :
  atp_response_header K (atp_tid d) last_flag count
    = bytes_of [Z.lor (ATP_FUNC_TRESP K) (ATP_EOM K); 0; byte_at 2 d; byte_at 3 d;
                last_flag; 0; count / 256; count mod 256].
Proof.
  unfold atp_response_header, atp_tid, byte_at.
  pose proof (Z_of_byte_range (nth 2 (data d) x00)) as Hb2.
  pose proof (Z_of_byte_range (nth 3 (data d) x00)) as Hb3.
  rewrite Z.div_add_l by lia. rewrite (Z.div_small (Z_of_byte (nth 3 (data d) x00))) by lia.
  rewrite Z.add_0_r.
  rewrite (Z.add_comm (_ * 256)), Z.mod_add by lia. rewrite Z.mod_small by lia.
  reflexivity.
Qed.

(** C9: a get-my-zone request with a nonzero start index gets no reply; with
    start index zero and a first zone for the source network of the request,
    exactly one datagram is routed, back to the sender and of the ATP type,
    whose data is the response header with the end-of-message flag, the two
    transaction id bytes of the request, zero user bytes and a zone count of
    1, then the length byte and the name of that first zone; with no zone
    for the source network, no reply. *)
Theorem get_my_zone_reply (router : Router) (d : Datagram) :
  len (data d) = 8 ->
  is_byte (ATP_FUNC_TRESP K) -> is_byte (ATP_EOM K) ->
  (atp_start_index d <> 0 -> dropped (_get_my_zone K router d))
  /\ (atp_start_index d = 0 ->
      forall first_zone more,
        zones_in_network (zone_information_table router) (PyInt (source_network d))
          = first_zone :: more ->
        valid_zone_name first_zone ->
        exists r,
          _get_my_zone K router d = ([Route r], Returned tt)
          /\ routed_answer d r (ATP_DDP_TYPE K)
               (atp_response_header K (atp_tid d) 0 1 ++ zone_entry first_zone)
          /\ data r
             = bytes_of [Z.lor (ATP_FUNC_TRESP K) (ATP_EOM K); 0; byte_at 2 d; byte_at 3 d;
                         0; 0; 0; 1; len first_zone] ++ first_zone
          /\ is_byte (Z.lor (ATP_FUNC_TRESP K) (ATP_EOM K))
          /\ is_byte (byte_at 2 d) /\ is_byte (byte_at 3 d)
          /\ is_byte (len first_zone))
  /\ (atp_start_index d = 0 ->
      zones_in_network (zone_information_table router) (PyInt (source_network d)) = [] ->
      dropped (_get_my_zone K router d)).
Proof.
  intros H8 Hr He. unfold dropped, _get_my_zone.
  rewrite (unpack_atp_header d H8), bind_lift_Returned.
  split; [|split].
  - intros Hs. apply Z.eqb_neq in Hs. rewrite Hs. reflexivity.
  - intros Hs z more Hz [Hz1 Hz2]. rewrite Hs, Hz. simpl negb. cbv iota.
    replace (truthy z) with true.
    2:{ destruct z; [unfold len in Hz1; simpl in Hz1; lia|reflexivity]. }
    simpl negb. cbv iota.
    unfold struct_pack_BBHBBHB.
    rewrite pack_atp_response; try assumption; try (unfold is_byte; lia);
      try apply atp_tid_range.
    rewrite (pack_B_byte (len z)) by (unfold is_byte; lia).
    simpl obind. rewrite bind_lift_Returned.
    exists (reply_datagram d (ATP_DDP_TYPE K)
              (atp_response_header K (atp_tid d) 0 1 ++ zone_entry z)).
    split; [reflexivity|]. split; [apply reply_datagram_routed_answer|].
    split; [|repeat split; try apply Z_of_byte_range; try lia; now apply lor_is_byte].
    cbn [reply_datagram data]. rewrite atp_response_header_bytes. reflexivity.
  - intros Hs Hz. rewrite Hs, Hz. reflexivity.
Qed.

Lemma entries_length_app (p q : list bytes) :
  entries_length (p ++ q) = entries_length p + entries_length q.
Proof.
  induction p as [|z p IH]; simpl; [reflexivity|]. rewrite IH. lia.
Qed.

Lemma entries_length_lower (page : list bytes) :
  (forall z, In z page -> valid_zone_name z) -> 2 * len page <= entries_length page.
Proof.
  induction page as [|z page IH]; intros Hv; [unfold len; simpl; lia|].
  assert (Hz : valid_zone_name z) by (apply Hv; now left).
  assert (Hp : 2 * len page <= entries_length page) by (apply IH; intros; apply Hv; now right).
  unfold valid_zone_name in Hz. rewrite len_cons.
  change (entries_length (z :: page)) with (1 + len z + entries_length page). lia.
Qed.

(** The [while] loop of [_get_zone_list] on valid names: it takes the longest
    prefix that fits, and the flag tells whether anything is left. *)
Lemma collect_zones_page (zone_iter : list bytes) :
  (forall z, In z zone_iter -> valid_zone_name z) ->
  forall zone_list num_zones data_length,
  exists page remaining,
    zone_iter = page ++ remaining
    /\ collect_zones MAX_DATA_LENGTH zone_iter zone_list num_zones data_length
       = Returned (match remaining with [] => 1 | _ :: _ => 0 end,
                   zone_list ++ flat_map (fun z => [[byte_of_Z (len z)]; z]) page,
                   num_zones + len page)
    /\ (page <> [] -> data_length + entries_length page <= MAX_DATA_LENGTH)
    /\ (forall next more, remaining = next :: more ->
          data_length + entries_length page + 1 + len next > MAX_DATA_LENGTH).
Proof.
  induction zone_iter as [|z zs IH]; intros Hv zl n dl.
  - exists [], []. split; [reflexivity|]. split; [|split].
    + simpl. rewrite app_nil_r. change (@len bytes []) with 0.
      rewrite Z.add_0_r. reflexivity.
    + congruence.
    + discriminate.
  - assert (Hz : valid_zone_name z) by (apply Hv; now left).
    assert (Hzs : forall z', In z' zs -> valid_zone_name z') by (intros; apply Hv; now right).
    simpl. replace (truthy z) with true.
    2:{ destruct z; [unfold valid_zone_name, len in Hz; simpl in Hz; lia|reflexivity]. }
    simpl negb. cbv iota.
    destruct (dl + 1 + len z >? MAX_DATA_LENGTH) eqn:Efit.
    + exists [], (z :: zs). split; [reflexivity|]. split; [|split].
      * simpl flat_map. rewrite app_nil_r. change (@len bytes []) with 0.
        rewrite Z.add_0_r. reflexivity.
      * congruence.
      * intros nx more Heq. injection Heq as <- <-. simpl entries_length.
        apply Z.gtb_lt in Efit. lia.
    + rewrite (pack_B_byte (len z)) by (unfold valid_zone_name in Hz; unfold is_byte; lia).
      simpl obind.
      destruct (IH Hzs (zl ++ [[byte_of_Z (len z)]; z]) (n + 1) (dl + 1 + len z))
        as (page & remaining & Hsplit & Hrun & Hfit & Hnext).
      exists (z :: page), remaining. subst zs.
      assert (Hle : dl + 1 + len z <= MAX_DATA_LENGTH).
      { destruct (Z.gtb_spec (dl + 1 + len z) MAX_DATA_LENGTH); [discriminate|lia]. }
      change (entries_length (z :: page)) with (1 + len z + entries_length page).
      split; [reflexivity|]. split; [|split].
      * etransitivity; [exact Hrun|].
        simpl flat_map. rewrite <- app_assoc. simpl app. rewrite len_cons.
        f_equal. f_equal. lia.
      * intros _. destruct page as [|z' page'].
        -- simpl entries_length. lia.
        -- assert (Hne : z' :: page' <> []) by discriminate.
           specialize (Hfit Hne). lia.
      * intros nx more Heq. specialize (Hnext nx more Heq). lia.
Qed.

Lemma concat_entries (page : list bytes) :
  concat (flat_map (fun z => [[byte_of_Z (len z)]; z]) page) = concat (map zone_entry page).
Proof.
  induction page as [|z page IH]; simpl; [reflexivity|]. now rewrite IH.
Qed.

Lemma In_skipn {A : Type} (n : nat) (l : list A) (x : A) : In x (skipn n l) -> In x l.
Proof.
  intros H. rewrite <- (firstn_skipn n l). apply in_or_app. now right.
Qed.

Lemma len_concat_entries (page : list bytes) :
  len (concat (map zone_entry page)) = entries_length page.
Proof.
  induction page as [|z page IH]; [reflexivity|].
  cbn [map concat]. rewrite len_app. unfold zone_entry at 1. rewrite len_cons, IH.
  reflexivity.
Qed.

(** The reply of [_get_zone_list] to an 8-byte request over valid names:
    the page, what is left, the flag and the routed datagram. *)
Lemma zone_list_answer (router : Router) (d : Datagram) (rx_port : option Port) :
  len (data d) = 8 ->
  is_byte (ATP_FUNC_TRESP K) -> is_byte (ATP_EOM K) ->
  MAX_DATA_LENGTH <= 65535 ->
  (forall z, In z (zone_sequence router rx_port) -> valid_zone_name z) ->
  exists page remaining last_flag r,
    skipn (Z.to_nat (atp_start_index d - 1)) (zone_sequence router rx_port)
      = page ++ remaining
    /\ _get_zone_list K MAX_DATA_LENGTH router d rx_port = ([Route r], Returned tt)
    /\ routed_answer d r (ATP_DDP_TYPE K)
         (atp_response_header K (atp_tid d) last_flag (len page)
          ++ concat (map zone_entry page))
    /\ data r
       = bytes_of [Z.lor (ATP_FUNC_TRESP K) (ATP_EOM K); 0; byte_at 2 d; byte_at 3 d;
                   last_flag; 0; len page / 256; len page mod 256]
         ++ concat (map zone_entry page)
    /\ len (data r) = 8 + entries_length page
    /\ len page <= 65535
    /\ (last_flag = 1 <-> remaining = [])
    /\ (last_flag = 0 \/ last_flag = 1)
    /\ (page <> [] -> 8 + entries_length page <= MAX_DATA_LENGTH)
    /\ (forall next more, remaining = next :: more ->
          8 + entries_length page + 1 + len next > MAX_DATA_LENGTH).
Proof.
  intros H8 Hr He Hmax Hv.
  set (zs := skipn (Z.to_nat (atp_start_index d - 1)) (zone_sequence router rx_port)).
  assert (Hvs : forall z, In z zs -> valid_zone_name z).
  { intros z Hz. apply Hv. eapply In_skipn. exact Hz. }
  destruct (collect_zones_page zs Hvs [] 0 8)
    as (page & remaining & Hsplit & Hrun & Hfit & Hnext).
  set (last_flag := match remaining with [] => 1 | _ :: _ => 0 end) in *.
  exists page, remaining, last_flag,
    (reply_datagram d (ATP_DDP_TYPE K)
       (atp_response_header K (atp_tid d) last_flag (len page)
        ++ concat (map zone_entry page))).
  assert (Hcount : 0 <= len page <= 65535).
  { split; [apply len_nonneg|].
    destruct page as [|z0 page0]; [unfold len; simpl; lia|].
    assert (Hne : z0 :: page0 <> []) by discriminate. specialize (Hfit Hne).
    pose proof (entries_length_lower (z0 :: page0)) as Hlow.
    assert (2 * len (z0 :: page0) <= entries_length (z0 :: page0)).
    { apply Hlow. intros z Hz. apply Hvs. rewrite Hsplit. apply in_or_app. now left. }
    lia. }
  split; [exact Hsplit|].
  split; [|split; [apply reply_datagram_routed_answer|]].
  - unfold _get_zone_list.
    rewrite (unpack_atp_header d H8), bind_lift_Returned.
    fold (zone_sequence router rx_port). fold zs.
    rewrite Hrun, bind_lift_Returned.
    rewrite pack_atp_response; try assumption; try apply atp_tid_range.
    + rewrite bind_lift_Returned. simpl app. rewrite concat_entries. reflexivity.
    + subst last_flag. destruct remaining; unfold is_byte; lia.
  - cbn [reply_datagram data].
    split; [rewrite atp_response_header_bytes; reflexivity|].
    split.
    { rewrite len_app, len_concat_entries. reflexivity. }
    split; [lia|].
    subst last_flag.
    split; [destruct remaining; split; congruence || lia|].
    split; [destruct remaining; auto|].
    split; assumption.
Qed.

(** C5: a get-zone-list request, over all zones or over the zones of the
    port's range, skips [start_index - 1] zones of the enumerated sequence
    (none for [start_index = 0]), takes the following zones in order while
    header (8 bytes) plus entries stay within the maximum payload, and
    routes one datagram back to the sender whose data is the response
    header, with the last flag in its fifth byte and the number of zones of
    the page in its last two, then the entries of the page; the last flag
    is 1 exactly when nothing of the sequence is left after the page. *)
Theorem get_zone_list_page (router : Router) (d : Datagram) (rx_port : option Port) :
  len (data d) = 8 ->
  is_byte (ATP_FUNC_TRESP K) -> is_byte (ATP_EOM K) ->
  MAX_DATA_LENGTH <= 65535 ->
  (forall z, In z (zone_sequence router rx_port) -> valid_zone_name z) ->
  exists page remaining last_flag r,
    skipn (Z.to_nat (atp_start_index d - 1)) (zone_sequence router rx_port)
      = page ++ remaining
    /\ _get_zone_list K MAX_DATA_LENGTH router d rx_port = ([Route r], Returned tt)
    /\ routed_answer d r (ATP_DDP_TYPE K)
         (atp_response_header K (atp_tid d) last_flag (len page)
          ++ concat (map zone_entry page))
    /\ data r
       = bytes_of [Z.lor (ATP_FUNC_TRESP K) (ATP_EOM K); 0; byte_at 2 d; byte_at 3 d;
                   last_flag; 0; len page / 256; len page mod 256]
         ++ concat (map zone_entry page)
    /\ len (data r) = 8 + entries_length page
    /\ len page <= 65535
    /\ (last_flag = 1 <-> remaining = [])
    /\ (last_flag = 0 \/ last_flag = 1)
    /\ (page <> [] -> 8 + entries_length page <= MAX_DATA_LENGTH)
    /\ (forall next more, remaining = next :: more ->
          8 + entries_length page + 1 + len next > MAX_DATA_LENGTH).
Proof.
  intros H8 Hr He Hmax Hv.
  destruct (zone_list_answer router d rx_port H8 Hr He Hmax Hv)
    as (page & remaining & last_flag & r & H).
  exists page, remaining, last_flag, r. exact H.
Qed.

(** Bytes 6 and 7 of the request are all [_get_zone_list] reads of the
    start index, and 0 and 1 skip the same number of zones. *)
Lemma start_index_zero_same_result (router : Router) (d : Datagram) (rx_port : option Port) :
  _get_zone_list K MAX_DATA_LENGTH router (with_start_index d 0) rx_port
    = _get_zone_list K MAX_DATA_LENGTH router (with_start_index d 1) rx_port.
Proof.
  unfold _get_zone_list, with_start_index. cbn [data].
  pose proof (firstn_le_length 6 (data d)) as Hle.
  destruct (firstn 6 (data d)) as [|b0 [|b1 [|b2 [|b3 [|b4 [|b5 [|b6 t]]]]]]];
    simpl in Hle; try lia; reflexivity.
Qed.

Lemma Z_of_byte_zero (b : byte) : Z_of_byte b = 0 -> b = byte_of_Z 0.
Proof. intros H. rewrite <- (byte_of_Z_of_byte b), H. reflexivity. Qed.

(** An 8-byte request whose start index is 0 is the request
    [with_start_index d 0]. *)
Lemma with_start_index_zero (d : Datagram) :
  len (data d) = 8 -> atp_start_index d = 0 -> with_start_index d 0 = d.
Proof.
  destruct d as [hc dn sn dnode snode ds ss ty dat].
  unfold with_start_index, atp_start_index, len. cbn [data hop_count destination_network
    source_network destination_node source_node destination_socket source_socket ddp_type].
  intros H8 Hs. f_equal.
  destruct dat as [|b0 [|b1 [|b2 [|b3 [|b4 [|b5 [|b6 [|b7 [|b8 t]]]]]]]]];
    simpl length in H8; try lia.
  cbn [nth] in Hs.
  pose proof (Z_of_byte_range b6). pose proof (Z_of_byte_range b7).
  assert (H6 : Z_of_byte b6 = 0) by lia. assert (H7 : Z_of_byte b7 = 0) by lia.
  apply Z_of_byte_zero in H6, H7. subst b6 b7. reflexivity.
Qed.

(** C10: an 8-byte get-zone-list request with start index 0 is answered,
    by one datagram routed back to the sender; the page of that reply
    starts at the first zone of the enumerated sequence, so that no zone is
    skipped, and takes zones while they fit; the same request with start
    index 1 is answered with the very same datagram. *)
Theorem start_index_zero_as_one (router : Router) (d : Datagram) (rx_port : option Port) :
  len (data d) = 8 ->
  atp_start_index d = 0 ->
  is_byte (ATP_FUNC_TRESP K) -> is_byte (ATP_EOM K) ->
  MAX_DATA_LENGTH <= 65535 ->
  (forall z, In z (zone_sequence router rx_port) -> valid_zone_name z) ->
  exists page remaining last_flag r,
    zone_sequence router rx_port = page ++ remaining
    /\ _get_zone_list K MAX_DATA_LENGTH router d rx_port = ([Route r], Returned tt)
    /\ atp_start_index (with_start_index d 1) = 1
    /\ _get_zone_list K MAX_DATA_LENGTH router (with_start_index d 1) rx_port
       = ([Route r], Returned tt)
    /\ routed_answer d r (ATP_DDP_TYPE K)
         (atp_response_header K (atp_tid d) last_flag (len page)
          ++ concat (map zone_entry page))
    /\ data r
       = bytes_of [Z.lor (ATP_FUNC_TRESP K) (ATP_EOM K); 0; byte_at 2 d; byte_at 3 d;
                   last_flag; 0; len page / 256; len page mod 256]
         ++ concat (map zone_entry page)
    /\ len page <= 65535
    /\ (last_flag = 1 <-> remaining = [])
    /\ (last_flag = 0 \/ last_flag = 1)
    /\ (page <> [] -> 8 + entries_length page <= MAX_DATA_LENGTH)
    /\ (forall next more, remaining = next :: more ->
          8 + entries_length page + 1 + len next > MAX_DATA_LENGTH).
Proof.
  intros H8 Hs Hr He Hmax Hv.
  destruct (zone_list_answer router d rx_port H8 Hr He Hmax Hv)
    as (page & remaining & last_flag & r
        & Hsplit & Hrun & Hans & Hdata & Hlen & Hcount & Hlast & Hflag & Hfit & Hnext).
  exists page, remaining, last_flag, r.
  rewrite Hs in Hsplit. change (Z.to_nat (0 - 1)) with 0%nat in Hsplit.
  cbn [skipn] in Hsplit.
  split; [exact Hsplit|]. split; [exact Hrun|].
  split.
  { unfold atp_start_index, with_start_index. cbn [data].
    pose proof (firstn_length_le (data d) (n := 6)) as H6.
    unfold len in H8.
    destruct (firstn 6 (data d)) as [|b0 [|b1 [|b2 [|b3 [|b4 [|b5 [|b6 t]]]]]]];
      simpl length in H6; try lia.
    reflexivity. }
  split.
  { rewrite <- start_index_zero_same_result, (with_start_index_zero d H8 Hs). exact Hrun. }
  repeat (split; [assumption|]). assumption.
Qed.

End AtpClaims.

(** ** Instances on the example table *)

Lemma appletalk_net_info_consts : net_info_consts_ok appletalk.
Proof.
  constructor; unfold is_byte; simpl; try lia; try reflexivity.
Qed.

Lemma port_10_ok : port_ok port_10.
Proof.
  constructor; simpl; try lia. intros _. vm_compute. discriminate.
Qed.

Lemma get_net_info_guards_witness :
  dropped (_get_net_info appletalk ascii_ucase (router_of sales_zit)
             get_net_info_eng port_unassigned).
Proof.
  apply (get_net_info_guards appletalk ascii_ucase (router_of sales_zit)
           get_net_info_eng port_unassigned).
  left. reflexivity.
Defined.

(** C7 as stated fails: the length byte of this request says 3 and one name
    byte follows, and the request is answered, for the one-byte name. *)
Lemma short_name_is_answered :
  getitem (data get_net_info_short) 6 = Returned 3
  /\ len (data get_net_info_short) = 7 + 1
  /\ _get_net_info appletalk ascii_ucase (router_of sales_zit) get_net_info_short port_10
     = ([Send port_10 3 7
           (net_info_reply appletalk port_10 get_net_info_short 128
              (bytes_of [9; 0; 7; 0; 0; 1]) (zone_entry (zone "Sales")))],
        Returned tt)
  /\ given_zone_name get_net_info_short = zone "H".
Proof.
  repeat split.
Qed.

Lemma get_net_info_zone_validity_witness :
  exists fl mcast tail r,
    _get_net_info appletalk ascii_ucase (router_of sales_zit) get_net_info_eng port_10
      = ([Send port_10 (source_network get_net_info_eng) (source_node get_net_info_eng) r],
         Returned tt)
    /\ data r
       = bytes_of [ZIP_FUNC_GETNETINFO_REPLY appletalk; fl;
                   network_min port_10 / 256; network_min port_10 mod 256;
                   network_max port_10 / 256; network_max port_10 mod 256;
                   len (given_zone_name get_net_info_eng)]
         ++ given_zone_name get_net_info_eng ++ zone_entry mcast ++ tail
    /\ getitem (data r) 1 = Returned fl
    /\ is_byte fl
    /\ len mcast <= 255
    /\ ((exists z, In z [zone "Sales"; zone "Eng"]
                   /\ ascii_ucase z = ascii_ucase (given_zone_name get_net_info_eng)) ->
          Z.land fl (ZIP_GETNETINFO_ZONE_INVALID appletalk) = 0)
    /\ ((forall z, In z [zone "Sales"; zone "Eng"] ->
                   ascii_ucase z <> ascii_ucase (given_zone_name get_net_info_eng)) ->
          Z.land fl (ZIP_GETNETINFO_ZONE_INVALID appletalk) <> 0
          /\ tail = zone_entry (zone "Sales"))
    /\ (tail <> [] <-> Z.land fl (ZIP_GETNETINFO_ZONE_INVALID appletalk) <> 0).
Proof.
  apply (get_net_info_zone_validity appletalk ascii_ucase (router_of sales_zit)
           get_net_info_eng port_10 (zone "Sales") [zone "Eng"]).
  - exact appletalk_net_info_consts.
  - exact port_10_ok.
  - vm_compute. discriminate.
  - reflexivity.
  - reflexivity.
  - vm_compute. discriminate.
Defined.

(** The request for zone "eng" on network 10: the name matches "Eng", the
    flags byte is zero and the reply has no default-zone entry. *)
Example get_net_info_eng_reply :
  _get_net_info appletalk ascii_ucase (router_of sales_zit) get_net_info_eng port_10
    = ([Send port_10 3 7
          (net_info_reply appletalk port_10 get_net_info_eng 0
             (bytes_of [9; 0; 7; 0; 0; 1]) [])],
       Returned tt).
Proof. reflexivity. Qed.

Lemma port_3_ok : port_ok port_3.
Proof.
  constructor; simpl; try lia. intros _. vm_compute. discriminate.
Qed.

(** C8: the get-net-info request for zone "eng" on the port of network 3,
    whose range has no zone.  The request passes the guards and no zone of
    the range matches, so that a reply with the zone-invalid bit set is due;
    the handler raises at [len(default_zone_name)] and sends nothing.  So
    it does for every request that passes the guards on a port whose range
    has no zone. *)
Theorem get_net_info_on_empty_range :
  port_ok port_3
  /\ slice 1 6 (data get_net_info_eng) = [x00; x00; x00; x00; x00]
  /\ given_zone_name get_net_info_eng = zone "eng"
  /\ len (data get_net_info_eng) = 7 + len (given_zone_name get_net_info_eng)
  /\ zones_in_network_range sales_zit (network_min port_3) (network_max port_3) = []
  /\ _get_net_info appletalk ascii_ucase (router_of sales_zit) get_net_info_eng port_3
     = ([], Raised TypeError)
  /\ (forall router d p,
        port_ok p ->
        7 <= len (data d) ->
        slice 1 6 (data d) = [x00; x00; x00; x00; x00] ->
        zones_in_network_range (zone_information_table router)
                               (network_min p) (network_max p) = [] ->
        _get_net_info appletalk ascii_ucase router d p = ([], Raised TypeError)).
Proof.
  split; [exact port_3_ok|]. split; [reflexivity|]. split; [reflexivity|].
  split; [reflexivity|]. split; [reflexivity|]. split; [reflexivity|].
  intros router d p Hp H7 Hz Hr.
  apply get_net_info_no_zone_raises; auto using appletalk_net_info_consts.
Qed.

Lemma get_my_zone_reply_witness :
  len (data get_my_zone_from_10) = 8
  /\ atp_start_index get_my_zone_from_10 = 0
  /\ valid_zone_name (zone "Sales")
  /\ exists r,
       _get_my_zone appletalk (router_of sales_zit) get_my_zone_from_10
         = ([Route r], Returned tt)
       /\ routed_answer get_my_zone_from_10 r (ATP_DDP_TYPE appletalk)
            (atp_response_header appletalk (atp_tid get_my_zone_from_10) 0 1
             ++ zone_entry (zone "Sales"))
       /\ data r
          = bytes_of [Z.lor (ATP_FUNC_TRESP appletalk) (ATP_EOM appletalk); 0;
                      byte_at 2 get_my_zone_from_10; byte_at 3 get_my_zone_from_10;
                      0; 0; 0; 1; len (zone "Sales")] ++ zone "Sales"
       /\ is_byte (Z.lor (ATP_FUNC_TRESP appletalk) (ATP_EOM appletalk))
       /\ is_byte (byte_at 2 get_my_zone_from_10)
       /\ is_byte (byte_at 3 get_my_zone_from_10)
       /\ is_byte (len (zone "Sales")).
Proof.
  split; [reflexivity|]. split; [reflexivity|].
  split; [unfold valid_zone_name, len; simpl; lia|].
  refine (proj1 (proj2 (get_my_zone_reply appletalk (router_of sales_zit)
                          get_my_zone_from_10 _ _ _))
                eq_refl (zone "Sales") [zone "Eng"] eq_refl _).
  - reflexivity.
  - unfold is_byte. simpl. lia.
  - unfold is_byte. simpl. lia.
  - unfold valid_zone_name, len. simpl. lia.
Defined.

(** The request from network 10 is answered with its first zone, "Sales";
    the same request with start index 1 is not answered, nor is one from
    network 3, which has no zone. *)
Example get_my_zone_examples :
  _get_my_zone appletalk (router_of sales_zit) get_my_zone_from_10
    = ([Route (reply_datagram get_my_zone_from_10 3
                 (bytes_of [128 + 16; 0; 1; 2; 0; 0; 0; 1; 5] ++ zone "Sales"))],
       Returned tt)
  /\ dropped (_get_my_zone appletalk (router_of sales_zit)
                (with_start_index get_my_zone_from_10 1))
  /\ dropped (_get_my_zone appletalk (router_of sales_zit) (atp_request 7 0)).
Proof. repeat split. Qed.

Lemma get_zone_list_page_witness :
  exists page remaining last_flag r,
    skipn (Z.to_nat (atp_start_index get_zone_list_1 - 1))
          (zone_sequence (router_of sales_zit) None)
      = page ++ remaining
    /\ _get_zone_list appletalk DDP_MAX_DATA_LENGTH (router_of sales_zit) get_zone_list_1 None
       = ([Route r], Returned tt)
    /\ routed_answer get_zone_list_1 r (ATP_DDP_TYPE appletalk)
         (atp_response_header appletalk (atp_tid get_zone_list_1) last_flag (len page)
          ++ concat (map zone_entry page))
    /\ data r
       = bytes_of [Z.lor (ATP_FUNC_TRESP appletalk) (ATP_EOM appletalk); 0;
                   byte_at 2 get_zone_list_1; byte_at 3 get_zone_list_1;
                   last_flag; 0; len page / 256; len page mod 256]
         ++ concat (map zone_entry page)
    /\ len (data r) = 8 + entries_length page
    /\ len page <= 65535
    /\ (last_flag = 1 <-> remaining = [])
    /\ (last_flag = 0 \/ last_flag = 1)
    /\ (page <> [] -> 8 + entries_length page <= DDP_MAX_DATA_LENGTH)
    /\ (forall next more, remaining = next :: more ->
          8 + entries_length page + 1 + len next > DDP_MAX_DATA_LENGTH).
Proof.
  apply (get_zone_list_page appletalk DDP_MAX_DATA_LENGTH (router_of sales_zit)
           get_zone_list_1 None).
  - reflexivity.
  - unfold is_byte. simpl. lia.
  - unfold is_byte. simpl. lia.
  - unfold DDP_MAX_DATA_LENGTH. lia.
  - intros z Hz. simpl in Hz.
    destruct Hz as [<-|[<-|[<-|[]]]]; unfold valid_zone_name, len; simpl; lia.
Defined.

Lemma start_index_zero_as_one_witness :
  exists page remaining last_flag r,
    zone_sequence (router_of sales_zit) None = page ++ remaining
    /\ _get_zone_list appletalk 20 (router_of sales_zit) (atp_request 8 0) None
       = ([Route r], Returned tt)
    /\ atp_start_index (with_start_index (atp_request 8 0) 1) = 1
    /\ _get_zone_list appletalk 20 (router_of sales_zit)
         (with_start_index (atp_request 8 0) 1) None
       = ([Route r], Returned tt)
    /\ routed_answer (atp_request 8 0) r (ATP_DDP_TYPE appletalk)
         (atp_response_header appletalk (atp_tid (atp_request 8 0)) last_flag (len page)
          ++ concat (map zone_entry page))
    /\ data r
       = bytes_of [Z.lor (ATP_FUNC_TRESP appletalk) (ATP_EOM appletalk); 0;
                   byte_at 2 (atp_request 8 0); byte_at 3 (atp_request 8 0);
                   last_flag; 0; len page / 256; len page mod 256]
         ++ concat (map zone_entry page)
    /\ len page <= 65535
    /\ (last_flag = 1 <-> remaining = [])
    /\ (last_flag = 0 \/ last_flag = 1)
    /\ (page <> [] -> 8 + entries_length page <= 20)
    /\ (forall next more, remaining = next :: more ->
          8 + entries_length page + 1 + len next > 20).
Proof.
  apply (start_index_zero_as_one appletalk 20 (router_of sales_zit) (atp_request 8 0) None).
  - reflexivity.
  - reflexivity.
  - unfold is_byte. simpl. lia.
  - unfold is_byte. simpl. lia.
  - lia.
  - intros z Hz. simpl in Hz.
    destruct Hz as [<-|[<-|[<-|[]]]]; unfold valid_zone_name, len; simpl; lia.
Defined.

(** Pages of the example table with a maximum of 20 bytes: from index 1,
    and from index 0 alike, the page holds "Sales" and "Eng" (8 + 6 + 4 = 18
    bytes) and "HR" no longer fits; from index 3 it is "HR", the last zone;
    the zones of port 10 are one page. *)
Example paging_examples :
  _get_zone_list appletalk 20 (router_of sales_zit) (atp_request 8 1) None
    = ([Route (reply_datagram (atp_request 8 1) 3
                 (atp_response_header appletalk 258 0 2
                  ++ zone_entry (zone "Sales") ++ zone_entry (zone "Eng")))],
       Returned tt)
  /\ _get_zone_list appletalk 20 (router_of sales_zit) (atp_request 8 0) None
    = ([Route (reply_datagram (atp_request 8 0) 3
                 (atp_response_header appletalk 258 0 2
                  ++ zone_entry (zone "Sales") ++ zone_entry (zone "Eng")))],
       Returned tt)
  /\ _get_zone_list appletalk 20 (router_of sales_zit) (atp_request 8 3) None
    = ([Route (reply_datagram (atp_request 8 3) 3
                 (atp_response_header appletalk 258 1 1 ++ zone_entry (zone "HR")))],
       Returned tt)
  /\ _get_zone_list appletalk 20 (router_of sales_zit) (atp_request 9 1) (Some port_10)
    = ([Route (reply_datagram (atp_request 9 1) 3
                 (atp_response_header appletalk 258 1 2
                  ++ zone_entry (zone "Sales") ++ zone_entry (zone "Eng")))],
       Returned tt).
Proof. repeat split. Qed.

(** ** The dispatch loop *)

Section Worker.

Variable K : ZipConsts.
Variable MAX_DATA_LENGTH : Z.
Variable ucase : bytes -> bytes.

(** An exception of a handler leaves the loop: nothing queued after the
    entry is processed. *)
Lemma run_stops_at_exception (router : Router) (d : Datagram) (p : Port)
    (rest : list queue_item) (e : exn) :
  result (dispatch K MAX_DATA_LENGTH ucase router d p) = Raised e ->
  _run K MAX_DATA_LENGTH ucase router (Item d p :: rest)
    = (emitted (dispatch K MAX_DATA_LENGTH ucase router d p), Raised e).
Proof.
  unfold result, emitted. intros H. simpl. unfold bind.
  destruct (dispatch K MAX_DATA_LENGTH ucase router d p) as [w o].
  simpl in H. subst o. reflexivity.
Qed.

(** X20: whatever the table and the port: a get-net-info request that passes
    the guards, on a range without zones, ends the worker with [TypeError],
    and the entries queued after it are not handled. *)
Lemma run_ends_on_empty_range (router : Router) (d : Datagram) (p : Port)
    (rest : list queue_item) :
  net_info_consts_ok K ->
  port_ok p ->
  ddp_type d = ZIP_DDP_TYPE K ->
  7 <= len (data d) ->
  Z_of_byte (nth 0 (data d) x00) = ZIP_FUNC_GETNETINFO_REQUEST K ->
  ZIP_FUNC_GETNETINFO_REQUEST K <> ZIP_FUNC_QUERY K ->
  slice 1 6 (data d) = [x00; x00; x00; x00; x00] ->
  zones_in_network_range (zone_information_table router) (network_min p) (network_max p)
    = [] ->
  _run K MAX_DATA_LENGTH ucase router (Item d p :: rest) = ([], Raised TypeError).
Proof.
  intros HK Hp Hty H7 Hf Hneq Hzero Hzs.
  assert (Hd : dispatch K MAX_DATA_LENGTH ucase router d p = ([], Raised TypeError)).
  { unfold dispatch. rewrite Hty, Z.eqb_refl.
    replace (truthy (data d)) with true
      by (destruct (data d); [unfold len in H7; simpl in H7; lia|reflexivity]).
    simpl negb. cbv iota.
    rewrite (getitem_nth (data d) 0) by lia. rewrite bind_lift_Returned, Hf.
    replace (ZIP_FUNC_GETNETINFO_REQUEST K =? ZIP_FUNC_QUERY K) with false
      by (symmetry; now apply Z.eqb_neq).
    rewrite Z.eqb_refl. now apply get_net_info_no_zone_raises. }
  rewrite (run_stops_at_exception router d p rest TypeError); rewrite Hd; reflexivity.
Qed.

End Worker.

(** C2: an exception of a handler ends the worker.  The get-net-info request
    on the range 3-3, which has no zone, raises [TypeError]; the query for
    networks 10 and 20, on a table that answers for the unpacked tuples,
    raises [struct.error]; in both queues the get-zone-list request that
    follows is never handled, though alone it is answered. *)
Theorem worker_ends_on_exception :
  _run appletalk DDP_MAX_DATA_LENGTH ascii_ucase (router_of sales_zit) queue_net_info_first
    = ([], Raised TypeError)
  /\ _run appletalk DDP_MAX_DATA_LENGTH ascii_ucase (router_of (zit_lenient_of big_table))
          queue_query_first
    = ([], Raised StructError)
  /\ _run appletalk DDP_MAX_DATA_LENGTH ascii_ucase (router_of sales_zit)
          [Item get_zone_list_1 port_3]
    = ([Route (reply_datagram get_zone_list_1 3
                 (atp_response_header appletalk 258 1 3
                  ++ zone_entry (zone "Sales") ++ zone_entry (zone "Eng")
                  ++ zone_entry (zone "HR")))],
       Returned tt).
Proof.
  repeat split.
Qed.

(** ** The queue: arrival order, the stop flag, unrecognised datagrams *)

Lemma bind_assoc {A B C : Type} (m : M A) (f : A -> M B) (g : B -> M C) :
  bind (bind m f) g = bind m (fun a => bind (f a) g).
Proof.
  unfold bind. destruct m as [w [a|e]]; [|reflexivity].
  destruct (f a) as [w1 [b|e1]]; [|reflexivity].
  destruct (g b) as [w2 o]. now rewrite app_assoc.
Qed.

Lemma bind_unit_ret (m : M unit) : bind m (fun _ => ret tt) = m.
Proof.
  unfold bind, ret. destruct m as [w [[]|e]]; [|reflexivity].
  now rewrite app_nil_r.
Qed.

Section Queue.

Variable K : ZipConsts.
Variable MAX_DATA_LENGTH : Z.
Variable ucase : bytes -> bytes.
Variable router : Router.

(** X1: what is queued behind the stop flag is never handled: the worker
    does, and ends, as on the queue before [stop]. *)
Theorem nothing_handled_after_stop (queue later : list queue_item) :
  _run K MAX_DATA_LENGTH ucase router (stop queue ++ later)
    = _run K MAX_DATA_LENGTH ucase router queue
  /\ forall d p,
       _run K MAX_DATA_LENGTH ucase router (inbound (stop queue) d p)
         = _run K MAX_DATA_LENGTH ucase router queue.
Proof.
  assert (H : forall q l, _run K MAX_DATA_LENGTH ucase router ((q ++ [stop_flag]) ++ l)
                          = _run K MAX_DATA_LENGTH ucase router q).
  { induction q as [|[d p|] q IH]; intros l; simpl; try reflexivity.
    now rewrite IH. }
  split; [apply H|]. intros d p. apply H.
Qed.

(** X2: entries are handled in arrival order, each by [dispatch] alone: with
    no stop flag in the first part of a queue, the worker does on the whole
    queue what it does on the first part and then, unless that raised, on
    the second; so an entry put by [inbound] is dispatched after all
    earlier ones. *)
Theorem run_in_arrival_order (queue later : list queue_item) :
  ~ In stop_flag queue ->
  _run K MAX_DATA_LENGTH ucase router (queue ++ later)
    = bind (_run K MAX_DATA_LENGTH ucase router queue)
           (fun _ => _run K MAX_DATA_LENGTH ucase router later)
  /\ forall d p,
       _run K MAX_DATA_LENGTH ucase router (inbound queue d p)
         = bind (_run K MAX_DATA_LENGTH ucase router queue)
                (fun _ => dispatch K MAX_DATA_LENGTH ucase router d p).
Proof.
  intros Hns.
  assert (H : forall l, _run K MAX_DATA_LENGTH ucase router (queue ++ l)
                        = bind (_run K MAX_DATA_LENGTH ucase router queue)
                               (fun _ => _run K MAX_DATA_LENGTH ucase router l)).
  { induction queue as [|[d p|] q IH]; intros l.
    - symmetry. apply (bind_ret tt).
    - simpl. rewrite bind_assoc. f_equal.
      rewrite IH; [reflexivity|]. intros Hin. apply Hns. now right.
    - exfalso. apply Hns. now left. }
  split; [apply H|]. intros d p. unfold inbound. rewrite H. simpl.
  now rewrite bind_unit_ret.
Qed.

(** X3: a datagram the loop has no branch for is dropped: no reply, no
    exception, and the worker goes on to the next entry. *)
Theorem unrecognised_is_dropped (d : Datagram) (p : Port) :
  unrecognised K d ->
  dropped (dispatch K MAX_DATA_LENGTH ucase router d p).
Proof.
  unfold unrecognised, dropped, dispatch, byte_at.
  intros [[Hz Ha]|[[Hz Hd]|[Hz [Ha Hd]]]].
  - apply Z.eqb_neq in Hz, Ha. now rewrite Hz, Ha.
  - rewrite Hz, Z.eqb_refl. destruct Hd as [Hd|[Hq Hg]].
    + now rewrite Hd.
    + destruct (data d) as [|b0 t]; [reflexivity|].
      simpl in Hq, Hg. apply Z.eqb_neq in Hq, Hg.
      cbn [truthy negb].
      change (getitem (b0 :: t) 0) with (@Returned Z (Z_of_byte b0)).
      now rewrite bind_lift_Returned, Hq, Hg.
  - apply Z.eqb_neq in Hz. rewrite Hz, Ha, Z.eqb_refl.
    destruct (len (data d) =? 8) eqn:E8; [|reflexivity].
    apply Z.eqb_eq in E8. simpl negb. cbv iota.
    rewrite (unpack_atp_header d E8), bind_lift_Returned.
    destruct Hd as [Hd|[Hd|[Hd|[Hd|[H1 [H2 H3]]]]]].
    + contradiction.
    + apply Z.eqb_neq in Hd. now rewrite Hd.
    + apply Z.eqb_neq in Hd. rewrite Hd. simpl. now rewrite orb_true_r.
    + apply Z.eqb_neq in Hd. rewrite Hd. simpl. now rewrite !orb_true_r.
    + apply Z.eqb_neq in H1, H2, H3. rewrite H1, H2, H3.
      now destruct (negb _ || negb _ || negb _).
Qed.

End Queue.

(** ** What one entry can make the worker send *)

Lemma emitted_bind_lift {A B : Type} (o : outcome A) (f : A -> M B) :
  emitted (bind (lift o) f)
    = match o with
      | Returned a => emitted (f a)
      | Raised _ => []
      end.
Proof.
  destruct o as [a|e]; [|reflexivity]. now rewrite bind_lift_Returned.
Qed.

Lemma emitted_bind {A B : Type} (m : M A) (f : A -> M B) :
  emitted (bind m f)
    = emitted m ++ match result m with
                   | Returned a => emitted (f a)
                   | Raised _ => []
                   end.
Proof.
  unfold emitted, result, bind. destruct m as [w [a|e]]; simpl.
  - now destruct (f a).
  - now rewrite app_nil_r.
Qed.

Lemma Forall_emitted_bind {A B : Type} (P : action -> Prop) (m : M A) (f : A -> M B) :
  Forall P (emitted m) -> (forall a, Forall P (emitted (f a))) ->
  Forall P (emitted (bind m f)).
Proof.
  intros Hm Hf. rewrite emitted_bind. apply Forall_app. split; [exact Hm|].
  destruct (result m); [apply Hf|constructor].
Qed.

(** Solves [Forall P (emitted m)] along the structure of [m], leaving the
    emitted actions and the loops. *)
Ltac walk_emitted :=
  repeat match goal with
         | |- Forall _ (emitted (bind _ _)) => apply Forall_emitted_bind; [|intros]
         | |- Forall _ (emitted (lift _)) => apply Forall_nil
         | |- Forall _ (emitted (ret _)) => apply Forall_nil
         | |- Forall _ (emitted (raise _)) => apply Forall_nil
         | |- Forall _ (emitted (emit _)) => apply Forall_cons; [|apply Forall_nil]
         | |- Forall _ (emitted (if ?c then _ else _)) => destruct c
         | |- Forall _ (emitted (match ?x with _ => _ end)) => destruct x
         end.

Section Replies.

Variable K : ZipConsts.
Variable MAX_DATA_LENGTH : Z.
Variable ucase : bytes -> bytes.
Variable router : Router.

Lemma reply_datagram_answers (d : Datagram) (ty : Z) (b : bytes) :
  answers d (Route (reply_datagram d ty b)).
Proof. repeat split. Qed.

Lemma extended_reply_loop_answers (d : Datagram) (n : Z) (items : list (option bytes)) :
  forall dd dl,
    Forall (answers d) (emitted (extended_reply_loop K MAX_DATA_LENGTH d n items dd dl)).
Proof.
  induction items as [|it items IH]; intros dd dl; simpl.
  - apply Forall_nil.
  - walk_emitted; try apply IH; try apply reply_datagram_answers;
      try (apply Forall_cons; [apply reply_datagram_answers|apply Forall_nil]);
      apply Forall_nil.
Qed.

Lemma for_each_answers {A : Type} (d : Datagram) (l : list A) (body : A -> M unit) :
  (forall a, Forall (answers d) (emitted (body a))) ->
  Forall (answers d) (emitted (for_each l body)).
Proof.
  intros Hb. induction l as [|a l IH]; simpl.
  - apply Forall_nil.
  - apply Forall_emitted_bind; [apply Hb|intros _; exact IH].
Qed.

Lemma query_answers (d : Datagram) :
  Forall (answers d) (emitted (_query K MAX_DATA_LENGTH router d)).
Proof.
  unfold _query. walk_emitted; try apply reply_datagram_answers.
  unfold extended_replies. apply for_each_answers. intros g.
  apply extended_reply_loop_answers.
Qed.

Lemma get_net_info_answers (d : Datagram) (p : Port) :
  Forall (answers d) (emitted (_get_net_info K ucase router d p)).
Proof.
  unfold _get_net_info. walk_emitted. repeat split.
Qed.

Lemma get_my_zone_answers (d : Datagram) :
  Forall (answers d) (emitted (_get_my_zone K router d)).
Proof.
  unfold _get_my_zone. walk_emitted; apply reply_datagram_answers.
Qed.

Lemma get_zone_list_answers (d : Datagram) (rx_port : option Port) :
  Forall (answers d) (emitted (_get_zone_list K MAX_DATA_LENGTH router d rx_port)).
Proof.
  unfold _get_zone_list. walk_emitted; apply reply_datagram_answers.
Qed.

(** X4: whatever a queued datagram makes the service send goes back to its
    sender: every datagram routed or sent for it has hop count zero and the
    source network, node and socket of the request as destination, and one
    sent through the port is sent to that network and node. *)
Theorem replies_go_to_the_sender (d : Datagram) (p : Port) :
  Forall (answers d) (emitted (dispatch K MAX_DATA_LENGTH ucase router d p)).
Proof.
  unfold dispatch.
  walk_emitted;
    first [ apply query_answers | apply get_net_info_answers
          | apply get_my_zone_answers | apply get_zone_list_answers ].
Qed.

End Replies.

Section Outcomes.

Variable K : ZipConsts.
Variable MAX_DATA_LENGTH : Z.
Variable ucase : bytes -> bytes.
Variable router : Router.

(** The encoding of line 38 on the tuples of line 45: the empty list when no
    requested key has a zone, [struct.error] as soon as one has. *)
Lemma networks_zone_list_on_tuples (zit : ZoneInformationTable) (networks : list pyobj) :
  Forall is_tuple networks ->
  (Forall (fun n => zones_in_network zit n = []) networks ->
     _networks_zone_list zit networks = Returned [])
  /\ (Exists (fun n => zones_in_network zit n <> []) networks ->
        _networks_zone_list zit networks = Raised StructError).
Proof.
  induction 1 as [|n ns Hn Hns [IHe IHx]]; split.
  - reflexivity.
  - intros Hx. inversion Hx.
  - intros Hall. inversion Hall as [|? ? Hz Hrest]; subst.
    simpl. rewrite Hz. simpl. now rewrite (IHe Hrest).
  - intros Hx. destruct n as [z|t]; [contradiction|]. simpl.
    destruct (zones_in_network zit (PyTuple t)) as [|z zs] eqn:Ez.
    + inversion Hx as [? ? Hne|? ? Hrest]; subst; [congruence|].
      simpl. now rewrite (IHx Hrest).
    + reflexivity.
Qed.

(** X5: a well-formed query is answered exactly when the table has no zone
    for any of the keys of line 45, and then with the two header bytes
    alone; when some key has a zone the handler raises [struct.error] and
    nothing is sent. *)
Theorem query_answered_iff_no_zone (d : Datagram) (networks : list pyobj) :
  is_byte (ZIP_FUNC_REPLY K) ->
  2 <= MAX_DATA_LENGTH ->
  4 <= len (data d) ->
  len (data d) = 2 + 2 * count_byte d ->
  query_networks d (count_byte d) = Returned networks ->
  (Forall (fun n => zones_in_network (zone_information_table router) n = []) networks ->
     _query K MAX_DATA_LENGTH router d
       = ([Route (reply_datagram d (ZIP_DDP_TYPE K)
                    (bytes_of [ZIP_FUNC_REPLY K; count_byte d]))],
          Returned tt)
     /\ exists r,
          _query K MAX_DATA_LENGTH router d = ([Route r], Returned tt)
          /\ routed_answer d r (ZIP_DDP_TYPE K) (bytes_of [ZIP_FUNC_REPLY K; count_byte d])
          /\ getitem (data r) 0 = Returned (ZIP_FUNC_REPLY K)
          /\ getitem (data r) 1 = Returned (count_byte d)
          /\ len (data r) = 2)
  /\ (Exists (fun n => zones_in_network (zone_information_table router) n <> []) networks ->
        _query K MAX_DATA_LENGTH router d = ([], Raised StructError)).
Proof.
  intros Hrep Hmax H4 Hlen Hn.
  destruct (query_networks_tuples d (count_byte d)) as (ns & Hq & Hl & Hall); [lia|lia|].
  rewrite Hn in Hq. injection Hq as <-.
  destruct (networks_zone_list_on_tuples (zone_information_table router) networks Hall)
    as [He Hx].
  split.
  - intros Hnone.
    assert (Hrun : _query K MAX_DATA_LENGTH router d
                   = ([Route (reply_datagram d (ZIP_DDP_TYPE K)
                                (bytes_of [ZIP_FUNC_REPLY K; count_byte d]))],
                      Returned tt)).
    { rewrite (query_past_guards K MAX_DATA_LENGTH router d networks) by (auto; lia).
      rewrite (He Hnone). simpl byte_length.
      replace (0 + 2 <=? MAX_DATA_LENGTH) with true by (symmetry; apply Z.leb_le; lia).
      unfold struct_pack_BB. rewrite Hl.
      rewrite (pack_B_byte _ Hrep), (pack_B_byte _ (count_byte_is_byte d)).
      reflexivity. }
    split; [exact Hrun|]. eexists. split; [exact Hrun|].
    split; [repeat split|].
    unfold getitem. cbn [reply_datagram data bytes_of map nth_error].
    split; [f_equal; apply Z_of_byte_of_Z; exact Hrep|].
    split; [f_equal; apply Z_of_byte_of_Z; apply count_byte_is_byte|reflexivity].
  - intros Hsome.
    rewrite (query_past_guards K MAX_DATA_LENGTH router d networks) by (auto; lia).
    now rewrite (Hx Hsome).
Qed.

Lemma length_emitted_bind_lift {A B : Type} (o : outcome A) (f : A -> M B) (n : nat) :
  (forall a, (length (emitted (f a)) <= n)%nat) ->
  (length (emitted (bind (lift o) f)) <= n)%nat.
Proof.
  intros Hf. rewrite emitted_bind_lift. destruct o; [apply Hf|simpl; lia].
Qed.

(** Bounds [length (emitted m)] by 1 along the structure of a handler that
    evaluates, then emits once. *)
Ltac walk_once :=
  repeat match goal with
         | |- (length (emitted (bind (lift _) _)) <= 1)%nat =>
             apply length_emitted_bind_lift; intros
         | |- (length (emitted (if ?c then _ else _)) <= 1)%nat => destruct c
         | |- (length (emitted (match ?x with _ => _ end)) <= 1)%nat => destruct x
         | |- (length (emitted (ret _)) <= 1)%nat => simpl; lia
         | |- (length (emitted (emit _)) <= 1)%nat => simpl; lia
         end.

Lemma query_sends_at_most_once (d : Datagram) :
  2 <= MAX_DATA_LENGTH ->
  (length (emitted (_query K MAX_DATA_LENGTH router d)) <= 1)%nat.
Proof.
  intros Hmax.
  destruct (Z.lt_ge_cases (len (data d)) 4) as [H4|H4].
  { rewrite (query_guard_drops K MAX_DATA_LENGTH router d (or_introl H4)). simpl. lia. }
  destruct (Z.eq_dec (len (data d)) (2 + 2 * count_byte d)) as [Hl|Hl].
  2:{ rewrite (query_guard_drops K MAX_DATA_LENGTH router d (or_intror Hl)). simpl. lia. }
  destruct (query_networks_tuples d (count_byte d)) as (ns & Hq & Hlen & Hall).
  { pose proof (count_byte_is_byte d) as Hb. unfold is_byte in Hb. lia. }
  { lia. }
  rewrite (query_past_guards K MAX_DATA_LENGTH router d ns) by (auto; lia).
  destruct (_networks_zone_list (zone_information_table router) ns) as [nzl|e] eqn:En;
    [|simpl; lia].
  apply networks_zone_list_of_tuples in En; [|exact Hall]. destruct En as [-> _].
  simpl byte_length.
  replace (0 + 2 <=? MAX_DATA_LENGTH) with true by (symmetry; apply Z.leb_le; lia).
  destruct (struct_pack_BB (ZIP_FUNC_REPLY K) (len ns)); simpl; lia.
Qed.

(** X6: the worker sends at most one datagram for a queued entry, whatever
    the datagram, the port and the table (the maximum payload being at least
    the two header bytes of a reply). *)
Theorem one_datagram_per_entry (d : Datagram) (p : Port) :
  2 <= MAX_DATA_LENGTH ->
  (length (emitted (dispatch K MAX_DATA_LENGTH ucase router d p)) <= 1)%nat.
Proof.
  intros Hmax. unfold dispatch. walk_once.
  - now apply query_sends_at_most_once.
  - unfold _get_net_info. walk_once.
  - unfold _get_my_zone. walk_once.
  - unfold _get_zone_list. walk_once.
  - unfold _get_zone_list. walk_once.
Qed.

End Outcomes.

(** ** Paging through the zone list *)

Section Paging.

Variable K : ZipConsts.
Variable MAX_DATA_LENGTH : Z.
Variable router : Router.

(** The reply of [_get_zone_list] on a sequence of valid names, in terms of
    the page it takes and what it leaves. *)
Lemma zone_list_reply (d : Datagram) (rx_port : option Port) :
  len (data d) = 8 ->
  is_byte (ATP_FUNC_TRESP K) -> is_byte (ATP_EOM K) ->
  MAX_DATA_LENGTH <= 65535 ->
  (forall z, In z (zone_sequence router rx_port) -> valid_zone_name z) ->
  exists page remaining,
    skipn (Z.to_nat (atp_start_index d - 1)) (zone_sequence router rx_port)
      = page ++ remaining
    /\ _get_zone_list K MAX_DATA_LENGTH router d rx_port
       = ([Route (reply_datagram d (ATP_DDP_TYPE K)
                    (atp_response_header K (atp_tid d)
                       (match remaining with [] => 1 | _ :: _ => 0 end) (len page)
                     ++ concat (map zone_entry page)))],
          Returned tt)
    /\ (page <> [] -> 8 + entries_length page <= MAX_DATA_LENGTH)
    /\ (forall next more, remaining = next :: more ->
          8 + entries_length page + 1 + len next > MAX_DATA_LENGTH).
Proof.
  intros H8 Hr He Hmax Hv.
  set (zs := skipn (Z.to_nat (atp_start_index d - 1)) (zone_sequence router rx_port)).
  assert (Hvs : forall z, In z zs -> valid_zone_name z).
  { intros z Hz. apply Hv. eapply In_skipn. exact Hz. }
  destruct (collect_zones_page MAX_DATA_LENGTH zs Hvs [] 0 8)
    as (page & remaining & Hsplit & Hrun & Hfit & Hnext).
  exists page, remaining.
  assert (Hcount : 0 <= len page <= 65535).
  { split; [apply len_nonneg|].
    destruct page as [|z0 page0]; [unfold len; simpl; lia|].
    assert (Hne : z0 :: page0 <> []) by discriminate. specialize (Hfit Hne).
    assert (2 * len (z0 :: page0) <= entries_length (z0 :: page0)).
    { apply entries_length_lower. intros z Hz. apply Hvs. rewrite Hsplit.
      apply in_or_app. now left. }
    lia. }
  split; [exact Hsplit|]. split; [|split; assumption].
  unfold _get_zone_list.
  rewrite (unpack_atp_header d H8), bind_lift_Returned.
  fold (zone_sequence router rx_port). fold zs.
  rewrite Hrun, bind_lift_Returned.
  rewrite (pack_atp_response K); try assumption; try apply atp_tid_range.
  - rewrite bind_lift_Returned. simpl app. rewrite concat_entries. reflexivity.
  - destruct remaining; unfold is_byte; lia.
Qed.


(** X8: paging makes progress: with room for the longest name (8 + 1 + 255
    bytes), a reply holds no zone only when no zone is left, and then its
    last flag is 1. *)
Theorem empty_page_is_last (d : Datagram) (rx_port : option Port) :
  len (data d) = 8 ->
  is_byte (ATP_FUNC_TRESP K) -> is_byte (ATP_EOM K) ->
  264 <= MAX_DATA_LENGTH <= 65535 ->
  (forall z, In z (zone_sequence router rx_port) -> valid_zone_name z) ->
  exists page remaining last_flag,
    skipn (Z.to_nat (atp_start_index d - 1)) (zone_sequence router rx_port)
      = page ++ remaining
    /\ _get_zone_list K MAX_DATA_LENGTH router d rx_port
       = ([Route (reply_datagram d (ATP_DDP_TYPE K)
                    (atp_response_header K (atp_tid d) last_flag (len page)
                     ++ concat (map zone_entry page)))],
          Returned tt)
    /\ (page = [] -> remaining = [] /\ last_flag = 1)
    /\ (exists r,
          _get_zone_list K MAX_DATA_LENGTH router d rx_port = ([Route r], Returned tt)
          /\ routed_answer d r (ATP_DDP_TYPE K)
               (atp_response_header K (atp_tid d) last_flag (len page)
                ++ concat (map zone_entry page))
          /\ data r
             = bytes_of [Z.lor (ATP_FUNC_TRESP K) (ATP_EOM K); 0; byte_at 2 d; byte_at 3 d;
                         last_flag; 0; len page / 256; len page mod 256]
               ++ concat (map zone_entry page))
    /\ len page <= 65535
    /\ (last_flag = 1 <-> remaining = []).
Proof.
  intros H8 Hr He [Hlo Hmax] Hv.
  destruct (zone_list_reply d rx_port H8 Hr He Hmax Hv)
    as (page & remaining & Hsplit & Hrun & Hfit & Hnext).
  exists page, remaining, (match remaining with [] => 1 | _ :: _ => 0 end).
  split; [exact Hsplit|]. split; [exact Hrun|]. split; [|split; [|split]].
  - intros ->.
    destruct remaining as [|next more]; [auto|]. exfalso.
    specialize (Hnext next more eq_refl). simpl entries_length in Hnext.
    assert (Hz : valid_zone_name next).
    { apply Hv. eapply In_skipn. rewrite Hsplit. now left. }
    unfold valid_zone_name in Hz. lia.
  - eexists. split; [exact Hrun|]. split; [apply reply_datagram_routed_answer|].
    cbn [reply_datagram data]. rewrite atp_response_header_bytes. reflexivity.
  - destruct page as [|z0 page0]; [unfold len; simpl; lia|].
    assert (Hne : z0 :: page0 <> []) by discriminate. specialize (Hfit Hne).
    assert (2 * len (z0 :: page0) <= entries_length (z0 :: page0)).
    { apply entries_length_lower. intros z Hz. apply Hv. eapply In_skipn.
      rewrite Hsplit. apply in_or_app. now left. }
    lia.
  - destruct remaining; split; congruence || lia.
Qed.

(** X9: a start index beyond the end of the sequence is answered, not
    refused: the reply has no zone and the last flag 1. *)
Theorem start_index_past_the_end (d : Datagram) (rx_port : option Port) :
  len (data d) = 8 ->
  is_byte (ATP_FUNC_TRESP K) -> is_byte (ATP_EOM K) ->
  len (zone_sequence router rx_port) < atp_start_index d ->
  _get_zone_list K MAX_DATA_LENGTH router d rx_port
    = ([Route (reply_datagram d (ATP_DDP_TYPE K)
                 (atp_response_header K (atp_tid d) 1 0))],
       Returned tt)
  /\ exists r,
       _get_zone_list K MAX_DATA_LENGTH router d rx_port = ([Route r], Returned tt)
       /\ routed_answer d r (ATP_DDP_TYPE K) (atp_response_header K (atp_tid d) 1 0)
       /\ data r
          = bytes_of [Z.lor (ATP_FUNC_TRESP K) (ATP_EOM K); 0; byte_at 2 d; byte_at 3 d;
                      1; 0; 0; 0].
Proof.
  intros H8 Hr He Hlen.
  assert (Hrun : _get_zone_list K MAX_DATA_LENGTH router d rx_port
                 = ([Route (reply_datagram d (ATP_DDP_TYPE K)
                              (atp_response_header K (atp_tid d) 1 0))],
                    Returned tt)).
  { unfold _get_zone_list.
    rewrite (unpack_atp_header d H8), bind_lift_Returned.
    fold (zone_sequence router rx_port).
    rewrite skipn_all2 by (unfold len in Hlen; lia).
    simpl collect_zones. rewrite bind_lift_Returned.
    rewrite (pack_atp_response K); try assumption; try apply atp_tid_range;
      try (unfold is_byte; lia).
    rewrite bind_lift_Returned. simpl concat. now rewrite app_nil_r. }
  split; [exact Hrun|]. eexists. split; [exact Hrun|].
  split; [apply reply_datagram_routed_answer|].
  cbn [reply_datagram data]. rewrite atp_response_header_bytes. reflexivity.
Qed.

Lemma collect_zones_fits (zone_iter : list bytes) :
  forall zone_list num_zones data_length last_flag zone_list' num_zones',
    collect_zones MAX_DATA_LENGTH zone_iter zone_list num_zones data_length
      = Returned (last_flag, zone_list', num_zones') ->
    data_length <= MAX_DATA_LENGTH ->
    len (concat zone_list') - len (concat zone_list) + data_length <= MAX_DATA_LENGTH.
Proof.
  induction zone_iter as [|z zs IH]; intros zl n dl lf zl' n' Hrun Hdl; simpl in Hrun.
  - injection Hrun as _ <- _. lia.
  - destruct (negb (truthy z)); [injection Hrun as _ <- _; lia|].
    destruct (dl + 1 + len z >? MAX_DATA_LENGTH) eqn:Efit;
      [injection Hrun as _ <- _; lia|].
    assert (Hle : dl + 1 + len z <= MAX_DATA_LENGTH).
    { destruct (Z.gtb_spec (dl + 1 + len z) MAX_DATA_LENGTH); [discriminate|lia]. }
    unfold pack_B in Hrun.
    destruct ((0 <=? len z) && (len z <=? 255)); [|discriminate].
    simpl obind in Hrun. apply IH in Hrun; [|exact Hle].
    rewrite concat_app, len_app in Hrun. simpl concat in Hrun.
    rewrite app_nil_r, len_cons in Hrun. lia.
Qed.

Lemma pack_atp_response_length (a b c d0 e f : Z) (h : bytes) :
  struct_pack_BBHBBH a b c d0 e f = Returned h -> len h = 8.
Proof.
  unfold struct_pack_BBHBBH, pack_B, pack_H.
  repeat match goal with
         | |- context [if ?c then _ else _] => destruct c; simpl; try discriminate
         end.
  intros H. injection H as <-. reflexivity.
Qed.

(** X10: a get-zone-list reply never exceeds the maximum payload: whatever
    the names in the table, the payload of a routed reply, header and
    entries, is at most [MAX_DATA_LENGTH] bytes (when the 8-byte header
    itself fits). *)
Theorem zone_list_reply_fits (d : Datagram) (rx_port : option Port) (a : action) :
  8 <= MAX_DATA_LENGTH ->
  In a (emitted (_get_zone_list K MAX_DATA_LENGTH router d rx_port)) ->
  len (payload a) <= MAX_DATA_LENGTH.
Proof.
  intros Hmax. unfold _get_zone_list.
  rewrite emitted_bind_lift.
  destruct (struct_unpack_BBHBBH (data d)) as [[[[[[c b] tid] f] z] si]|e];
    [|contradiction].
  rewrite emitted_bind_lift.
  match goal with
  | |- context [collect_zones ?m ?zs ?zl ?n ?dl] =>
      destruct (collect_zones m zs zl n dl) as [[[lf zl'] n']|e] eqn:Erun
  end; [|contradiction].
  rewrite emitted_bind_lift.
  match goal with
  | |- context [struct_pack_BBHBBH ?x1 ?x2 ?x3 ?x4 ?x5 ?x6] =>
      destruct (struct_pack_BBHBBH x1 x2 x3 x4 x5 x6) as [h|e] eqn:Eh
  end; [|contradiction].
  intros [<-|[]]. simpl payload. rewrite len_app.
  apply pack_atp_response_length in Eh.
  apply collect_zones_fits in Erun; [|exact Hmax].
  unfold len in Erun at 2. simpl in Erun. lia.
Qed.

End Paging.

(** ** The ATP requests and exceptions *)

Section AtpSafety.

Variable K : ZipConsts.
Variable MAX_DATA_LENGTH : Z.
Variable ucase : bytes -> bytes.
Variable router : Router.

Lemma get_my_zone_returns (d : Datagram) :
  len (data d) = 8 ->
  is_byte (ATP_FUNC_TRESP K) -> is_byte (ATP_EOM K) ->
  (forall z, In z (zones_in_network (zone_information_table router)
                                    (PyInt (source_network d))) ->
             valid_zone_name z) ->
  result (_get_my_zone K router d) = Returned tt.
Proof.
  intros H8 Hr He Hv. unfold _get_my_zone.
  rewrite (unpack_atp_header d H8), bind_lift_Returned.
  destruct (negb (atp_start_index d =? 0)); [reflexivity|].
  destruct (zones_in_network (zone_information_table router) (PyInt (source_network d)))
    as [|z zs]; [reflexivity|].
  assert (Hz : valid_zone_name z) by (apply Hv; now left).
  destruct (negb (truthy z)); [reflexivity|].
  unfold struct_pack_BBHBBHB. unfold valid_zone_name in Hz.
  rewrite (pack_atp_response K); try assumption; try (unfold is_byte; lia);
    try apply atp_tid_range.
  rewrite (pack_B_byte (len z)) by (unfold is_byte; lia).
  simpl obind. rewrite bind_lift_Returned. reflexivity.
Qed.

Lemma get_zone_list_returns (d : Datagram) (rx_port : option Port) :
  len (data d) = 8 ->
  is_byte (ATP_FUNC_TRESP K) -> is_byte (ATP_EOM K) ->
  MAX_DATA_LENGTH <= 65535 ->
  (forall z, In z (zone_sequence router rx_port) -> valid_zone_name z) ->
  result (_get_zone_list K MAX_DATA_LENGTH router d rx_port) = Returned tt.
Proof.
  intros H8 Hr He Hmax Hv.
  destruct (zone_list_reply K MAX_DATA_LENGTH router d rx_port H8 Hr He Hmax Hv)
    as (page & remaining & _ & Hrun & _).
  now rewrite Hrun.
Qed.

(** X11: no ATP datagram ends the worker: with a table whose names have 1 to
    255 bytes, every datagram of the ATP type, well formed or not, is
    handled without an exception. *)
Theorem atp_datagrams_never_raise (d : Datagram) (p : Port) :
  ddp_type d = ATP_DDP_TYPE K ->
  ddp_type d <> ZIP_DDP_TYPE K ->
  is_byte (ATP_FUNC_TRESP K) -> is_byte (ATP_EOM K) ->
  MAX_DATA_LENGTH <= 65535 ->
  zit_names_ok (zone_information_table router) ->
  result (dispatch K MAX_DATA_LENGTH ucase router d p) = Returned tt.
Proof.
  intros Ha Hz Hr He Hmax [Hzs Hzn Hzr]. unfold dispatch.
  apply Z.eqb_neq in Hz. rewrite Hz, Ha, Z.eqb_refl.
  destruct (len (data d) =? 8) eqn:E8; [|reflexivity].
  apply Z.eqb_eq in E8. simpl negb. cbv iota.
  rewrite (unpack_atp_header d E8), bind_lift_Returned.
  destruct (negb _ || negb _ || negb _); [reflexivity|].
  destruct (byte_at 4 d =? ZIP_ATP_FUNC_GETMYZONE K) eqn:E1; unfold byte_at in E1;
    rewrite E1.
  { apply get_my_zone_returns; auto. intros z. apply Hzn. }
  destruct (Z_of_byte (nth 4 (data d) x00) =? ZIP_ATP_FUNC_GETZONELIST K).
  { apply get_zone_list_returns; auto. }
  destruct (Z_of_byte (nth 4 (data d) x00) =? ZIP_ATP_FUNC_GETLOCALZONES K).
  { apply get_zone_list_returns; auto. intros z. apply Hzr. }
  reflexivity.
Qed.

End AtpSafety.

(** ** The other flags and the multicast address of a get-net-info reply *)

Section NetInfoFlags.

Variable K : ZipConsts.
Variable ucase : bytes -> bytes.
Variable router : Router.

Let INVALID := ZIP_GETNETINFO_ZONE_INVALID K.
Let ONLY_ONE := ZIP_GETNETINFO_ONLY_ONE_ZONE K.
Let BROADCAST := ZIP_GETNETINFO_USE_BROADCAST K.

(** The state of the scan after the enumeration of the port's range. *)
Let scanned (d : Datagram) (p : Port) : net_info_scan :=
  scan_zones K ucase p (ucase (given_zone_name d))
    (zones_in_network_range (zone_information_table router)
                            (network_min p) (network_max p))
    {| flags := Z.lor INVALID ONLY_ONE;
       default_zone_name := None;
       number_of_zones := 0;
       mcast_address := [] |}.

Let reply_flags (d : Datagram) (p : Port) : Z :=
  if truthy (mcast_address (scanned d p)) then flags (scanned d p)
  else Z.lor (flags (scanned d p)) BROADCAST.

(** The reply of [_get_net_info] in terms of the scan. *)
Lemma net_info_reply_of_scan (d : Datagram) (p : Port) (first_zone : bytes)
    (more : list bytes) :
  net_info_consts_ok K ->
  port_ok p ->
  7 <= len (data d) ->
  slice 1 6 (data d) = [x00; x00; x00; x00; x00] ->
  zones_in_network_range (zone_information_table router) (network_min p) (network_max p)
    = first_zone :: more ->
  len first_zone <= 255 ->
  _get_net_info K ucase router d p
    = ([Send p (source_network d) (source_node d)
          (net_info_reply K p d (reply_flags d p) (mcast_address (scanned d p))
             (if Z.land (reply_flags d p) INVALID =? 0 then []
              else zone_entry first_zone))],
       Returned tt).
Proof.
  intros [Hrc Hzi Hoo Hub Hnz Hd1 Hd2] [Hn Hmin Hmax Hmc] H7 Hzero Hzs Hfz.
  rewrite get_net_info_past_guards by (assumption || lia).
  cbv zeta. fold INVALID ONLY_ONE BROADCAST. fold (scanned d p). fold (reply_flags d p).
  assert (Hfb : is_byte (flags (scanned d p))).
  { apply scan_flags_byte. simpl. now apply lor_is_byte. }
  assert (Hdef : default_zone_name (scanned d p) = Some first_zone).
  { unfold scanned. rewrite scan_default, Hzs. reflexivity. }
  assert (Hml : is_byte (len (mcast_address (scanned d p)))).
  { split; [apply len_nonneg|]. apply scan_mcast; [exact Hmc|]. unfold len. simpl. lia. }
  assert (Hflb : is_byte (reply_flags d p)).
  { unfold reply_flags. destruct (truthy _); [exact Hfb|]. now apply lor_is_byte. }
  rewrite (net_info_reply_data_returns K p (given_zone_name d) (reply_flags d p)
             (scanned d p) first_zone)
    by (auto using given_zone_name_len; lia).
  rewrite bind_lift_Returned. reflexivity.
Qed.

(** The flags byte of that reply is a byte, and its multicast address
    fits the one-byte length before it. *)
Lemma net_info_reply_fields (d : Datagram) (p : Port) (first_zone : bytes)
    (more : list bytes) :
  net_info_consts_ok K ->
  port_ok p ->
  zones_in_network_range (zone_information_table router) (network_min p) (network_max p)
    = first_zone :: more ->
  is_byte (reply_flags d p) /\ len (mcast_address (scanned d p)) <= 255.
Proof.
  intros [Hrc Hzi Hoo Hub Hnz Hd1 Hd2] [Hn Hmin Hmax Hmc] Hzs.
  fold INVALID ONLY_ONE BROADCAST in Hzi, Hoo, Hub.
  assert (Hfb : is_byte (flags (scanned d p))).
  { apply scan_flags_byte. simpl. now apply lor_is_byte. }
  split.
  - unfold reply_flags. destruct (truthy _); [exact Hfb|]. now apply lor_is_byte.
  - apply scan_mcast; [exact Hmc|]. unfold len. simpl. lia.
Qed.

Lemma land_keeps_clear (f x z : Z) : Z.land f z = 0 -> Z.land (Z.land f x) z = 0.
Proof.
  intros Hf. rewrite <- Z.land_assoc, (Z.land_comm x), Z.land_assoc, Hf.
  apply Z.land_0_l.
Qed.

(** The scan only clears flags. *)
Lemma scan_keeps_clear (p : Port) (g : bytes) (z : Z) (zs : list bytes) :
  forall s, Z.land (flags s) z = 0 -> Z.land (flags (scan_zones K ucase p g zs s)) z = 0.
Proof.
  induction zs as [|h zs IH]; intros s Hs; simpl; [exact Hs|].
  destruct (number_of_zones s + 1 >? 1); destruct (bytes_eqb (ucase h) g); simpl;
    case_ifs; try apply IH; simpl; repeat apply land_keeps_clear; exact Hs.
Qed.

(** The first zone of the enumeration never ends the scan. *)
Lemma scan_first_zone (p : Port) (g h : bytes) (zs : list bytes) (s : net_info_scan) :
  number_of_zones s = 0 ->
  exists s', scan_zones K ucase p g (h :: zs) s = scan_zones K ucase p g zs s'
             /\ number_of_zones s' = 1.
Proof.
  intros Hn. simpl. rewrite Hn. change (0 + 1 >? 1) with false.
  eexists. split; reflexivity.
Qed.

(** A zone after the first clears the only-one-zone flag. *)
Lemma scan_second_zone_clears (p : Port) (g : bytes) (zs : list bytes) (s : net_info_scan) :
  1 <= number_of_zones s -> zs <> [] ->
  Z.land (flags (scan_zones K ucase p g zs s)) ONLY_ONE = 0.
Proof.
  intros Hn Hzs. destruct zs as [|h zs]; [congruence|]. simpl.
  replace (number_of_zones s + 1 >? 1) with true by (symmetry; apply Z.gtb_lt; lia).
  fold INVALID ONLY_ONE.
  destruct (Z.land _ INVALID =? 0); [simpl; apply cleared_flag|].
  apply scan_keeps_clear. simpl. apply cleared_flag.
Qed.

(** Without a match the multicast address is that of the default zone. *)
Lemma scan_mcast_no_match (p : Port) (g : bytes) (zs : list bytes) :
  (forall z, In z zs -> ucase z <> g) ->
  forall s, mcast_address (scan_zones K ucase p g zs s)
            = match default_zone_name s, zs with
              | None, z :: _ => multicast_address p z
              | _, _ => mcast_address s
              end.
Proof.
  induction zs as [|h zs IH]; intros Hno s; simpl.
  - now destruct (default_zone_name s).
  - assert (Eh : bytes_eqb (ucase h) g = false).
    { destruct (bytes_eqb (ucase h) g) eqn:E; [|reflexivity].
      apply bytes_eqb_eq in E. exfalso. apply (Hno h); [now left|exact E]. }
    assert (Hrest : forall z, In z zs -> ucase z <> g) by (intros; apply Hno; now right).
    rewrite Eh.
    destruct (number_of_zones s + 1 >? 1); case_ifs;
      try rewrite (IH Hrest); simpl; now destruct (default_zone_name s).
Qed.

(** Once a default zone is recorded, the multicast address changes only at a
    match. *)
Lemma scan_mcast_kept (p : Port) (g z : bytes) (zs : list bytes) :
  (forall z', In z' zs -> ucase z' = g -> z' = z) ->
  forall s, default_zone_name s <> None ->
            mcast_address s = multicast_address p z ->
            mcast_address (scan_zones K ucase p g zs s) = multicast_address p z.
Proof.
  induction zs as [|h zs IH]; intros Hu s Hd Hm; simpl; [exact Hm|].
  assert (Hrest : forall z', In z' zs -> ucase z' = g -> z' = z)
    by (intros; apply Hu; [now right|assumption]).
  destruct (default_zone_name s) as [dz|] eqn:Ed; [|congruence].
  destruct (bytes_eqb (ucase h) g) eqn:Eh.
  - apply bytes_eqb_eq in Eh. rewrite (Hu h (or_introl eq_refl) Eh).
    destruct (number_of_zones s + 1 >? 1); case_ifs;
      try (apply (IH Hrest); simpl; congruence); reflexivity.
  - destruct (number_of_zones s + 1 >? 1); case_ifs;
      try (apply (IH Hrest); simpl; congruence); exact Hm.
Qed.

(** While the zone is invalid the scan goes on, so a zone with the requested
    case fold is reached, and when only one zone has it the multicast
    address is that zone's. *)
Lemma scan_mcast_match (p : Port) (g z : bytes) (zs : list bytes) :
  Z.land INVALID ONLY_ONE = 0 ->
  In z zs -> ucase z = g ->
  (forall z', In z' zs -> ucase z' = g -> z' = z) ->
  forall s, Z.land (flags s) INVALID <> 0 ->
            mcast_address (scan_zones K ucase p g zs s) = multicast_address p z.
Proof.
  intros Hd. induction zs as [|h zs IH]; intros Hin Hg Hu s Hs; [contradiction|].
  assert (Hrest : forall z', In z' zs -> ucase z' = g -> z' = z)
    by (intros; apply Hu; [now right|assumption]).
  simpl. fold INVALID ONLY_ONE.
  destruct (bytes_eqb (ucase h) g) eqn:Eh.
  - apply bytes_eqb_eq in Eh. rewrite (Hu h (or_introl eq_refl) Eh).
    destruct (number_of_zones s + 1 >? 1); case_ifs;
      try (apply (scan_mcast_kept p g z zs Hrest); simpl;
           [now destruct (default_zone_name s)|reflexivity]);
      reflexivity.
  - assert (Hz : In z zs).
    { destruct Hin as [->|Hin]; [|exact Hin].
      exfalso. apply bytes_eqb_eq in Hg. congruence. }
    simpl.
    destruct (number_of_zones s + 1 >? 1).
    + rewrite (cleared_other_flag (flags s) INVALID ONLY_ONE Hd).
      apply Z.eqb_neq in Hs. rewrite Hs. apply Z.eqb_neq in Hs.
      apply IH; try assumption. simpl.
      now rewrite (cleared_other_flag (flags s) INVALID ONLY_ONE Hd).
    + apply IH; assumption.
Qed.

(** X12: the only-one-zone flag of a get-net-info reply is set exactly when
    the port's range enumerates a single zone. *)
Theorem only_one_zone_flag (d : Datagram) (p : Port) (first_zone : bytes)
    (more : list bytes) :
  net_info_consts_ok K ->
  net_info_flags_distinct K ->
  port_ok p ->
  7 <= len (data d) ->
  slice 1 6 (data d) = [x00; x00; x00; x00; x00] ->
  zones_in_network_range (zone_information_table router) (network_min p) (network_max p)
    = first_zone :: more ->
  len first_zone <= 255 ->
  exists fl mcast tail r,
    _get_net_info K ucase router d p
      = ([Send p (source_network d) (source_node d) r], Returned tt)
    /\ data r
       = bytes_of [ZIP_FUNC_GETNETINFO_REPLY K; fl;
                   network_min p / 256; network_min p mod 256;
                   network_max p / 256; network_max p mod 256;
                   len (given_zone_name d)]
         ++ given_zone_name d ++ zone_entry mcast ++ tail
    /\ getitem (data r) 1 = Returned fl
    /\ is_byte fl
    /\ len mcast <= 255
    /\ (Z.land fl (ZIP_GETNETINFO_ONLY_ONE_ZONE K) <> 0 <-> more = []).
Proof.
  intros HK [Ho Hb Hob] Hp H7 Hzero Hzs Hfz.
  destruct (net_info_reply_fields d p first_zone more HK Hp Hzs) as [Hflb Hml].
  eexists _, _, _, _. split.
  { apply (net_info_reply_of_scan d p first_zone more); assumption. }
  split; [reflexivity|].
  split; [unfold getitem; simpl; f_equal; apply Z_of_byte_of_Z; exact Hflb|].
  split; [exact Hflb|]. split; [exact Hml|].
  destruct HK as [_ _ _ _ Hnz Hd1 Hd2].
  fold INVALID ONLY_ONE BROADCAST in Hnz, Hd1, Hd2, Ho, Hb, Hob |- *.
  assert (Hfl : Z.land (reply_flags d p) ONLY_ONE = Z.land (flags (scanned d p)) ONLY_ONE).
  { unfold reply_flags. destruct (truthy _); [reflexivity|]. now apply set_other_flag. }
  rewrite Hfl. unfold scanned. rewrite Hzs.
  destruct more as [|m ms].
  - split; [reflexivity|]. intros _. simpl.
    assert (Hset : Z.land (Z.lor INVALID ONLY_ONE) ONLY_ONE = ONLY_ONE)
      by (rewrite Z.lor_comm; apply set_flag).
    destruct (bytes_eqb _ _); simpl.
    + rewrite cleared_other_flag by (rewrite Z.land_comm; exact Hd1).
      now rewrite Hset.
    + now rewrite Hset.
  - split; [|discriminate]. intros Hne. exfalso. apply Hne.
    match goal with
    | |- Z.land (flags (scan_zones _ _ _ ?g (_ :: ?zs) ?s)) _ = 0 =>
        destruct (scan_first_zone p g first_zone zs s eq_refl) as (s' & -> & Hs')
    end.
    apply scan_second_zone_clears; [lia|discriminate].
Qed.

(** X13: the use-broadcast flag of a get-net-info reply is set exactly when
    the reply carries no multicast address; the address is that of the
    default (first) zone when no zone of the range has the case fold of the
    requested name, and that of the requested zone when exactly one has. *)
Theorem multicast_address_of_reply (d : Datagram) (p : Port) (first_zone : bytes)
    (more : list bytes) :
  net_info_consts_ok K ->
  net_info_flags_distinct K ->
  port_ok p ->
  7 <= len (data d) ->
  slice 1 6 (data d) = [x00; x00; x00; x00; x00] ->
  zones_in_network_range (zone_information_table router) (network_min p) (network_max p)
    = first_zone :: more ->
  len first_zone <= 255 ->
  exists fl mcast tail r,
    _get_net_info K ucase router d p
      = ([Send p (source_network d) (source_node d) r], Returned tt)
    /\ data r
       = bytes_of [ZIP_FUNC_GETNETINFO_REPLY K; fl;
                   network_min p / 256; network_min p mod 256;
                   network_max p / 256; network_max p mod 256;
                   len (given_zone_name d)]
         ++ given_zone_name d ++ zone_entry mcast ++ tail
    /\ getitem (data r) 1 = Returned fl
    /\ is_byte fl
    /\ len mcast <= 255
    /\ (Z.land fl (ZIP_GETNETINFO_USE_BROADCAST K) <> 0 <-> mcast = [])
    /\ ((forall z, In z (first_zone :: more) -> ucase z <> ucase (given_zone_name d)) ->
          mcast = multicast_address p first_zone)
    /\ (forall z, In z (first_zone :: more) ->
          ucase z = ucase (given_zone_name d) ->
          (forall z', In z' (first_zone :: more) ->
                      ucase z' = ucase (given_zone_name d) -> z' = z) ->
          mcast = multicast_address p z).
Proof.
  intros HK [Ho Hb Hob] Hp H7 Hzero Hzs Hfz.
  destruct (net_info_reply_fields d p first_zone more HK Hp Hzs) as [Hflb Hml].
  eexists _, _, _, _. split.
  { apply (net_info_reply_of_scan d p first_zone more); assumption. }
  split; [reflexivity|].
  split; [unfold getitem; simpl; f_equal; apply Z_of_byte_of_Z; exact Hflb|].
  split; [exact Hflb|]. split; [exact Hml|].
  destruct HK as [_ _ _ _ Hnz Hd1 Hd2].
  fold INVALID ONLY_ONE BROADCAST in Hnz, Hd1, Hd2, Ho, Hb, Hob |- *.
  split; [|split].
  - assert (Hclear : Z.land (flags (scanned d p)) BROADCAST = 0).
    { apply scan_keeps_clear. simpl. rewrite Z.land_lor_distr_l, Hd2, Hob. reflexivity. }
    unfold reply_flags.
    destruct (mcast_address (scanned d p)) as [|b t]; simpl truthy; cbv iota.
    + rewrite Z.land_lor_distr_l, Hclear, Z.land_diag. simpl. tauto.
    + rewrite Hclear. split; [congruence|discriminate].
  - intros Hno. unfold scanned. rewrite Hzs.
    rewrite scan_mcast_no_match by exact Hno. reflexivity.
  - intros z Hin Hg Hu. unfold scanned. rewrite Hzs.
    apply scan_mcast_match; try assumption.
    simpl. rewrite set_flag. exact Hnz.
Qed.

End NetInfoFlags.

(** ** The list items of [_networks_zone_list] and the fragmenting loop *)

Section ListItems.

Variable K : ZipConsts.
Variable MAX_DATA_LENGTH : Z.

Lemma network_zone_items_of_integer (n : Z) (zs : list bytes) :
  0 <= n <= 65535 ->
  (forall z, In z zs -> len z <= 255) ->
  network_zone_items (PyInt n) zs = Returned (map (list_item_of n) zs).
Proof.
  intros Hn. induction zs as [|z zs IH]; intros Hz; [reflexivity|].
  simpl. unfold struct_pack_HB. simpl as_int. simpl obind.
  rewrite (pack_H_word n Hn).
  rewrite (pack_B_byte (len z))
    by (split; [apply len_nonneg|apply Hz; now left]).
  simpl obind. rewrite IH by (intros; apply Hz; now right). reflexivity.
Qed.

Lemma network_zone_items_error (network : pyobj) (zs : list bytes) (e : exn) :
  network_zone_items network zs = Raised e -> e = StructError.
Proof.
  induction zs as [|z zs IH]; simpl; [discriminate|].
  unfold struct_pack_HB, pack_H, pack_B.
  destruct network as [n|t]; simpl; [|congruence].
  case_ifs; simpl; try congruence.
  destruct (network_zone_items (PyInt n) zs); simpl; [discriminate|].
  intros H. injection H as <-. now apply IH.
Qed.

Lemma network_zone_items_returned (n : Z) (zs : list bytes) (items : list (pyobj * bytes)) :
  network_zone_items (PyInt n) zs = Returned items ->
  forall z, In z zs -> 0 <= n <= 65535 /\ len z <= 255.
Proof.
  revert items. induction zs as [|z zs IH]; intros items Hr z' Hin; [contradiction|].
  simpl in Hr. unfold struct_pack_HB, pack_H, pack_B in Hr. simpl in Hr.
  destruct ((0 <=? n) && (n <=? 65535)) eqn:En; [|discriminate].
  destruct ((0 <=? len z) && (len z <=? 255)) eqn:Ez; [|discriminate].
  simpl in Hr.
  destruct (network_zone_items (PyInt n) zs) as [more|] eqn:Em; [|discriminate].
  apply andb_true_iff in En, Ez. destruct En as [E1 E2], Ez as [E3 E4].
  apply Z.leb_le in E1, E2, E3, E4.
  destruct Hin as [<-|Hin]; [lia|]. now apply (IH more).
Qed.

(** X14: called with integer network numbers, [_networks_zone_list] gives
    one list item per zone, network by network in the order asked and zones
    in table order, each the network in two bytes, the name length and the
    name; it returns exactly when every network that has a zone is a 16-bit
    number and every name has at most 255 bytes, and raises [struct.error]
    otherwise. *)
Theorem networks_zone_list_of_integers (zit : ZoneInformationTable) (ns : list Z) :
  ((forall n z, In n ns -> In z (zones_in_network zit (PyInt n)) ->
                0 <= n <= 65535 /\ len z <= 255) ->
     _networks_zone_list zit (map PyInt ns)
       = Returned (flat_map (fun n => map (list_item_of n) (zones_in_network zit (PyInt n)))
                            ns))
  /\ ((exists n z, In n ns /\ In z (zones_in_network zit (PyInt n))
                   /\ ~ (0 <= n <= 65535 /\ len z <= 255)) ->
        _networks_zone_list zit (map PyInt ns) = Raised StructError).
Proof.
  induction ns as [|n ns [IHok IHbad]]; split.
  - reflexivity.
  - intros (n & z & [] & _).
  - intros Hok. simpl.
    assert (Hitems : network_zone_items (PyInt n) (zones_in_network zit (PyInt n))
                     = Returned (map (list_item_of n) (zones_in_network zit (PyInt n)))).
    { destruct (zones_in_network zit (PyInt n)) as [|z zs] eqn:Ez; [reflexivity|].
      rewrite <- Ez.
      assert (Hn : 0 <= n <= 65535).
      { apply (Hok n z); [now left|rewrite Ez; now left]. }
      apply network_zone_items_of_integer; [exact Hn|].
      intros z' Hz'. apply (Hok n z'); [now left|exact Hz']. }
    rewrite Hitems. simpl obind.
    rewrite IHok by (intros n' z' Hn' Hz'; apply (Hok n' z'); [now right|exact Hz']).
    reflexivity.
  - intros (n' & z & Hn' & Hz & Hbad). simpl.
    destruct (network_zone_items (PyInt n) (zones_in_network zit (PyInt n)))
      as [items|e] eqn:Ei.
    + simpl obind. destruct Hn' as [<-|Hn'].
      { exfalso. apply Hbad. eapply network_zone_items_returned; eassumption. }
      rewrite IHbad by (exists n', z; auto). reflexivity.
    + apply network_zone_items_error in Ei. now subst e.
Qed.

(** The items of the example table, network 10 first, then network 20. *)
Example networks_zone_list_of_sales :
  _networks_zone_list sales_zit [PyInt 10; PyInt 20]
    = Returned [list_item_of 10 (zone "Sales"); list_item_of 10 (zone "Eng");
                list_item_of 20 (zone "HR")]
  /\ _networks_zone_list sales_zit [PyInt 10; PyInt 70000]
     = Returned [list_item_of 10 (zone "Sales"); list_item_of 10 (zone "Eng")]
  /\ _networks_zone_list (zit_of [(70000, [zone "Far"])]) [PyInt 70000]
     = Raised StructError.
Proof. repeat split. Qed.

(** The loop for one network, when the header can be packed: it routes
    datagrams that each hold a prefix of the zone list, the last of them the
    whole list, and then raises. *)
Lemma extended_reply_loop_prefixes (d : Datagram) (n : Z) (zone_list : list bytes) :
  is_byte (ZIP_FUNC_EXT_REPLY K) -> is_byte n ->
  forall datagram_data datagram_data_length,
  exists earlier,
    extended_reply_loop K MAX_DATA_LENGTH d n (map Some zone_list ++ [None])
                        datagram_data datagram_data_length
      = (earlier ++ [Route (reply_datagram d (ZIP_DDP_TYPE K)
                              (bytes_of [ZIP_FUNC_EXT_REPLY K; n]
                               ++ concat (datagram_data ++ zone_list)))],
         Raised TypeError)
    /\ Forall (fun a => exists j,
                 a = Route (reply_datagram d (ZIP_DDP_TYPE K)
                              (bytes_of [ZIP_FUNC_EXT_REPLY K; n]
                               ++ concat (datagram_data ++ firstn j zone_list))))
              earlier.
Proof.
  intros Hc Hn.
  assert (Hhdr : struct_pack_BB (ZIP_FUNC_EXT_REPLY K) n
                 = Returned (bytes_of [ZIP_FUNC_EXT_REPLY K; n])).
  { unfold struct_pack_BB. now rewrite (pack_B_byte _ Hc), (pack_B_byte _ Hn). }
  induction zone_list as [|z zl IH]; intros dd dl.
  - exists []. split; [|constructor].
    cbn [map app extended_reply_loop]. rewrite Hhdr, bind_lift_Returned.
    rewrite app_nil_r. reflexivity.
  - destruct (IH (dd ++ [z]) (dl + len z)) as (earlier & Hrun & Hall).
    assert (Hall' : Forall (fun a => exists j,
                       a = Route (reply_datagram d (ZIP_DDP_TYPE K)
                                    (bytes_of [ZIP_FUNC_EXT_REPLY K; n]
                                     ++ concat (dd ++ firstn j (z :: zl)))))
                      earlier).
    { eapply Forall_impl; [|exact Hall]. intros a [j ->]. exists (S j).
      simpl firstn. now rewrite <- app_assoc. }
    simpl map. simpl app. cbn [extended_reply_loop].
    rewrite Hrun. rewrite <- app_assoc. simpl app.
    destruct (dl + len z >? MAX_DATA_LENGTH - 2).
    + rewrite Hhdr, bind_lift_Returned.
      exists (Route (reply_datagram d (ZIP_DDP_TYPE K)
                       (bytes_of [ZIP_FUNC_EXT_REPLY K; n] ++ concat dd)) :: earlier).
      split; [reflexivity|]. constructor; [|exact Hall'].
      exists 0%nat. simpl firstn. now rewrite app_nil_r.
    + exists earlier. split; [reflexivity|exact Hall'].
Qed.

Lemma for_each_cons {A : Type} (a : A) (l : list A) (body : A -> M unit) :
  for_each (a :: l) body = bind (body a) (fun _ => for_each l body).
Proof. reflexivity. Qed.

Lemma group_by_network_first (k : pyobj) (v : bytes) (rest : list (pyobj * bytes)) :
  exists others,
    group_by_network ((k, v) :: rest)
      = (k, v :: map snd (filter (fun item => pyobj_eqb k (fst item)) rest)) :: others.
Proof.
  unfold group_by_network. simpl fold_left.
  assert (H : forall l vs others,
            exists others',
              fold_left (fun d item => dict_append (fst item) (snd item) d) l
                        ((k, vs) :: others)
                = (k, vs ++ map snd (filter (fun item => pyobj_eqb k (fst item)) l))
                  :: others').
  { induction l as [|[k' v'] l IH]; intros vs others.
    - exists others. simpl. now rewrite app_nil_r.
    - simpl. destruct (pyobj_eqb k k').
      + destruct (IH (vs ++ [v']) others) as [o' Ho']. exists o'.
        rewrite Ho'. simpl. now rewrite <- app_assoc.
      + apply IH. }
  destruct (H rest [v] []) as [o Ho]. exists o. exact Ho.
Qed.

(** X15: the branch for a zone list that does not fit sends the first
    network only and never completes: the datagrams routed each hold the
    two-byte header and a prefix of the list items of the first network
    listed (earlier items are sent again), the last of them holds all its
    items, however long, and then [TypeError] is raised; the items of the
    other networks are never sent. *)
Theorem extended_replies_send_first_network (d : Datagram) (k : pyobj) (v : bytes)
    (rest : list (pyobj * bytes)) :
  is_byte (ZIP_FUNC_EXT_REPLY K) ->
  len (first_network_items k v rest) <= 255 ->
  exists earlier,
    extended_replies K MAX_DATA_LENGTH d ((k, v) :: rest)
      = (earlier ++ [Route (reply_datagram d (ZIP_DDP_TYPE K)
                              (bytes_of [ZIP_FUNC_EXT_REPLY K;
                                         len (first_network_items k v rest)]
                               ++ concat (first_network_items k v rest)))],
         Raised TypeError)
    /\ Forall (fun a => exists j,
                 a = Route (reply_datagram d (ZIP_DDP_TYPE K)
                              (bytes_of [ZIP_FUNC_EXT_REPLY K;
                                         len (first_network_items k v rest)]
                               ++ concat (firstn j (first_network_items k v rest)))))
              earlier
    /\ (exists last,
          extended_replies K MAX_DATA_LENGTH d ((k, v) :: rest)
            = (earlier ++ [Route last], Raised TypeError)
          /\ routed_answer d last (ZIP_DDP_TYPE K)
               (bytes_of [ZIP_FUNC_EXT_REPLY K; len (first_network_items k v rest)]
                ++ concat (first_network_items k v rest)))
    /\ Forall (fun a => exists j,
                 payload a
                 = bytes_of [ZIP_FUNC_EXT_REPLY K; len (first_network_items k v rest)]
                   ++ concat (firstn j (first_network_items k v rest)))
              earlier.
Proof.
  intros Hc Hlen.
  destruct (group_by_network_first k v rest) as [others Hg].
  fold (first_network_items k v rest) in Hg.
  set (zone_list := first_network_items k v rest) in *.
  destruct (extended_reply_loop_prefixes d (len zone_list) zone_list Hc
              (conj (len_nonneg zone_list) Hlen) [] 0) as (earlier & Hrun & Hall).
  exists earlier.
  assert (Hext : extended_replies K MAX_DATA_LENGTH d ((k, v) :: rest)
                 = (earlier ++ [Route (reply_datagram d (ZIP_DDP_TYPE K)
                                         (bytes_of [ZIP_FUNC_EXT_REPLY K; len zone_list]
                                          ++ concat zone_list))],
                    Raised TypeError)).
  { unfold extended_replies. rewrite Hg, for_each_cons. cbv beta. cbn [snd].
    rewrite Hrun. reflexivity. }
  split; [exact Hext|]. split; [exact Hall|]. split.
  - eexists. split; [exact Hext|]. repeat split.
  - eapply Forall_impl; [|exact Hall].
    intros a [j ->]. exists j. reflexivity.
Qed.

End ListItems.

(** ** The virtual LocalTalk network *)

Section VirtualNetwork.

Import VirtualLocalTalkNetwork.

Lemma send_packet_from (self : t) (packet_data : bytes) (f : recv_func) :
  forall calls,
    fold_left (fun function_calls func =>
                 if Nat.eqb func f then function_calls
                 else function_calls ++ [(func, packet_data)])
              self calls
      = calls ++ map (fun g => (g, packet_data))
                     (filter (fun g => negb (Nat.eqb g f)) self).
Proof.
  induction self as [|g self IH]; intros calls; simpl.
  - now rewrite app_nil_r.
  - rewrite IH. destruct (Nat.eqb g f); simpl; [reflexivity|].
    now rewrite <- app_assoc.
Qed.

(** X16: a packet sent on the virtual network is handed, unchanged, to every
    plugged receive function other than the sender's, once for each time the
    function is plugged and in the order of plugging; the sender's own
    function is never called. *)
Theorem send_packet_reaches_the_others (self : t) (packet_data : bytes) (f : recv_func) :
  send_packet self packet_data f
    = map (fun g => (g, packet_data)) (filter (fun g => negb (Nat.eqb g f)) self)
  /\ ~ In f (map fst (send_packet self packet_data f))
  /\ forall g, g <> f ->
       count_occ Nat.eq_dec (map fst (send_packet self packet_data f)) g
         = count_occ Nat.eq_dec self g.
Proof.
  assert (E : send_packet self packet_data f
              = map (fun g => (g, packet_data))
                    (filter (fun g => negb (Nat.eqb g f)) self)).
  { unfold send_packet. now rewrite send_packet_from. }
  rewrite E. clear E. split; [reflexivity|].
  rewrite map_map. simpl. rewrite map_id. split.
  - intros Hin. apply filter_In in Hin. destruct Hin as [_ Hf].
    now rewrite Nat.eqb_refl in Hf.
  - intros g Hg. induction self as [|h self IH]; [reflexivity|]. simpl.
    destruct (Nat.eqb h f) eqn:Eh; simpl.
    + apply Nat.eqb_eq in Eh. subst h.
      destruct (Nat.eq_dec f g); [congruence|exact IH].
    + destruct (Nat.eq_dec h g); [f_equal|]; exact IH.
Qed.

Lemma unplug_none_iff (self : t) (f : recv_func) :
  unplug self f = None <-> ~ In f self.
Proof.
  induction self as [|g self IH]; simpl; [tauto|].
  destruct (Nat.eqb g f) eqn:Eg.
  - apply Nat.eqb_eq in Eg. split; [discriminate|]. intros H. exfalso. apply H. now left.
  - apply Nat.eqb_neq in Eg. destruct (unplug self f) as [s|].
    + split; [discriminate|]. intros H. exfalso.
      assert (Hn : ~ In f self) by (intros Hin; apply H; now right).
      apply IH in Hn. discriminate.
    + split; [|reflexivity]. intros _ [Hin|Hin]; [congruence|].
      now apply (proj1 IH).
Qed.

Lemma unplug_some_split (self : t) (f : recv_func) :
  forall self', unplug self f = Some self' ->
    exists before after,
      self = before ++ f :: after /\ self' = before ++ after /\ ~ In f before.
Proof.
  induction self as [|g self IHs]; intros self'; [discriminate|].
  simpl. destruct (Nat.eqb g f) eqn:Eg.
  - apply Nat.eqb_eq in Eg. subst g. intros H. injection H as <-.
    exists [], self. auto.
  - apply Nat.eqb_neq in Eg. destruct (unplug self f) as [s|]; [|discriminate].
    intros H. injection H as <-.
    destruct (IHs s eq_refl) as (before & after & -> & -> & Hnb).
    exists (g :: before), after. repeat split.
    intros [Hin|Hin]; [congruence|contradiction].
Qed.

(** X17: [unplug] raises exactly for a function that is not plugged, and
    otherwise takes out one occurrence of it, the first, and nothing else. *)
Theorem unplug_removes_first (self : t) (f : recv_func) :
  (unplug self f = None <-> ~ In f self)
  /\ forall self', unplug self f = Some self' ->
       exists before after,
         self = before ++ f :: after /\ self' = before ++ after /\ ~ In f before.
Proof.
  split; [apply unplug_none_iff|apply unplug_some_split].
Qed.

Lemma filter_others_id (f : recv_func) (l : list recv_func) :
  ~ In f l -> filter (fun g => negb (Nat.eqb g f)) l = l.
Proof.
  induction l as [|h l IH]; intros Hn; [reflexivity|]. simpl.
  destruct (Nat.eqb h f) eqn:Eh.
  - apply Nat.eqb_eq in Eh. exfalso. apply Hn. now left.
  - simpl. rewrite IH; [reflexivity|]. intros Hin. apply Hn. now right.
Qed.

(** X19: after a function that was plugged once is unplugged, a packet no
    longer reaches it, and reaches the other functions as before. *)
Theorem unplugged_gets_no_packet (self self' : t) (f : recv_func) :
  unplug self f = Some self' ->
  count_occ Nat.eq_dec self f = 1%nat ->
  forall packet_data sender,
    send_packet self' packet_data sender
      = filter (fun call => negb (Nat.eqb (fst call) f))
               (send_packet self packet_data sender).
Proof.
  intros Hu Hc packet_data sender.
  destruct (unplug_some_split self f self' Hu) as (before & after & -> & -> & Hnb).
  assert (Hna : ~ In f after).
  { rewrite count_occ_app in Hc. simpl in Hc.
    destruct (Nat.eq_dec f f) as [_|Hff]; [|congruence].
    intros Hin. apply (count_occ_In Nat.eq_dec) in Hin. unfold recv_func in *. lia. }
  unfold send_packet. rewrite !send_packet_from. simpl app.
  set (P := fun g => negb (Nat.eqb g sender)).
  assert (Hfm : forall l,
            filter (fun call : recv_func * bytes => negb (Nat.eqb (fst call) f))
                   (map (fun g => (g, packet_data)) l)
              = map (fun g => (g, packet_data)) (filter (fun g => negb (Nat.eqb g f)) l)).
  { induction l as [|h l IH]; [reflexivity|]. simpl.
    destruct (Nat.eqb h f); simpl; now rewrite IH. }
  assert (Hcomm : forall l,
            filter (fun g => negb (Nat.eqb g f)) (filter P l)
              = filter P (filter (fun g => negb (Nat.eqb g f)) l)).
  { induction l as [|h l IH]; [reflexivity|]. simpl.
    destruct (P h) eqn:Ep; destruct (Nat.eqb h f) eqn:Eh; simpl;
      rewrite ?Ep, ?Eh; simpl; now rewrite IH. }
  rewrite Hfm, Hcomm. f_equal. f_equal.
  rewrite !filter_app. simpl. rewrite Nat.eqb_refl. simpl.
  pose proof (filter_others_id f before Hnb) as Eb.
  pose proof (filter_others_id f after Hna) as Ea.
  unfold recv_func in *. now rewrite Eb, Ea.
Qed.

(** X18: plugging a function and unplugging it again leaves the network as
    it was when the function was not plugged before; when it was, the
    earlier occurrence is the one taken out and the function moves to the
    end. *)
Theorem plug_then_unplug (self : t) (f : recv_func) :
  unplug (plug self f) f
    = Some (match unplug self f with
            | Some self' => plug self' f
            | None => self
            end)
  /\ (~ In f self -> unplug (plug self f) f = Some self).
Proof.
  assert (E : unplug (plug self f) f
              = Some (match unplug self f with
                      | Some self' => plug self' f
                      | None => self
                      end)).
  { unfold plug. induction self as [|g self IH]; simpl.
    - now rewrite Nat.eqb_refl.
    - destruct (Nat.eqb g f); [reflexivity|].
      rewrite IH. now destruct (unplug self f). }
  split; [exact E|]. intros Hn. rewrite E.
  apply (proj2 (unplug_none_iff self f)) in Hn. now rewrite Hn.
Qed.

End VirtualNetwork.

(** ** Instances of the further properties on the example table *)

Lemma table_lookup_in (tab : list (Z * list bytes)) (n : Z) (z : bytes) :
  In z (table_lookup tab n) -> exists e, In e tab /\ In z (snd e).
Proof.
  induction tab as [|[k zs] tab IH]; simpl; [contradiction|].
  destruct (k =? n).
  - intros Hz. exists (k, zs). auto.
  - intros Hz. destruct (IH Hz) as (e & He & Hze). exists e. auto.
Qed.

Lemma table_range_in (tab : list (Z * list bytes)) (lo hi : Z) (z : bytes) :
  In z (table_range tab lo hi) -> exists e, In e tab /\ In z (snd e).
Proof.
  unfold table_range. intros Hz. apply in_concat in Hz.
  destruct Hz as (zs & Hzs & Hz). apply in_map_iff in Hzs.
  destruct Hzs as (e & <- & He). apply filter_In in He.
  exists e. tauto.
Qed.

(** A table built from valid names enumerates valid names only. *)
Lemma zit_of_names_ok (tab : list (Z * list bytes)) :
  (forall e z, In e tab -> In z (snd e) -> valid_zone_name z) ->
  zit_names_ok (zit_of tab).
Proof.
  intros Hv. constructor.
  - intros z Hz. simpl in Hz. apply in_concat in Hz.
    destruct Hz as (zs & Hzs & Hz). apply in_map_iff in Hzs.
    destruct Hzs as (e & <- & He). now apply (Hv e).
  - intros [n|t] z Hz; simpl in Hz; [|contradiction].
    apply table_lookup_in in Hz. destruct Hz as (e & He & Hz). now apply (Hv e).
  - intros lo hi z Hz. simpl in Hz.
    apply table_range_in in Hz. destruct Hz as (e & He & Hz). now apply (Hv e).
Qed.

Lemma sales_zit_names_ok : zit_names_ok sales_zit.
Proof.
  apply zit_of_names_ok. intros e z He Hz. simpl in He.
  destruct He as [<-|[<-|[]]]; simpl in Hz;
    repeat (destruct Hz as [<-|Hz]; [unfold valid_zone_name, len; simpl; lia|]);
    contradiction.
Qed.

Lemma sales_sequence_valid (rx_port : option Port) (z : bytes) :
  In z (zone_sequence (router_of sales_zit) rx_port) -> valid_zone_name z.
Proof.
  destruct sales_zit_names_ok as [Hzs _ Hzr].
  destruct rx_port as [p|]; simpl; [apply Hzr|apply Hzs].
Qed.

Lemma appletalk_flags_distinct : net_info_flags_distinct appletalk.
Proof. constructor; simpl; try discriminate; reflexivity. Qed.

Lemma appletalk_atp_bytes : is_byte (ATP_FUNC_TRESP appletalk) /\ is_byte (ATP_EOM appletalk).
Proof. unfold is_byte. simpl. lia. Qed.

Lemma run_in_arrival_order_witness :
  _run appletalk DDP_MAX_DATA_LENGTH ascii_ucase (router_of sales_zit)
       ([Item get_zone_list_1 port_3] ++ [Item get_my_zone_from_10 port_10])
    = bind (_run appletalk DDP_MAX_DATA_LENGTH ascii_ucase (router_of sales_zit)
                 [Item get_zone_list_1 port_3])
           (fun _ => _run appletalk DDP_MAX_DATA_LENGTH ascii_ucase (router_of sales_zit)
                          [Item get_my_zone_from_10 port_10]).
Proof.
  apply (proj1 (run_in_arrival_order appletalk DDP_MAX_DATA_LENGTH ascii_ucase
                  (router_of sales_zit) [Item get_zone_list_1 port_3]
                  [Item get_my_zone_from_10 port_10]
                  ltac:(intros [H|[]]; discriminate))).
Defined.

Lemma unrecognised_is_dropped_witness :
  dropped (dispatch appletalk DDP_MAX_DATA_LENGTH ascii_ucase (router_of sales_zit)
             (request 4 (bytes_of [1; 2; 3])) port_3).
Proof.
  apply (unrecognised_is_dropped appletalk DDP_MAX_DATA_LENGTH ascii_ucase
           (router_of sales_zit) (request 4 (bytes_of [1; 2; 3])) port_3).
  left. split; simpl; discriminate.
Defined.

Lemma query_answered_iff_no_zone_witness :
  _query appletalk DDP_MAX_DATA_LENGTH (router_of sales_zit) query_10_20
    = ([Route (reply_datagram query_10_20 (ZIP_DDP_TYPE appletalk)
                 (bytes_of [ZIP_FUNC_REPLY appletalk; count_byte query_10_20]))],
       Returned tt)
  /\ exists r,
       _query appletalk DDP_MAX_DATA_LENGTH (router_of sales_zit) query_10_20
         = ([Route r], Returned tt)
       /\ routed_answer query_10_20 r (ZIP_DDP_TYPE appletalk)
            (bytes_of [ZIP_FUNC_REPLY appletalk; count_byte query_10_20])
       /\ getitem (data r) 0 = Returned (ZIP_FUNC_REPLY appletalk)
       /\ getitem (data r) 1 = Returned (count_byte query_10_20)
       /\ len (data r) = 2.
Proof.
  apply (proj1 (query_answered_iff_no_zone appletalk DDP_MAX_DATA_LENGTH
                  (router_of sales_zit) query_10_20 [PyTuple [10]; PyTuple [20]]
                  ltac:(unfold is_byte; simpl; lia)
                  ltac:(unfold DDP_MAX_DATA_LENGTH; lia)
                  ltac:(vm_compute; discriminate)
                  ltac:(reflexivity)
                  ltac:(reflexivity))).
  repeat constructor.
Defined.

Lemma one_datagram_per_entry_witness :
  (length (emitted (dispatch appletalk DDP_MAX_DATA_LENGTH ascii_ucase
                      (router_of sales_zit) get_zone_list_1 port_3)) <= 1)%nat.
Proof.
  apply (one_datagram_per_entry appletalk DDP_MAX_DATA_LENGTH ascii_ucase
           (router_of sales_zit) get_zone_list_1 port_3).
  unfold DDP_MAX_DATA_LENGTH. lia.
Defined.


Lemma empty_page_is_last_witness :
  exists page remaining last_flag,
    skipn (Z.to_nat (atp_start_index (atp_request 8 4) - 1))
          (zone_sequence (router_of sales_zit) None)
      = page ++ remaining
    /\ _get_zone_list appletalk DDP_MAX_DATA_LENGTH (router_of sales_zit)
                      (atp_request 8 4) None
       = ([Route (reply_datagram (atp_request 8 4) (ATP_DDP_TYPE appletalk)
                    (atp_response_header appletalk (atp_tid (atp_request 8 4))
                                         last_flag (len page)
                     ++ concat (map zone_entry page)))],
          Returned tt)
    /\ (page = [] -> remaining = [] /\ last_flag = 1)
    /\ (exists r,
          _get_zone_list appletalk DDP_MAX_DATA_LENGTH (router_of sales_zit)
                         (atp_request 8 4) None
            = ([Route r], Returned tt)
          /\ routed_answer (atp_request 8 4) r (ATP_DDP_TYPE appletalk)
               (atp_response_header appletalk (atp_tid (atp_request 8 4))
                                    last_flag (len page)
                ++ concat (map zone_entry page))
          /\ data r
             = bytes_of [Z.lor (ATP_FUNC_TRESP appletalk) (ATP_EOM appletalk); 0;
                         byte_at 2 (atp_request 8 4); byte_at 3 (atp_request 8 4);
                         last_flag; 0; len page / 256; len page mod 256]
               ++ concat (map zone_entry page))
    /\ len page <= 65535
    /\ (last_flag = 1 <-> remaining = []).
Proof.
  apply (empty_page_is_last appletalk DDP_MAX_DATA_LENGTH (router_of sales_zit)
           (atp_request 8 4) None).
  - reflexivity.
  - exact (proj1 appletalk_atp_bytes).
  - exact (proj2 appletalk_atp_bytes).
  - unfold DDP_MAX_DATA_LENGTH. lia.
  - apply sales_sequence_valid.
Defined.

Lemma start_index_past_the_end_witness :
  _get_zone_list appletalk DDP_MAX_DATA_LENGTH (router_of sales_zit) (atp_request 8 9) None
    = ([Route (reply_datagram (atp_request 8 9) (ATP_DDP_TYPE appletalk)
                 (atp_response_header appletalk (atp_tid (atp_request 8 9)) 1 0))],
       Returned tt)
  /\ exists r,
       _get_zone_list appletalk DDP_MAX_DATA_LENGTH (router_of sales_zit)
                      (atp_request 8 9) None
         = ([Route r], Returned tt)
       /\ routed_answer (atp_request 8 9) r (ATP_DDP_TYPE appletalk)
            (atp_response_header appletalk (atp_tid (atp_request 8 9)) 1 0)
       /\ data r
          = bytes_of [Z.lor (ATP_FUNC_TRESP appletalk) (ATP_EOM appletalk); 0;
                      byte_at 2 (atp_request 8 9); byte_at 3 (atp_request 8 9);
                      1; 0; 0; 0].
Proof.
  apply (start_index_past_the_end appletalk DDP_MAX_DATA_LENGTH (router_of sales_zit)
           (atp_request 8 9) None).
  - reflexivity.
  - exact (proj1 appletalk_atp_bytes).
  - exact (proj2 appletalk_atp_bytes).
  - vm_compute. reflexivity.
Defined.

Lemma zone_list_reply_fits_witness :
  len (payload (Route (reply_datagram (atp_request 8 1) 3
                         (atp_response_header appletalk 258 0 2
                          ++ zone_entry (zone "Sales") ++ zone_entry (zone "Eng")))))
    <= 20.
Proof.
  apply (zone_list_reply_fits appletalk 20 (router_of sales_zit) (atp_request 8 1) None).
  - lia.
  - left. reflexivity.
Defined.

Lemma atp_datagrams_never_raise_witness :
  result (dispatch appletalk DDP_MAX_DATA_LENGTH ascii_ucase (router_of sales_zit)
            get_my_zone_from_10 port_10)
    = Returned tt.
Proof.
  apply (atp_datagrams_never_raise appletalk DDP_MAX_DATA_LENGTH ascii_ucase
           (router_of sales_zit) get_my_zone_from_10 port_10).
  - reflexivity.
  - simpl. discriminate.
  - exact (proj1 appletalk_atp_bytes).
  - exact (proj2 appletalk_atp_bytes).
  - unfold DDP_MAX_DATA_LENGTH. lia.
  - exact sales_zit_names_ok.
Defined.

Lemma only_one_zone_flag_witness :
  exists fl mcast tail r,
    _get_net_info appletalk ascii_ucase (router_of sales_zit) get_net_info_eng port_10
      = ([Send port_10 (source_network get_net_info_eng) (source_node get_net_info_eng) r],
         Returned tt)
    /\ data r
       = bytes_of [ZIP_FUNC_GETNETINFO_REPLY appletalk; fl;
                   network_min port_10 / 256; network_min port_10 mod 256;
                   network_max port_10 / 256; network_max port_10 mod 256;
                   len (given_zone_name get_net_info_eng)]
         ++ given_zone_name get_net_info_eng ++ zone_entry mcast ++ tail
    /\ getitem (data r) 1 = Returned fl
    /\ is_byte fl
    /\ len mcast <= 255
    /\ (Z.land fl (ZIP_GETNETINFO_ONLY_ONE_ZONE appletalk) <> 0 <-> [zone "Eng"] = []).
Proof.
  apply (only_one_zone_flag appletalk ascii_ucase (router_of sales_zit)
           get_net_info_eng port_10 (zone "Sales") [zone "Eng"]).
  - exact appletalk_net_info_consts.
  - exact appletalk_flags_distinct.
  - exact port_10_ok.
  - vm_compute. discriminate.
  - reflexivity.
  - reflexivity.
  - vm_compute. discriminate.
Defined.

Lemma multicast_address_of_reply_witness :
  exists fl mcast tail r,
    _get_net_info appletalk ascii_ucase (router_of sales_zit) get_net_info_eng port_10
      = ([Send port_10 (source_network get_net_info_eng) (source_node get_net_info_eng) r],
         Returned tt)
    /\ data r
       = bytes_of [ZIP_FUNC_GETNETINFO_REPLY appletalk; fl;
                   network_min port_10 / 256; network_min port_10 mod 256;
                   network_max port_10 / 256; network_max port_10 mod 256;
                   len (given_zone_name get_net_info_eng)]
         ++ given_zone_name get_net_info_eng ++ zone_entry mcast ++ tail
    /\ getitem (data r) 1 = Returned fl
    /\ is_byte fl
    /\ len mcast <= 255
    /\ (Z.land fl (ZIP_GETNETINFO_USE_BROADCAST appletalk) <> 0 <-> mcast = [])
    /\ ((forall z, In z [zone "Sales"; zone "Eng"] ->
                   ascii_ucase z <> ascii_ucase (given_zone_name get_net_info_eng)) ->
          mcast = multicast_address port_10 (zone "Sales"))
    /\ (forall z, In z [zone "Sales"; zone "Eng"] ->
          ascii_ucase z = ascii_ucase (given_zone_name get_net_info_eng) ->
          (forall z', In z' [zone "Sales"; zone "Eng"] ->
                      ascii_ucase z' = ascii_ucase (given_zone_name get_net_info_eng) ->
                      z' = z) ->
          mcast = multicast_address port_10 z).
Proof.
  apply (multicast_address_of_reply appletalk ascii_ucase (router_of sales_zit)
           get_net_info_eng port_10 (zone "Sales") [zone "Eng"]).
  - exact appletalk_net_info_consts.
  - exact appletalk_flags_distinct.
  - exact port_10_ok.
  - vm_compute. discriminate.
  - reflexivity.
  - reflexivity.
  - vm_compute. discriminate.
Defined.

Lemma extended_replies_send_first_network_witness :
  exists earlier,
    extended_replies appletalk 20 query_10_20
      (list_item_of 10 (zone "Sales")
       :: [list_item_of 10 (zone "Eng"); list_item_of 20 (zone "HR")])
      = (earlier
         ++ [Route (reply_datagram query_10_20 (ZIP_DDP_TYPE appletalk)
                      (bytes_of [ZIP_FUNC_EXT_REPLY appletalk;
                                 len (first_network_items (PyInt 10)
                                        (snd (list_item_of 10 (zone "Sales")))
                                        [list_item_of 10 (zone "Eng");
                                         list_item_of 20 (zone "HR")])]
                       ++ concat (first_network_items (PyInt 10)
                                    (snd (list_item_of 10 (zone "Sales")))
                                    [list_item_of 10 (zone "Eng");
                                     list_item_of 20 (zone "HR")])))],
         Raised TypeError)
    /\ Forall (fun a => exists j,
                 a = Route (reply_datagram query_10_20 (ZIP_DDP_TYPE appletalk)
                              (bytes_of [ZIP_FUNC_EXT_REPLY appletalk;
                                         len (first_network_items (PyInt 10)
                                                (snd (list_item_of 10 (zone "Sales")))
                                                [list_item_of 10 (zone "Eng");
                                                 list_item_of 20 (zone "HR")])]
                               ++ concat
                                    (firstn j
                                       (first_network_items (PyInt 10)
                                          (snd (list_item_of 10 (zone "Sales")))
                                          [list_item_of 10 (zone "Eng");
                                           list_item_of 20 (zone "HR")])))))
              earlier
    /\ (exists last,
          extended_replies appletalk 20 query_10_20
            (list_item_of 10 (zone "Sales")
             :: [list_item_of 10 (zone "Eng"); list_item_of 20 (zone "HR")])
            = (earlier ++ [Route last], Raised TypeError)
          /\ routed_answer query_10_20 last (ZIP_DDP_TYPE appletalk)
               (bytes_of [ZIP_FUNC_EXT_REPLY appletalk;
                          len (first_network_items (PyInt 10)
                     (snd (list_item_of 10 (zone "Sales")))
                     [list_item_of 10 (zone "Eng"); list_item_of 20 (zone "HR")])]
                ++ concat (first_network_items (PyInt 10)
                     (snd (list_item_of 10 (zone "Sales")))
                     [list_item_of 10 (zone "Eng"); list_item_of 20 (zone "HR")])))
    /\ Forall (fun a => exists j,
                 payload a
                 = bytes_of [ZIP_FUNC_EXT_REPLY appletalk;
                             len (first_network_items (PyInt 10)
                     (snd (list_item_of 10 (zone "Sales")))
                     [list_item_of 10 (zone "Eng"); list_item_of 20 (zone "HR")])]
                   ++ concat (firstn j (first_network_items (PyInt 10)
                     (snd (list_item_of 10 (zone "Sales")))
                     [list_item_of 10 (zone "Eng"); list_item_of 20 (zone "HR")])))
              earlier.
Proof.
  apply (extended_replies_send_first_network appletalk 20 query_10_20 (PyInt 10)
           (snd (list_item_of 10 (zone "Sales")))
           [list_item_of 10 (zone "Eng"); list_item_of 20 (zone "HR")]).
  - unfold is_byte. simpl. lia.
  - vm_compute. discriminate.
Defined.

Lemma unplugged_gets_no_packet_witness :
  VirtualLocalTalkNetwork.send_packet [1; 3]%nat (zone "packet") 1%nat
    = filter (fun call => negb (Nat.eqb (fst call) 2))
             (VirtualLocalTalkNetwork.send_packet [1; 2; 3]%nat (zone "packet") 1%nat).
Proof.
  apply (unplugged_gets_no_packet [1; 2; 3]%nat [1; 3]%nat 2%nat).
  - reflexivity.
  - reflexivity.
Defined.

Lemma run_ends_on_empty_range_witness :
  _run appletalk DDP_MAX_DATA_LENGTH ascii_ucase (router_of sales_zit)
       (Item get_net_info_empty port_3 :: [Item get_zone_list_1 port_3])
    = ([], Raised TypeError).
Proof.
  apply (run_ends_on_empty_range appletalk DDP_MAX_DATA_LENGTH ascii_ucase
           (router_of sales_zit) get_net_info_empty port_3 [Item get_zone_list_1 port_3]).
  - exact appletalk_net_info_consts.
  - constructor; simpl; try lia. intros _. vm_compute. discriminate.
  - reflexivity.
  - vm_compute. discriminate.
  - reflexivity.
  - simpl. discriminate.
  - reflexivity.
  - reflexivity.
Defined.
